(** * NYC collisions ETL job: a shallow embedding of [etl_job.py]

    The job reads a watermark document from object storage, pages through
    the Socrata API, transforms the batch with Spark column expressions,
    bulk-loads it into the warehouse and advances the watermark.

    The third-party systems the job talks to (S3, HTTP, Spark, Redshift) are
    modelled explicitly:
    - Python [str] values are Rocq strings (8-bit code points);
    - a JSON record as delivered by the API is a [gmap string value];
    - a Spark DataFrame is a list of column names and a list of rows, a row
      being a [gmap string value] in which a missing key reads as SQL NULL;
    - Spark runs with its default, non-ANSI settings: an [int] is a 32-bit
      value whose arithmetic wraps around and a cast of an unparseable
      string yields NULL;
    - the calendar, floating-point and JSON rendering functions of Spark are
      fields of an [Engine] record, since nothing here depends on them. *)

From Stdlib Require Import ZArith String Ascii List Bool Lia.
From stdpp Require Import base option list sorting gmap strings pretty.

Import ListNotations.
Local Open Scope string_scope.
Local Open Scope list_scope.
Local Open Scope Z_scope.

(** ** config.py *)

Module Config.
Definition CONFIG_BUCKET : string := "nyc-collisions-ecc".
Definition CONFIG_FILE_KEY : string := "config/last_collision_date.json".
Definition LOGS_BUCKET : string := "nyc-collisions-ecc".
Definition LOGS_KEY_PREFIX : string := "logs/".
Definition DATA_BUCKET : string := "nyc-collisions-ecc".
Definition PROCESSED_DATA_PREFIX : string := "processed_data".
Definition BASE_URL : string :=
  "https://data.cityofnewyork.us/resource/h9gi-nx95.json".
Definition LIMIT : Z := 50000.
Definition REDSHIFT_IAM_ROLE : string :=
  "arn:aws:iam::340752835797:role/service-role/AmazonRedshift-CommandsAccessRole-20241204T130545".
Definition REDSHIFT_TABLE : string := "public.collisions".
End Config.

(** ** Exceptions the job can meet

    [Unmodelled] marks an input this development does not cover (a code
    point above 255, a JSON document that is not an object of strings); it is
    not an exception of Python. *)

Inductive exn : Type :=
| AnalysisException (msg : string)
| ValueError (msg : string)
| TypeError (msg : string)
| AttributeError (msg : string)
| KeyError (key : string)
| JSONDecodeError
| UnicodeDecodeError
| ClientError (operation : string)
| ConnectionError
| DatabaseError
| Py4JJavaError
| Unmodelled (what : string).

Inductive result (A : Type) : Type :=
| Ok (a : A)
| Raise (e : exn).
Arguments Ok {A} a.
Arguments Raise {A} e.

Definition bind_result {A B} (r : result A) (f : A -> result B) : result B :=
  match r with
  | Ok a => f a
  | Raise e => Raise e
  end.

#[global] Instance result_bind : MBind result :=
  fun A B f r => bind_result r f.
#[global] Instance result_ret : MRet result := @Ok.

(** ** Python string operations used by the job *)

Module PyStr.

(** Code point of a character. *)
Definition code (c : ascii) : Z := Z.of_N (N_of_ascii c).

(** [a < b] on [str]: lexicographic on code points, a proper prefix being
    smaller. Spark's [max] on a string column uses the same order. *)
Fixpoint ltb (a b : string) : bool :=
  match a, b with
  | EmptyString, EmptyString => false
  | EmptyString, String _ _ => true
  | String _ _, EmptyString => false
  | String x a', String y b' =>
      if code x <? code y then true
      else if code y <? code x then false
      else ltb a' b'
  end.

Definition leb (a b : string) : bool := negb (ltb b a).

(** [s.split("T")[0]]: the part of [s] before the first ["T"], all of [s]
    when there is none. *)
Fixpoint split_T_head (s : string) : string :=
  match s with
  | EmptyString => EmptyString
  | String c s' =>
      if Ascii.eqb c "T" then EmptyString else String c (split_T_head s')
  end.

End PyStr.

(** ** The [json] module, as far as the watermark document needs it *)

Module Json.

Definition quote : ascii := ascii_of_N 34.
Definition backslash : ascii := ascii_of_N 92.

Definition hex_digit (n : N) : ascii :=
  if (n <? 10)%N then ascii_of_N (48 + n) else ascii_of_N (87 + n).

(** [json.dumps] escapes with [ensure_ascii=True]: the quote, the backslash
    and everything outside [0x20..0x7e]. *)
Definition escape (c : ascii) : string :=
  let n := N_of_ascii c in
  if (n =? 34)%N then String backslash (String quote EmptyString)
  else if (n =? 92)%N then String backslash (String backslash EmptyString)
  else if (n =? 10)%N then String backslash "n"
  else if (n =? 13)%N then String backslash "r"
  else if (n =? 9)%N then String backslash "t"
  else if (n =? 8)%N then String backslash "b"
  else if (n =? 12)%N then String backslash "f"
  else if ((32 <=? n) && (n <=? 126))%N then String c EmptyString
  else String backslash
         (String "u" (String "0" (String "0"
            (String (hex_digit (n / 16)) (String (hex_digit (n mod 16)) EmptyString))))).

Fixpoint escape_all (s : string) : string :=
  match s with
  | EmptyString => EmptyString
  | String c s' => escape c +:+ escape_all s'
  end.

Definition encode_string (s : string) : string :=
  String quote (escape_all s +:+ String quote EmptyString).

Fixpoint encode_members (ms : list (string * string)) : string :=
  match ms with
  | [] => EmptyString
  | [(k, v)] => encode_string k +:+ ": " +:+ encode_string v
  | (k, v) :: ms' =>
      encode_string k +:+ ": " +:+ encode_string v +:+ ", " +:+ encode_members ms'
  end.

(** [json.dumps(d)] for a dict [d] of strings, given as its items. *)
Definition dumps (ms : list (string * string)) : string :=
  "{" +:+ encode_members ms +:+ "}".

Definition hex_value (c : ascii) : option N :=
  let n := N_of_ascii c in
  if ((48 <=? n) && (n <=? 57))%N then Some (n - 48)%N
  else if ((97 <=? n) && (n <=? 102))%N then Some (n - 87)%N
  else if ((65 <=? n) && (n <=? 70))%N then Some (n - 55)%N
  else None.

Definition hex4 (a b c d : ascii) : option N :=
  match hex_value a, hex_value b, hex_value c, hex_value d with
  | Some x, Some y, Some z, Some t => Some (((x * 16 + y) * 16 + z) * 16 + t)%N
  | _, _, _, _ => None
  end.

Definition unescape (e : ascii) : option ascii :=
  let n := N_of_ascii e in
  if (n =? 34)%N then Some quote
  else if (n =? 92)%N then Some backslash
  else if (n =? 47)%N then Some "/"%char
  else if (n =? 98)%N then Some (ascii_of_N 8)
  else if (n =? 102)%N then Some (ascii_of_N 12)
  else if (n =? 110)%N then Some (ascii_of_N 10)
  else if (n =? 114)%N then Some (ascii_of_N 13)
  else if (n =? 116)%N then Some (ascii_of_N 9)
  else None.

Definition cons_result (c : ascii) (r : result (string * string))
  : result (string * string) :=
  '(d, rest) ← r; Ok (String c d, rest).

(** The decoder's string scanner, started after the opening quote; it
    returns the decoded string and what follows the closing quote. A raw
    control character is refused (strict mode). *)
Fixpoint scan_string (s : string) : result (string * string) :=
  match s with
  | EmptyString => Raise JSONDecodeError
  | String c rest =>
      if Ascii.eqb c quote then Ok (EmptyString, rest)
      else if Ascii.eqb c backslash then
        match rest with
        | EmptyString => Raise JSONDecodeError
        | String e rest1 =>
            if Ascii.eqb e "u" then
              match rest1 with
              | String h1 (String h2 (String h3 (String h4 rest2))) =>
                  match hex4 h1 h2 h3 h4 with
                  | Some n =>
                      if (n <? 256)%N
                      then cons_result (ascii_of_N n) (scan_string rest2)
                      else Raise (Unmodelled "code point above 255")
                  | None => Raise JSONDecodeError
                  end
              | _ => Raise JSONDecodeError
              end
            else
              match unescape e with
              | Some c' => cons_result c' (scan_string rest1)
              | None => Raise JSONDecodeError
              end
        end
      else if (N_of_ascii c <? 32)%N then Raise JSONDecodeError
      else cons_result c (scan_string rest)
  end.

Definition is_ws (c : ascii) : bool :=
  let n := N_of_ascii c in
  ((n =? 32) || (n =? 9) || (n =? 10) || (n =? 13))%N.

Fixpoint skip_ws (s : string) : string :=
  match s with
  | String c s' => if is_ws c then skip_ws s' else s
  | EmptyString => EmptyString
  end.

(** A member value that is not a string is well-formed JSON or not; either
    way the model stops there. *)
Definition scan_value (s : string) : result (string * string) :=
  match s with
  | String c rest =>
      if Ascii.eqb c quote then scan_string rest
      else Raise (Unmodelled "member value is not a string")
  | EmptyString => Raise JSONDecodeError
  end.

(** Members of an object, started at the opening quote of a key. *)
Fixpoint scan_members (fuel : nat) (s : string)
  : result (list (string * string) * string) :=
  match fuel with
  | O => Raise JSONDecodeError
  | S fuel' =>
      match s with
      | String c rest =>
          if Ascii.eqb c quote then
            '(k, s1) ← scan_string rest;
            match skip_ws s1 with
            | String c1 s2 =>
                if Ascii.eqb c1 ":" then
                  '(v, s3) ← scan_value (skip_ws s2);
                  match skip_ws s3 with
                  | String c3 s4 =>
                      if Ascii.eqb c3 "}" then Ok ([(k, v)], s4)
                      else if Ascii.eqb c3 "," then
                        '(ms, s5) ← scan_members fuel' (skip_ws s4);
                        Ok ((k, v) :: ms, s5)
                      else Raise JSONDecodeError
                  | EmptyString => Raise JSONDecodeError
                  end
                else Raise JSONDecodeError
            | EmptyString => Raise JSONDecodeError
            end
          else Raise JSONDecodeError
      | EmptyString => Raise JSONDecodeError
      end
  end.

(** The members between the braces, started after the opening brace. *)
Definition scan_object (s : string) : result (list (string * string) * string) :=
  match skip_ws s with
  | String c s' =>
      if Ascii.eqb c "}" then Ok ([], s')
      else scan_members (String.length (String c s')) (String c s')
  | EmptyString => Raise JSONDecodeError
  end.

(** [json.loads(text)], the result given as the dict it builds: a key that
    occurs twice keeps its last value. *)
Definition loads (text : string) : result (gmap string string) :=
  match skip_ws text with
  | String c s1 =>
      if Ascii.eqb c "{" then
        '(ms, s2) ← scan_object s1;
        match skip_ws s2 with
        | EmptyString => Ok (fold_left (fun m kv => <[kv.1 := kv.2]> m) ms ∅)
        | String _ _ => Raise JSONDecodeError
        end
      else Raise (Unmodelled "document is not an object")
  | EmptyString => Raise JSONDecodeError
  end.

End Json.

(** ** The Spark engine, as far as the job uses it *)

Module Spark.

Definition INT_MIN : Z := -2147483648.
Definition INT_MAX : Z := 2147483647.

(** Two's-complement wrap-around of a 32-bit [int]. *)
Definition wrap32 (z : Z) : Z := (z + 2147483648) mod 4294967296 - 2147483648.

(** [IntegerType] addition with Spark's default (non-ANSI) overflow. *)
Definition int_add (a b : Z) : Z := wrap32 (a + b).

(** A cell of a DataFrame. Columns are typed in Spark; here every cell
    carries its own tag. [VDouble] holds the IEEE bit pattern and only the
    engine produces it. *)
Inductive value : Type :=
| VNull
| VStr (s : string)
| VInt (n : Z)                       (* IntegerType, 32 bits *)
| VLong (n : Z)                      (* LongType: a JSON integer *)
| VBool (b : bool)
| VDate (days : Z)
| VTimestamp (micros : Z)
| VDouble (bits : Z)
| VMap (m : list (string * string)). (* MapType(String, String) *)

#[global] Instance value_eq_dec : EqDecision value.
Proof. solve_decision. Defined.

Definition is_null (v : value) : bool :=
  match v with VNull => true | _ => false end.


Inductive part : Type := Year | Month | DayOfWeek | Hour.

(** What the job leaves to the engine. *)
Record Engine : Type := {
  parse_date : string -> string -> option Z;
  parse_timestamp : string -> string -> option Z;
  extract : part -> value -> option Z;
  render : value -> string;
  cast_double : value -> value;
}.

(** *** String to int, after [UTF8String.toInt] *)

Definition is_space (c : ascii) : bool :=
  let n := PyStr.code c in (n <=? 32) || (n =? 127).

Fixpoint ltrim (s : string) : string :=
  match s with
  | String c s' => if is_space c then ltrim s' else s
  | EmptyString => EmptyString
  end.

Fixpoint rev_string (s acc : string) : string :=
  match s with
  | EmptyString => acc
  | String c s' => rev_string s' (String c acc)
  end.

Definition trim (s : string) : string :=
  rev_string (ltrim (rev_string (ltrim s) EmptyString)) EmptyString.

Definition digit_of (c : ascii) : option Z :=
  let n := PyStr.code c in
  if (48 <=? n) && (n <=? 57) then Some (n - 48) else None.

(** The fractional part must be digits only; it is dropped. *)
Fixpoint all_digits (s : string) : bool :=
  match s with
  | EmptyString => true
  | String c s' =>
      match digit_of c with Some _ => all_digits s' | None => false end
  end.

(** Integral digits up to an optional ["."]. *)
Fixpoint parse_digits (s : string) (acc : Z) : option Z :=
  match s with
  | EmptyString => Some acc
  | String c s' =>
      if Ascii.eqb c "." then (if all_digits s' then Some acc else None)
      else match digit_of c with
           | Some d => parse_digits s' (10 * acc + d)
           | None => None
           end
  end.

Definition string_to_int (s : string) : option Z :=
  match trim s with
  | EmptyString => None
  | String c rest =>
      let signed := Ascii.eqb c "-" || Ascii.eqb c "+" in
      let body := if signed then rest else String c rest in
      match body with
      | EmptyString => None
      | _ =>
          match parse_digits body 0 with
          | Some m =>
              let n := if Ascii.eqb c "-" then - m else m in
              if (INT_MIN <=? n) && (n <=? INT_MAX) then Some n else None
          | None => None
          end
      end
  end.

(** [col.cast("int")]. Dates, doubles and maps do not occur under this cast
    in the job; they read as NULL here. *)
Definition cast_int (v : value) : value :=
  match v with
  | VStr s => match string_to_int s with Some n => VInt n | None => VNull end
  | VInt n => VInt (wrap32 n)
  | VLong n => VInt (wrap32 n)
  | VBool b => VInt (if b then 1 else 0)
  | _ => VNull
  end.

Definition cast_string (eng : Engine) (v : value) : option string :=
  match v with
  | VNull => None
  | VStr s => Some s
  | _ => Some (render eng v)
  end.

(** *** Column expressions *)

Inductive dtype : Type := IntT | DoubleT.

Inductive expr : Type :=
| Col (c : string)
| LitInt (n : Z)
| LitStr (s : string)
| LitBool (b : bool)
| Cast (e : expr) (t : dtype)
| Add (a b : expr)
| Eq (a b : expr)
| Le (a b : expr)
| Lt (a b : expr)
| Ge (a b : expr)
| And (a b : expr)
| Or (a b : expr)
| ToDate (e : expr) (fmt : string)
| ToTimestamp (e : expr) (fmt : string)
| ConcatWs (sep : string) (a b : expr)
| Extract (p : part) (e : expr)
| ToJson (e : expr)
| IfThenElse (c v els : expr).

(** [when(c, v).when(c', v') ... .otherwise(d)] *)
Definition cases : Type := list (expr * expr).
Definition when (c v : expr) : cases := [(c, v)].
Definition and_when (cs : cases) (c v : expr) : cases := cs ++ [(c, v)].
Definition otherwise (cs : cases) (d : expr) : expr :=
  fold_right (fun cv els => IfThenElse (fst cv) (snd cv) els) d cs.

Abbreviation row := (gmap string value).

Definition cell (r : row) (c : string) : value := default VNull (r !! c).

(** Comparison of two ints under SQL's three-valued logic. *)
Definition compare_with (op : Z -> Z -> bool) (a b : value) : value :=
  match a, b with
  | VInt x, VInt y => VBool (op x y)
  | _, _ => VNull
  end.

(** Kleene conjunction and disjunction. *)
Definition sql_and (a b : value) : value :=
  match a, b with
  | VBool false, _ | _, VBool false => VBool false
  | VBool true, VBool true => VBool true
  | _, _ => VNull
  end.

Definition sql_or (a b : value) : value :=
  match a, b with
  | VBool true, _ | _, VBool true => VBool true
  | VBool false, VBool false => VBool false
  | _, _ => VNull
  end.

Definition sql_add (a b : value) : value :=
  match a, b with
  | VInt x, VInt y => VInt (int_add x y)
  | _, _ => VNull
  end.

(** [concat_ws] skips NULL arguments. *)
Definition concat_ws (sep : string) (a b : option string) : string :=
  match a, b with
  | Some x, Some y => x +:+ sep +:+ y
  | Some x, None => x
  | None, Some y => y
  | None, None => EmptyString
  end.

Definition opt_value {A} (f : A -> value) (o : option A) : value :=
  match o with Some a => f a | None => VNull end.

Fixpoint eval (eng : Engine) (r : row) (e : expr) : value :=
  match e with
  | Col c => cell r c
  | LitInt n => VInt n
  | LitStr s => VStr s
  | LitBool b => VBool b
  | Cast e IntT => cast_int (eval eng r e)
  | Cast e DoubleT =>
      match eval eng r e with VNull => VNull | v => cast_double eng v end
  | Add a b => sql_add (eval eng r a) (eval eng r b)
  | Eq a b => compare_with Z.eqb (eval eng r a) (eval eng r b)
  | Le a b => compare_with Z.leb (eval eng r a) (eval eng r b)
  | Lt a b => compare_with Z.ltb (eval eng r a) (eval eng r b)
  | Ge a b => compare_with Z.geb (eval eng r a) (eval eng r b)
  | And a b => sql_and (eval eng r a) (eval eng r b)
  | Or a b => sql_or (eval eng r a) (eval eng r b)
  | ToDate e fmt =>
      opt_value VDate (cast_string eng (eval eng r e) ≫= parse_date eng fmt)
  | ToTimestamp e fmt =>
      opt_value VTimestamp
        (cast_string eng (eval eng r e) ≫= parse_timestamp eng fmt)
  | ConcatWs sep a b =>
      VStr (concat_ws sep (cast_string eng (eval eng r a))
                          (cast_string eng (eval eng r b)))
  | Extract p e =>
      match eval eng r e with
      | VNull => VNull
      | v => opt_value VInt (extract eng p v)
      end
  | ToJson e =>
      match eval eng r e with VNull => VNull | v => VStr (render eng v) end
  | IfThenElse c v els =>
      match eval eng r c with
      | VBool true => eval eng r v
      | _ => eval eng r els
      end
  end.

(** Column references of an expression; analysis fails when one of them is
    not a column of the DataFrame. *)
Fixpoint refs (e : expr) : list string :=
  match e with
  | Col c => [c]
  | LitInt _ | LitStr _ | LitBool _ => []
  | Cast e _ | ToDate e _ | ToTimestamp e _ | Extract _ e | ToJson e => refs e
  | Add a b | Eq a b | Le a b | Lt a b | Ge a b | And a b | Or a b
  | ConcatWs _ a b => refs a ++ refs b
  | IfThenElse c v els => refs c ++ refs v ++ refs els
  end.

(** *** DataFrames *)

Record DataFrame : Type := {
  columns : list string;
  rows : list row;
}.

(** [c in df.columns]: a comparison of the names as they are written.
    Spark's own lookup of a name ignores case; the properties that depend on
    the difference are stated for DataFrames on which the two agree. *)
Definition has_column (df : DataFrame) (c : string) : bool :=
  bool_decide (c ∈ columns df).

Definition resolves (df : DataFrame) (e : expr) : bool :=
  forallb (has_column df) (refs e).

(** [spark.createDataFrame(data)] on a list of dicts. The fields of a dict
    are taken in sorted order; the schema is that of the first dict, followed
    by the fields later dicts add. A field without any non-null value has no
    type, and two values of one field must agree on theirs. *)

Definition str_le (a b : string) : Prop := PyStr.leb a b = true.

#[global] Instance str_le_dec (a b : string) : Decision (str_le a b).
Proof. unfold str_le. apply _. Defined.

Definition sorted_keys (r : row) : list string :=
  merge_sort str_le (map fst (map_to_list r)).

Definition merge_fields (cols : list string) (r : row) : list string :=
  cols ++ filter (fun k => k ∉ cols) (sorted_keys r).

Definition infer_columns (data : list row) : list string :=
  fold_left merge_fields data [].

Inductive tag : Type :=
  TStr | TInt | TLong | TBool | TDate | TTimestamp | TDouble | TMap.

#[global] Instance tag_eq_dec : EqDecision tag.
Proof. solve_decision. Defined.

Definition tag_of (v : value) : option tag :=
  match v with
  | VNull => None
  | VStr _ => Some TStr
  | VInt _ => Some TInt
  | VLong _ => Some TLong
  | VBool _ => Some TBool
  | VDate _ => Some TDate
  | VTimestamp _ => Some TTimestamp
  | VDouble _ => Some TDouble
  | VMap _ => Some TMap
  end.

Definition column_tags (data : list row) (c : string) : list tag :=
  omap (fun r => tag_of (cell r c)) data.

Definition untyped (data : list row) (c : string) : bool :=
  match column_tags data c with [] => true | _ => false end.

Definition mixed (data : list row) (c : string) : bool :=
  match column_tags data c with
  | [] => false
  | t :: ts => negb (forallb (fun t' => bool_decide (t' = t)) ts)
  end.

Definition createDataFrame (data : list row) : result DataFrame :=
  let cols := infer_columns data in
  if existsb (untyped data) cols then
    Raise (ValueError "Some of types cannot be determined after inferring")
  else if existsb (mixed data) cols then
    Raise (TypeError "Can not merge type")
  else Ok {| columns := cols; rows := data |}.

(** [a.unionByName(b)], with [allowMissingColumns] left at its default
    [False]: neither side may name a column twice, every column of [a] is
    looked up in [b] by name, and the two sides must have the same number of
    columns. The rows of [b] follow those of [a] under the columns of [a]. *)
Definition unionByName (a b : DataFrame) : result DataFrame :=
  if negb (bool_decide (NoDup (columns a)) && bool_decide (NoDup (columns b))) then
    Raise (AnalysisException "Found duplicate column(s)")
  else
    match filter (fun c => c ∉ columns b) (columns a) with
    | c :: _ =>
        Raise (AnalysisException ("Cannot resolve column name " +:+ c))
    | [] =>
        if bool_decide (length (columns a) = length (columns b)) then
          Ok {| columns := columns a; rows := rows a ++ rows b |}
        else
          Raise (AnalysisException
            "Union can only be performed on tables with the same number of columns")
    end.

(** [df.dropna(subset=cs)] *)
Definition dropna (subset : list string) (df : DataFrame) : result DataFrame :=
  if forallb (has_column df) subset then
    Ok {| columns := columns df;
          rows := filter (fun r => forallb (fun c => negb (is_null (cell r c))) subset = true)
                         (rows df) |}
  else Raise (AnalysisException "Cannot resolve column name").

(** [df.withColumn(name, e)]: replaces the column in place when it exists,
    appends it otherwise. *)
Definition withColumn (eng : Engine) (name : string) (e : expr) (df : DataFrame)
  : result DataFrame :=
  if resolves df e then
    Ok {| columns := if has_column df name then columns df
                     else columns df ++ [name];
          rows := map (fun r => <[name := eval eng r e]> r) (rows df) |}
  else Raise (AnalysisException "Column cannot be resolved").

(** [df.select(cs)] *)
Definition select (cs : list string) (df : DataFrame) : result DataFrame :=
  if forallb (has_column df) cs then
    Ok {| columns := cs;
          rows := map (fun r => filter (fun kv => kv.1 ∈ cs) r) (rows df) |}
  else Raise (AnalysisException "Column cannot be resolved").

Definition count (df : DataFrame) : Z := Z.of_nat (length (rows df)).

(** [max] of two cells of one column; NULL is skipped. *)
Definition value_max (a b : value) : value :=
  match a, b with
  | VNull, _ => b
  | _, VNull => a
  | VStr x, VStr y => if PyStr.ltb x y then b else a
  | VInt x, VInt y | VLong x, VLong y | VDate x, VDate y
  | VTimestamp x, VTimestamp y => if x <? y then b else a
  | _, _ => a
  end.

(** [df.agg(max(col(c))).collect()[0][...]] *)
Definition agg_max (c : string) (df : DataFrame) : result value :=
  if has_column df c then
    Ok (fold_left (fun m r => value_max m (cell r c)) (rows df) VNull)
  else Raise (AnalysisException "Column cannot be resolved").

End Spark.

(** ** The job: [etl_job.py] *)

Module Etl.
Import Config Spark.

(** *** The world outside the process *)

Inductive level : Type := INFO | ERROR.

Abbreviation log_line := (level * string)%type.

(** An object of the store. The processed dataset is kept as the DataFrame
    that was written, a log as its lines. *)
Inductive s3_object : Type :=
| TextObject (body : string)
| ParquetObject (df : DataFrame)
| LogObject (lines : list log_line).

Record query_params : Type := {
  q_where : string;
  q_limit : Z;
  q_offset : Z;
}.

(** [response.json()] raises when the body is not JSON ([None]). *)
Record response : Type := {
  status_code : Z;
  json : option (list row);
}.

Inductive http_result : Type :=
| Responds (r : response)
| Unreachable.

(** A successful answer with a page of records. *)
Definition ok_page (data : list row) : http_result :=
  Responds {| status_code := 200; json := Some data |}.

Inductive call : Type :=
| S3GetObject (bucket key : string)
| S3PutObject (bucket key body : string)
| HttpGet (url : string) (params : query_params)
| ParquetSave (path : string)
| RedshiftExecute (sql : string)
| S3UploadFile (bucket key : string)
| SparkStop.

(** The state of a run. [api] holds the answers the API will give, in
    order; when they are used up the API is unreachable. The [_fails] fields
    say which of the external systems refuse their request in this run.
    An overwrite clears its target before it writes, and nothing in the job
    says at which point a refused write of the dataset fails:
    [parquet_clears] says whether it had already cleared the target. *)
Record World : Type := {
  s3 : gmap (string * string) s3_object;
  api : list http_result;
  log_file : list log_line;
  calls : list call;
  timestamp : string;
  s3_get_fails : bool;
  s3_put_fails : bool;
  parquet_fails : bool;
  redshift_connect_fails : bool;
  redshift_copy_fails : bool;
  upload_fails : bool;
  spark_stop_fails : bool;
  parquet_clears : bool;
}.

Definition with_s3 (f : gmap (string * string) s3_object -> gmap (string * string) s3_object)
  (w : World) : World :=
  {| s3 := f (s3 w); api := api w; log_file := log_file w; calls := calls w;
     timestamp := timestamp w; s3_get_fails := s3_get_fails w;
     s3_put_fails := s3_put_fails w; parquet_fails := parquet_fails w;
     redshift_connect_fails := redshift_connect_fails w;
     redshift_copy_fails := redshift_copy_fails w; upload_fails := upload_fails w;
     spark_stop_fails := spark_stop_fails w; parquet_clears := parquet_clears w |}.

Definition with_api (a : list http_result) (w : World) : World :=
  {| s3 := s3 w; api := a; log_file := log_file w; calls := calls w;
     timestamp := timestamp w; s3_get_fails := s3_get_fails w;
     s3_put_fails := s3_put_fails w; parquet_fails := parquet_fails w;
     redshift_connect_fails := redshift_connect_fails w;
     redshift_copy_fails := redshift_copy_fails w; upload_fails := upload_fails w;
     spark_stop_fails := spark_stop_fails w; parquet_clears := parquet_clears w |}.

Definition with_log (l : log_line) (w : World) : World :=
  {| s3 := s3 w; api := api w; log_file := log_file w ++ [l]; calls := calls w;
     timestamp := timestamp w; s3_get_fails := s3_get_fails w;
     s3_put_fails := s3_put_fails w; parquet_fails := parquet_fails w;
     redshift_connect_fails := redshift_connect_fails w;
     redshift_copy_fails := redshift_copy_fails w; upload_fails := upload_fails w;
     spark_stop_fails := spark_stop_fails w; parquet_clears := parquet_clears w |}.

Definition with_call (c : call) (w : World) : World :=
  {| s3 := s3 w; api := api w; log_file := log_file w; calls := calls w ++ [c];
     timestamp := timestamp w; s3_get_fails := s3_get_fails w;
     s3_put_fails := s3_put_fails w; parquet_fails := parquet_fails w;
     redshift_connect_fails := redshift_connect_fails w;
     redshift_copy_fails := redshift_copy_fails w; upload_fails := upload_fails w;
     spark_stop_fails := spark_stop_fails w; parquet_clears := parquet_clears w |}.

(** *** Computations: state and exceptions *)

Definition M (A : Type) : Type := World -> result A * World.

#[global] Instance M_ret : MRet M := fun A a w => (Ok a, w).

#[global] Instance M_bind : MBind M := fun A B f m w =>
  match m w with
  | (Ok a, w') => f a w'
  | (Raise e, w') => (Raise e, w')
  end.

Definition raise {A} (e : exn) : M A := fun w => (Raise e, w).

Definition lift {A} (r : result A) : M A := fun w => (r, w).

Definition get_world : M World := fun w => (Ok w, w).

Definition modify (f : World -> World) : M unit := fun w => (Ok tt, f w).

Definition perform (c : call) : M unit := modify (with_call c).

(** [try: body except Exception: handler] *)
Definition try_except {A} (body : M A) (handler : exn -> M A) : M A := fun w =>
  match body w with
  | (Ok a, w') => (Ok a, w')
  | (Raise e, w') => handler e w'
  end.

(** [try: body finally: cleanup]: the cleanup always runs; what it raises
    replaces the outcome of the body. *)
Definition try_finally {A} (body : M A) (cleanup : M unit) : M A := fun w =>
  let (r, w1) := body w in
  match cleanup w1 with
  | (Ok _, w2) => (r, w2)
  | (Raise e, w2) => (Raise e, w2)
  end.

Definition logger_info (msg : string) : M unit := modify (with_log (INFO, msg)).
Definition logger_error (msg : string) : M unit := modify (with_log (ERROR, msg)).
(** [logger.exception] logs at level ERROR, with the traceback. *)
Definition logger_exception (msg : string) : M unit := modify (with_log (ERROR, msg)).

Definition log_file_name (w : World) : string :=
  "etl_log_" +:+ timestamp w +:+ ".log".

(** *** boto3 *)

(** The document is text in UTF-8. What [json.dumps] writes is plain ASCII,
    which decodes to itself. *)
Definition utf8_decode (body : string) : result string :=
  if forallb (fun c => (N_of_ascii c <? 128)%N) (list_ascii_of_string body)
  then Ok body
  else Raise (Unmodelled "non-ASCII document").

Definition s3_get_object (bucket key : string) : M string :=
  _ ← perform (S3GetObject bucket key);
  w ← get_world;
  if s3_get_fails w then raise (ClientError "GetObject")
  else match s3 w !! (bucket, key) with
       | Some (TextObject body) => mret body
       | Some _ => raise (Unmodelled "binary object")
       | None => raise (ClientError "NoSuchKey")
       end.

Definition s3_put_object (bucket key body : string) : M unit :=
  _ ← perform (S3PutObject bucket key body);
  w ← get_world;
  if s3_put_fails w then raise (ClientError "PutObject")
  else modify (with_s3 (insert (bucket, key) (TextObject body))).

Definition s3_upload_file (bucket key : string) : M unit :=
  _ ← perform (S3UploadFile bucket key);
  w ← get_world;
  if upload_fails w then raise (ClientError "UploadFile")
  else modify (with_s3 (insert (bucket, key) (LogObject (log_file w)))).

(** *** The watermark store *)

Definition config_key : string * string := (CONFIG_BUCKET, CONFIG_FILE_KEY).

Definition read_last_collision_date : M string :=
  _ ← logger_info ("Reading last_collision_date from s3://" +:+ CONFIG_BUCKET
                     +:+ "/" +:+ CONFIG_FILE_KEY);
  body ← s3_get_object CONFIG_BUCKET CONFIG_FILE_KEY;
  file_content ← lift (utf8_decode body);
  config_data ← lift (Json.loads file_content);
  match config_data !! "last_collision_date" with
  | None => raise (KeyError "last_collision_date")
  | Some last_collision_date =>
      _ ← logger_info ("Last collision date from config: " +:+ last_collision_date);
      mret last_collision_date
  end.

Definition update_last_collision_date (new_date : string) : M unit :=
  let content := Json.dumps [("last_collision_date", new_date)] in
  _ ← s3_put_object CONFIG_BUCKET CONFIG_FILE_KEY content;
  logger_info ("Updated last_collision_date to " +:+ new_date +:+ " and saved to S3.").

(** *** The incremental fetcher *)

Definition query (last_collision_date : string) (limit offset : Z) : query_params :=
  {| q_where := "crash_date > '" +:+ last_collision_date +:+ "'";
     q_limit := limit;
     q_offset := offset |}.

(** [requests.get(url, params=params)], answered by the next answer of the
    API; [rest] are the answers after it. *)
Definition requests_get (url : string) (params : query_params)
    (answer : http_result) (rest : list http_result) : M response :=
  _ ← perform (HttpGet url params);
  _ ← modify (with_api rest);
  match answer with
  | Responds r => mret r
  | Unreachable => raise ConnectionError
  end.

Definition response_json (r : response) : result (list row) :=
  match json r with
  | Some data => Ok data
  | None => Raise JSONDecodeError
  end.

(** The [while True] loop. Every turn takes one answer from the API, so the
    loop is written by recursion on the answers still to come ([answers] is
    [api] of the world it runs in); with none left the request fails. *)
Fixpoint download_loop (limit : Z) (answers : list http_result)
    (last_collision_date : string) (offset : Z) (all_data_df : option DataFrame)
  : M (option DataFrame) :=
  let query_params := query last_collision_date limit offset in
  match answers with
  | [] => _ ← perform (HttpGet BASE_URL query_params); raise ConnectionError
  | answer :: answers' =>
      response ← requests_get BASE_URL query_params answer answers';
      if negb (status_code response =? 200) then
        _ ← logger_error ("Failed to download data. Status code: "
                            +:+ pretty (status_code response));
        mret all_data_df
      else
        data ← lift (response_json response);
        match data with
        | [] =>
            _ ← logger_info "No more new data to download.";
            mret all_data_df
        | _ :: _ =>
            batch_df ← lift (createDataFrame data);
            all_data_df ← match all_data_df with
                          | None => mret batch_df
                          | Some df => lift (unionByName df batch_df)
                          end;
            let offset := offset + limit in
            _ ← logger_info ("Downloaded a batch of "
                               +:+ pretty (Z.of_nat (length data))
                               +:+ " records, offset is now " +:+ pretty offset);
            download_loop limit answers' last_collision_date offset (Some all_data_df)
        end
  end.

(** [download_new_data] for a page size [limit]. *)
Definition download_pages (limit : Z) (last_collision_date : string)
  : M (option DataFrame) :=
  _ ← logger_info "Starting data download from Socrata.";
  w ← get_world;
  download_loop limit (api w) last_collision_date 0 None.

Definition download_new_data (last_collision_date : string) : M (option DataFrame) :=
  download_pages LIMIT last_collision_date.

(** *** The transformer *)

Section Transformer.
Context (eng : Engine).

Definition int_cols : list string :=
  [ "number_of_persons_injured";
    "number_of_persons_killed";
    "number_of_pedestrians_injured";
    "number_of_pedestrians_killed";
    "number_of_cyclist_injured";
    "number_of_cyclist_killed";
    "number_of_motorist_injured";
    "number_of_motorist_killed" ].

(** [for c in cs: if c in data.columns: data = data.withColumn(c, col(c).cast("int"))] *)
Fixpoint cast_columns (cs : list string) (data : DataFrame) : result DataFrame :=
  match cs with
  | [] => Ok data
  | c :: cs' =>
      if has_column data c then
        data ← withColumn eng c (Cast (Col c) IntT) data;
        cast_columns cs' data
      else cast_columns cs' data
  end.

Definition is_weekend_expr : expr :=
  otherwise
    (when (Or (Eq (Col "day_of_week") (LitInt 1)) (Eq (Col "day_of_week") (LitInt 7)))
          (LitBool true))
    (LitBool false).

Definition time_of_day_expr : expr :=
  otherwise
    (and_when
      (and_when
        (and_when
          (when (And (Ge (Col "hour") (LitInt 0)) (Lt (Col "hour") (LitInt 6)))
                (LitStr "Late Night"))
          (And (Ge (Col "hour") (LitInt 6)) (Lt (Col "hour") (LitInt 12)))
          (LitStr "Morning"))
        (And (Ge (Col "hour") (LitInt 12)) (Lt (Col "hour") (LitInt 17)))
        (LitStr "Afternoon"))
      (And (Ge (Col "hour") (LitInt 17)) (Lt (Col "hour") (LitInt 21)))
      (LitStr "Evening"))
    (LitStr "Night").

Definition total_injuries_expr : expr :=
  Add (Add (Add (Col "number_of_persons_injured")
                (Col "number_of_pedestrians_injured"))
           (Col "number_of_cyclist_injured"))
      (Col "number_of_motorist_injured").

Definition total_fatalities_expr : expr :=
  Add (Add (Add (Col "number_of_persons_killed")
                (Col "number_of_pedestrians_killed"))
           (Col "number_of_cyclist_killed"))
      (Col "number_of_motorist_killed").

Definition severity_category_expr : expr :=
  otherwise
    (and_when
      (when (Eq (Add (Col "total_injuries") (Col "total_fatalities")) (LitInt 0))
            (LitStr "Minor"))
      (Le (Add (Col "total_injuries") (Col "total_fatalities")) (LitInt 2))
      (LitStr "Moderate"))
    (LitStr "Severe").

Definition desired_columns : list string :=
  [ "collision_id"; "crash_timestamp"; "crash_date"; "crash_time"; "year";
    "month"; "day_of_week"; "is_weekend"; "time_of_day"; "borough";
    "zip_code"; "latitude"; "longitude"; "location"; "on_street_name";
    "cross_street_name"; "off_street_name"; "total_injuries";
    "total_fatalities"; "severity_category"; "number_of_persons_injured";
    "number_of_persons_killed"; "number_of_pedestrians_injured";
    "number_of_pedestrians_killed"; "number_of_cyclist_injured";
    "number_of_cyclist_killed"; "number_of_motorist_injured";
    "number_of_motorist_killed"; "contributing_factor_vehicle_1";
    "contributing_factor_vehicle_2"; "contributing_factor_vehicle_3";
    "contributing_factor_vehicle_4"; "contributing_factor_vehicle_5";
    "vehicle_type_code1"; "vehicle_type_code2"; "vehicle_type_code_3";
    "vehicle_type_code_4"; "vehicle_type_code_5" ].

(** Steps 1 to 12 of [transform_data]: the DataFrame that is written. *)
Definition transform_frame (data : DataFrame) : result DataFrame :=
  data ← dropna ["collision_id"] data;
  data ← withColumn eng "collision_id" (Cast (Col "collision_id") IntT) data;
  data ← cast_columns int_cols data;
  data ← withColumn eng "crash_date" (ToDate (Col "crash_date") "yyyy-MM-dd") data;
  data ← withColumn eng "crash_timestamp"
           (ToTimestamp (ConcatWs " " (Col "crash_date") (Col "crash_time"))
                        "yyyy-MM-dd HH:mm") data;
  data ← withColumn eng "year" (Extract Year (Col "crash_timestamp")) data;
  data ← withColumn eng "month" (Extract Month (Col "crash_timestamp")) data;
  data ← withColumn eng "day_of_week" (Extract DayOfWeek (Col "crash_timestamp")) data;
  data ← withColumn eng "is_weekend" is_weekend_expr data;
  data ← withColumn eng "hour" (Extract Hour (Col "crash_timestamp")) data;
  data ← withColumn eng "time_of_day" time_of_day_expr data;
  data ← withColumn eng "total_injuries" total_injuries_expr data;
  data ← withColumn eng "total_fatalities" total_fatalities_expr data;
  data ← withColumn eng "severity_category" severity_category_expr data;
  data ← withColumn eng "latitude" (Cast (Col "latitude") DoubleT) data;
  data ← withColumn eng "longitude" (Cast (Col "longitude") DoubleT) data;
  data ← (if has_column data "location"
          then withColumn eng "location" (ToJson (Col "location")) data
          else Ok data);
  let existing_columns := filter (fun c => has_column data c = true) desired_columns in
  select existing_columns data.

(** [data.write.mode("overwrite").format("parquet").save(path)]. A write
    that is refused raises; what was stored under the path is then either
    still there or already cleared. *)
Definition parquet_save (path_key : string) (data : DataFrame) : M unit :=
  _ ← perform (ParquetSave ("s3://" +:+ DATA_BUCKET +:+ "/" +:+ path_key));
  w ← get_world;
  if parquet_fails w then
    _ ← (if parquet_clears w
         then modify (with_s3 (delete (DATA_BUCKET, path_key)))
         else mret tt);
    raise Py4JJavaError
  else modify (with_s3 (insert (DATA_BUCKET, path_key) (ParquetObject data))).

Definition transform_data (data : DataFrame) : M string :=
  data ← lift (transform_frame data);
  let processed_data_path :=
    "s3://" +:+ DATA_BUCKET +:+ "/" +:+ PROCESSED_DATA_PREFIX +:+ "/" in
  _ ← parquet_save (PROCESSED_DATA_PREFIX +:+ "/") data;
  _ ← logger_info ("Processed data saved to " +:+ processed_data_path);
  mret processed_data_path.

End Transformer.

(** *** The warehouse loader *)

(** A line feed. *)
Definition nl : string := String (ascii_of_N 10) EmptyString.

(** The f-string of [copy_command]: five line breaks, each line of the
    command and the end of the literal indented by four spaces. *)
Definition copy_command (processed_data_path : string) : string :=
  nl +:+ "    COPY " +:+ REDSHIFT_TABLE
  +:+ nl +:+ "    FROM '" +:+ processed_data_path +:+ "'"
  +:+ nl +:+ "    IAM_ROLE '" +:+ REDSHIFT_IAM_ROLE +:+ "'"
  +:+ nl +:+ "    FORMAT AS PARQUET;"
  +:+ nl +:+ "    ".

(** [psycopg2.connect] and [cur.execute] may each be refused. *)
Definition load_data_into_redshift (processed_data_path : string) : M unit :=
  w ← get_world;
  _ ← (if redshift_connect_fails w then raise DatabaseError else mret tt);
  _ ← logger_info "Running Redshift COPY command.";
  _ ← perform (RedshiftExecute (copy_command processed_data_path));
  _ ← (if redshift_copy_fails w then raise DatabaseError else mret tt);
  logger_info "Data successfully loaded into Redshift.".

(** *** The run log *)

Definition upload_logs_to_s3 : M unit :=
  _ ← logger_info "Uploading log file to S3.";
  w ← get_world;
  _ ← s3_upload_file LOGS_BUCKET (LOGS_KEY_PREFIX +:+ log_file_name w);
  logger_info "Log file uploaded to S3.".

Definition spark_stop : M unit :=
  _ ← perform SparkStop;
  w ← get_world;
  if spark_stop_fails w then raise Py4JJavaError else mret tt.

(** *** The orchestrator *)

(** [new_last_collision_date.split("T")[0]] on what [collect] hands to
    Python: only a [str] has [split]. *)
Definition split_date (v : value) : result string :=
  match v with
  | VStr s => Ok (PyStr.split_T_head s)
  | _ => Raise (AttributeError "split")
  end.

Definition pipeline (eng : Engine) : M unit :=
  last_collision_date ← read_last_collision_date;
  all_data_df ← download_new_data last_collision_date;
  match all_data_df with
  | None =>
      logger_info "No new data found since the last collision date. Nothing to process."
  | Some all_data_df =>
      let record_count := count all_data_df in
      _ ← logger_info ("Total new records downloaded: " +:+ pretty record_count);
      max_crash_date ← lift (agg_max "crash_date" all_data_df);
      new_last_collision_date ← lift (split_date max_crash_date);
      processed_data_path ← transform_data eng all_data_df;
      _ ← load_data_into_redshift processed_data_path;
      update_last_collision_date new_last_collision_date
  end.

Definition main (eng : Engine) : M unit :=
  try_finally
    (try_except (pipeline eng)
       (fun e => logger_exception "An error occurred during the ETL process."))
    (_ ← upload_logs_to_s3; spark_stop).

End Etl.

(** ** A reference engine

    The statements below hold for every [Engine]. The examples run on this
    one: UTC, proleptic Gregorian calendar, the two patterns of the job read
    strictly from the start of the text (what follows the pattern is
    ignored, as the legacy parser does), no conversion to double. *)

Module Reference.
Import Spark.

Fixpoint take_digits (n : nat) (s : string) : option (Z * string) :=
  match n with
  | O => Some (0, s)
  | S n' =>
      match s with
      | String c s' =>
          match digit_of c, take_digits n' s' with
          | Some d, Some (v, rest) => Some (d * 10 ^ Z.of_nat n' + v, rest)
          | _, _ => None
          end
      | EmptyString => None
      end
  end.

Definition expect (c : ascii) (s : string) : option string :=
  match s with
  | String c' s' => if Ascii.eqb c c' then Some s' else None
  | EmptyString => None
  end.

Definition days_from_civil (y m d : Z) : Z :=
  let y' := if m <=? 2 then y - 1 else y in
  let era := y' / 400 in
  let yoe := y' - era * 400 in
  let doy := (153 * (m + (if 2 <? m then -3 else 9)) + 2) / 5 + d - 1 in
  let doe := yoe * 365 + yoe / 4 - yoe / 100 + doy in
  era * 146097 + doe - 719468.

Definition civil_from_days (days : Z) : Z * Z * Z :=
  let z := days + 719468 in
  let era := z / 146097 in
  let doe := z - era * 146097 in
  let yoe := (doe - doe / 1460 + doe / 36524 - doe / 146096) / 365 in
  let doy := doe - (365 * yoe + yoe / 4 - yoe / 100) in
  let mp := (5 * doy + 2) / 153 in
  let d := doy - (153 * mp + 2) / 5 + 1 in
  let m := if mp <? 10 then mp + 3 else mp - 9 in
  let y := yoe + era * 400 in
  (if m <=? 2 then y + 1 else y, m, d).

Definition read_date (s : string) : option (Z * string) :=
  '(y, s) ← take_digits 4 s;
  s ← expect "-" s;
  '(m, s) ← take_digits 2 s;
  s ← expect "-" s;
  '(d, s) ← take_digits 2 s;
  if (1 <=? m) && (m <=? 12) && (1 <=? d) && (d <=? 31)
  then Some (days_from_civil y m d, s) else None.

Definition read_timestamp (s : string) : option Z :=
  '(days, s) ← read_date s;
  s ← expect " " s;
  '(hh, s) ← take_digits 2 s;
  s ← expect ":" s;
  '(mm, s) ← take_digits 2 s;
  if (hh <? 24) && (mm <? 60)
  then Some (((days * 24 + hh) * 60 + mm) * 60000000) else None.

Definition micros_per_day : Z := 86400000000.

Definition extract_part (p : part) (v : value) : option Z :=
  let of_micros t :=
    let '(y, m, _) := civil_from_days (t / micros_per_day) in
    match p with
    | Year => y
    | Month => m
    | DayOfWeek => (t / micros_per_day + 4) mod 7 + 1
    | Hour => (t / 3600000000) mod 24
    end in
  match v with
  | VTimestamp t => Some (of_micros t)
  | VDate d => Some (of_micros (d * micros_per_day))
  | _ => None
  end.

Definition pad2 (n : Z) : string :=
  if n <? 10 then "0" +:+ pretty n else pretty n.

Definition render_value (v : value) : string :=
  match v with
  | VStr s => s
  | VInt n | VLong n => pretty n
  | VBool b => if b then "true" else "false"
  | VDate d =>
      let '(y, m, d) := civil_from_days d in
      pretty y +:+ "-" +:+ pad2 m +:+ "-" +:+ pad2 d
  | _ => EmptyString
  end.

Definition engine : Engine := {|
  parse_date fmt s :=
    if String.eqb fmt "yyyy-MM-dd" then fst <$> read_date s else None;
  parse_timestamp fmt s :=
    if String.eqb fmt "yyyy-MM-dd HH:mm" then read_timestamp s else None;
  extract := extract_part;
  render := render_value;
  cast_double _ := VNull;
|}.

End Reference.

(** ** Example data *)

Module Examples.
Import Spark Etl.

(** A record as the API delivers it: every field a string. *)
Definition collision (collision_id crash_date crash_time injured killed : string)
  : row :=
  list_to_map
    [ ("collision_id", VStr collision_id);
      ("crash_date", VStr crash_date);
      ("crash_time", VStr crash_time);
      ("number_of_persons_injured", VStr injured);
      ("number_of_persons_killed", VStr killed);
      ("number_of_pedestrians_injured", VStr "0");
      ("number_of_pedestrians_killed", VStr "0");
      ("number_of_cyclist_injured", VStr "0");
      ("number_of_cyclist_killed", VStr "0");
      ("number_of_motorist_injured", VStr injured);
      ("number_of_motorist_killed", VStr killed);
      ("latitude", VStr "40.667202");
      ("longitude", VStr "-73.8665") ].

Definition morning_crash : row :=
  collision "4455765" "2023-01-02T00:00:00.000" "10:30" "1" "0".

Definition evening_crash : row :=
  collision "4455766" "2023-01-05T00:00:00.000" "17:45" "0" "0".

(** A record whose [collision_id] is a string that is not a number. *)
Definition unparseable_id_crash : row :=
  collision "abc" "2023-01-02T00:00:00.000" "10:30" "1" "0".

(** A record without the persons-injured count: the API leaves a null field
    out. *)
Definition uncounted_crash : row :=
  delete "number_of_persons_injured" evening_crash.

Definition frame_of (data : list row) : DataFrame :=
  match createDataFrame data with
  | Ok df => df
  | Raise _ => {| columns := []; rows := [] |}
  end.

Definition transformed (data : list row) : DataFrame :=
  match transform_frame Reference.engine (frame_of data) with
  | Ok df => df
  | Raise _ => {| columns := []; rows := [] |}
  end.

(** A record in which the API left the coordinates out. *)
Definition sparse_crash : row :=
  delete "latitude" (delete "longitude" evening_crash).

(** A run in which every external system answers, started at a given
    watermark. *)
Definition quiet_world (answers : list http_result) (watermark : string) : World :=
  {| s3 := {[ config_key
              := TextObject (Json.dumps [("last_collision_date", watermark)]) ]};
     api := answers;
     log_file := [(INFO, "Starting NYC Crashes Data ETL")];
     calls := [];
     timestamp := "20230106_120000";
     s3_get_fails := false;
     s3_put_fails := false;
     parquet_fails := false;
     redshift_connect_fails := false;
     redshift_copy_fails := false;
     upload_fails := false;
     spark_stop_fails := false;
     parquet_clears := false |}.

(** The same run with some of the external systems refusing. *)
Definition with_failures (get put parquet connect copy upload stop : bool)
    (w : World) : World :=
  {| s3 := s3 w; api := api w; log_file := log_file w; calls := calls w;
     timestamp := timestamp w;
     s3_get_fails := get;
     s3_put_fails := put;
     parquet_fails := parquet;
     redshift_connect_fails := connect;
     redshift_copy_fails := copy;
     upload_fails := upload;
     spark_stop_fails := stop;
     parquet_clears := parquet_clears w |}.

(** One page with the two crashes, then the empty page: the end-to-end
    scenario of the specification. *)
Definition one_page : list http_result :=
  [ok_page [morning_crash; evening_crash]; ok_page []].

(** The store is down for the whole run. *)
Definition outage_world : World :=
  with_failures true true false false false true false
    (quiet_world one_page "2023-01-01").

(** The warehouse rejects the COPY. *)
Definition rejected_load_world : World :=
  with_failures false false false false true false false
    (quiet_world one_page "2023-01-01").

(** Pages of one record each, for a page size of 1. *)
Definition two_pages : list http_result :=
  [ok_page [morning_crash]; ok_page [evening_crash]; ok_page []].

Definition uneven_pages : list http_result :=
  [ok_page [morning_crash]; ok_page [sparse_crash]; ok_page []].

Definition first_row (df : DataFrame) : row := default ∅ (head (rows df)).

Definition morning_row : row := first_row (transformed [morning_crash]).
Definition unparseable_id_row : row := first_row (transformed [unparseable_id_crash]).
Definition uncounted_row : row :=
  default ∅ (rows (transformed [morning_crash; uncounted_crash]) !! 1%nat).

End Examples.

(** * The vocabulary of the properties *)

Import Config Spark Etl.

(** ** Rows and columns *)

(** An expression reads only the columns it refers to. *)
Definition agree (cs : list string) (r r' : row) : Prop :=
  forall c, c ∈ cs -> cell r' c = cell r c.

Definition col_values (c : string) (df : DataFrame) : list value :=
  map (fun r => cell r c) (rows df).

(** A property of rows that looks at the columns [cs] only, together with
    the presence of these columns. *)
Definition reads_only (cs : list string) (Q : row -> Prop) : Prop :=
  forall r r', agree cs r r' -> Q r -> Q r'.

Definition holds (cs : list string) (Q : row -> Prop) (df : DataFrame) : Prop :=
  Forall Q (rows df) /\ Forall (fun c => has_column df c = true) cs.

(** ** The derived columns *)

Definition hour_of (eng : Engine) (crash_timestamp : value) : option Z :=
  match crash_timestamp with
  | VNull => None
  | v => extract eng Hour v
  end.

Definition time_of_day_of (hour : option Z) : string :=
  match hour with
  | None => "Night"
  | Some h =>
      if (0 <=? h) && (h <? 6) then "Late Night"
      else if (6 <=? h) && (h <? 12) then "Morning"
      else if (12 <=? h) && (h <? 17) then "Afternoon"
      else if (17 <=? h) && (h <? 21) then "Evening"
      else "Night"
  end.

(** The buckets of [time_of_day], as the specification words them. *)
Definition time_of_day_spec (hour : option Z) (bucket : string) : Prop :=
  match hour with
  | None => bucket = "Night"
  | Some h =>
      (0 <= h < 6 -> bucket = "Late Night")
      /\ (6 <= h < 12 -> bucket = "Morning")
      /\ (12 <= h < 17 -> bucket = "Afternoon")
      /\ (17 <= h < 21 -> bucket = "Evening")
      /\ (21 <= h < 24 -> bucket = "Night")
      /\ (h < 0 \/ 24 <= h -> bucket = "Night")
  end.

Definition severity_of (total : Z) : string :=
  if total =? 0 then "Minor" else if total <=? 2 then "Moderate" else "Severe".

Definition severity_category_of (total_injuries total_fatalities : value) : string :=
  match total_injuries, total_fatalities with
  | VInt i, VInt f => severity_of (int_add i f)
  | _, _ => "Severe"
  end.

(** ** The fetch loop *)

(** An answer on which the loop ends: a status other than 200, or an empty
    page. *)
Definition stops (t : http_result) : Prop :=
  exists r, t = Responds r /\ (status_code r <> 200 \/ json r = Some []).

(** The dataset accumulated from a list of pages, starting from [acc]. *)
Fixpoint accumulate (acc : option DataFrame) (pages : list (list row))
  : result (option DataFrame) :=
  match pages with
  | [] => Ok acc
  | data :: pages' =>
      batch_df ← createDataFrame data;
      all_data_df ← match acc with
                    | None => Ok batch_df
                    | Some df => unionByName df batch_df
                    end;
      accumulate (Some all_data_df) pages'
  end.

(** The requests of [n] turns of the loop, the first at [offset]. *)
Definition page_requests (limit : Z) (last_collision_date : string) (offset : Z)
    (n : nat) : list call :=
  map (fun i => HttpGet BASE_URL
                  (query last_collision_date limit (offset + limit * Z.of_nat i)))
      (seq 0 n).

(** ** Frames of a computation *)

(** The answers of the external systems and the run's timestamp are fixed
    for a run. *)
Definition same_setting (w w' : World) : Prop :=
  timestamp w' = timestamp w
  /\ s3_get_fails w' = s3_get_fails w
  /\ s3_put_fails w' = s3_put_fails w
  /\ parquet_fails w' = parquet_fails w
  /\ redshift_connect_fails w' = redshift_connect_fails w
  /\ redshift_copy_fails w' = redshift_copy_fails w
  /\ upload_fails w' = upload_fails w
  /\ spark_stop_fails w' = spark_stop_fails w
  /\ parquet_clears w' = parquet_clears w.

(** From [w] to [w']: the setting is the same, the store changed within [K],
    the calls made all satisfy [P], and the log only grew. *)
Definition frame (P : call -> Prop)
    (K : gmap (string * string) s3_object -> gmap (string * string) s3_object -> Prop)
    (w w' : World) : Prop :=
  same_setting w w'
  /\ K (s3 w) (s3 w')
  /\ (exists cs, calls w' = calls w ++ cs /\ Forall P cs)
  /\ (exists ls, log_file w' = log_file w ++ ls).

Definition respects (P : call -> Prop)
    (K : gmap (string * string) s3_object -> gmap (string * string) s3_object -> Prop)
    {A} (m : M A) : Prop :=
  forall w, frame P K w (snd (m w)).

(** The calls the pipeline can make: all but the two of the cleanup. *)
Definition pipeline_call (c : call) : Prop :=
  match c with
  | S3UploadFile _ _ | SparkStop => False
  | _ => True
  end.

Definition any_store (m m' : gmap (string * string) s3_object) : Prop := True.

(** The watermark document is where it was. *)
Definition config_kept (m m' : gmap (string * string) s3_object) : Prop :=
  m' !! config_key = m !! config_key.

(** A call other than the write of the watermark document. *)
Definition not_the_write (c : call) : Prop :=
  forall body, c <> S3PutObject CONFIG_BUCKET CONFIG_FILE_KEY body.

(** A step that leaves the watermark document alone. *)
Abbreviation quiet := (frame not_the_write config_kept).

(** ** The orchestrator *)

Definition error_line : log_line :=
  (ERROR, "An error occurred during the ETL process.").

(** What the [finally] block returns or raises. *)
Definition cleanup_outcome (w : World) : result unit :=
  if upload_fails w then Raise (ClientError "UploadFile")
  else if spark_stop_fails w then Raise Py4JJavaError
  else Ok tt.

(** ** The watermark *)

(** A cell of a string column. *)
Definition string_or_null (v : value) : Prop :=
  v = VNull \/ exists s, v = VStr s.

(** The API honours [crash_date > 'watermark']: every [crash_date] of the
    batch is above the watermark in the order of strings. *)
Definition honors_filter (watermark : string) (batch : DataFrame) : Prop :=
  forall r s, r ∈ rows batch -> cell r "crash_date" = VStr s ->
    PyStr.ltb watermark s = true.

(** The watermark is no longer than the date part of any [crash_date] of the
    batch: it is a date, not a date with what follows it. *)
Definition date_parts_cover (watermark : string) (batch : DataFrame) : Prop :=
  forall r s, r ∈ rows batch -> cell r "crash_date" = VStr s ->
    (String.length watermark <= String.length (PyStr.split_T_head s))%nat.

(** Checks of [honors_filter] and [date_parts_cover] that run. *)
Definition honors_filter_check (watermark : string) (batch : DataFrame) : bool :=
  forallb (fun r => match cell r "crash_date" with
                    | VStr s => PyStr.ltb watermark s
                    | _ => true
                    end)
          (rows batch).

Definition date_parts_cover_check (watermark : string) (batch : DataFrame) : bool :=
  forallb (fun r => match cell r "crash_date" with
                    | VStr s =>
                        (String.length watermark
                         <=? String.length (PyStr.split_T_head s))%nat
                    | _ => true
                    end)
          (rows batch).

(** ** The columns of the transformer *)

(** The columns [transform_data] refers to without a guard. *)
Definition required_columns : list string :=
  ["collision_id"] ++ int_cols ++ ["crash_date"; "crash_time"; "latitude"; "longitude"].

(** The desired columns the transformer adds. *)
Definition derived_columns : list string :=
  ["crash_timestamp"; "year"; "month"; "day_of_week"; "is_weekend"; "time_of_day";
   "total_injuries"; "total_fatalities"; "severity_category"].


(** The columns assigned by a [withColumn] outside the loop and the guard. *)
Definition steps_columns : list string :=
  ["collision_id"; "crash_date"; "crash_timestamp"; "year"; "month"; "day_of_week";
   "is_weekend"; "hour"; "time_of_day"; "total_injuries"; "total_fatalities";
   "severity_category"; "latitude"; "longitude"].

(** The records that [dropna(subset=["collision_id"])] keeps. *)
Definition kept_rows (df : DataFrame) : list row :=
  filter (fun r => cell r "collision_id" <> VNull) (rows df).

Definition part_of (eng : Engine) (p : part) (crash_timestamp : value) : value :=
  match crash_timestamp with
  | VNull => VNull
  | v => opt_value VInt (extract eng p v)
  end.

Definition is_weekend_of (day_of_week : value) : bool :=
  match day_of_week with
  | VInt d => (d =? 1) || (d =? 7)
  | _ => false
  end.

Definition to_date_of (eng : Engine) (raw : value) : value :=
  opt_value VDate (cast_string eng raw ≫= parse_date eng "yyyy-MM-dd").

Definition cast_double_of (eng : Engine) (raw : value) : value :=
  match raw with
  | VNull => VNull
  | VStr _ | VInt _ | VLong _ | VBool _ | VDate _ | VTimestamp _ | VDouble _
  | VMap _ => cast_double eng raw
  end.

Definition to_json_of (eng : Engine) (raw : value) : value :=
  match raw with
  | VNull => VNull
  | VStr _ | VInt _ | VLong _ | VBool _ | VDate _ | VTimestamp _ | VDouble _
  | VMap _ => VStr (render eng raw)
  end.

(** ** DataFrames of the API's records

    Spark resolves a column name without regard to case and refuses a name
    that two columns match, where Python's [c in data.columns] compares the
    names as they are. On a DataFrame whose column names are distinct and
    written in lower-case letters, digits and underscores, as the field
    names of the API are, the two agree, and [has_column] stands for both.
    The columns the transformer reads hold text there, and [location] an
    object. *)

Definition plain_char (c : ascii) : bool :=
  let n := PyStr.code c in
  ((97 <=? n) && (n <=? 122)) || ((48 <=? n) && (n <=? 57)) || (n =? 95).

Definition plain_name (s : string) : bool :=
  forallb plain_char (list_ascii_of_string s).

Definition plain_columns (df : DataFrame) : Prop :=
  NoDup (columns df) /\ Forall (fun c => plain_name c = true) (columns df).

Definition is_text (v : value) : bool :=
  match v with VNull | VStr _ => true | _ => false end.

Definition is_map_or_null (v : value) : bool :=
  match v with VNull | VMap _ => true | _ => false end.

(** Values that [cast("int")] is modelled on. *)
Definition is_scalar (v : value) : bool :=
  match v with
  | VNull | VStr _ | VInt _ | VLong _ | VBool _ => true
  | _ => false
  end.

Definition api_typed (df : DataFrame) : Prop :=
  Forall (fun r => forallb (fun c => is_text (cell r c)) required_columns = true
                   /\ is_map_or_null (cell r "location") = true)
         (rows df).

Definition scalar_columns (cols : list string) (df : DataFrame) : Prop :=
  Forall (fun r => forallb (fun c => is_scalar (cell r c)) cols = true) (rows df).

(** ** The objects and the lines of a run *)

Definition processed_key : string * string :=
  (DATA_BUCKET, PROCESSED_DATA_PREFIX +:+ "/").

Definition processed_path : string :=
  "s3://" +:+ DATA_BUCKET +:+ "/" +:+ PROCESSED_DATA_PREFIX +:+ "/".

Definition watermark_document (d : string) : string :=
  Json.dumps [("last_collision_date", d)].

Definition log_key (w : World) : string * string :=
  (LOGS_BUCKET, LOGS_KEY_PREFIX +:+ log_file_name w).

Definition uploading_line : log_line := (INFO, "Uploading log file to S3.").
Definition uploaded_line : log_line := (INFO, "Log file uploaded to S3.").

Definition no_new_data_line : log_line :=
  (INFO, "No new data found since the last collision date. Nothing to process.").

(** An answer on which the loop raises: the request cannot be made, or the
    body of a 200 is not JSON. *)
Definition breaks (t : http_result) (e : exn) : Prop :=
  t = Unreachable /\ e = ConnectionError
  \/ exists r, t = Responds r /\ status_code r = 200 /\ json r = None
               /\ e = JSONDecodeError.

(** ** More example data *)

(** A crash on a Sunday, late in the evening. *)
Definition sunday_crash : row :=
  Examples.collision "4455767" "2023-01-01T00:00:00.000" "23:15" "3" "1".

(** A record without a time of the crash. *)
Definition untimed_crash : row :=
  Examples.collision "4455768" "2023-01-03T00:00:00.000" EmptyString "0" "0".

Definition sunday_row : row := Examples.first_row (Examples.transformed [sunday_crash]).

Definition untimed_row : row :=
  default ∅ (rows (Examples.transformed [Examples.morning_crash; untimed_crash]) !! 1%nat).

(** A store without the watermark document. *)
Definition empty_store_world : World :=
  with_s3 (fun _ => ∅) (Examples.quiet_world [] "2023-01-01").

(** A fetch cut short: one page, then a status 500. *)
Definition cut_short_world : World :=
  Examples.quiet_world
    [ok_page [Examples.morning_crash; Examples.evening_crash];
     Responds {| status_code := 500; json := None |}]
    "2023-01-01".

(** A crash at noon of the day of the watermark below. *)
Definition noon_crash : row :=
  Examples.collision "4455769" "2023-01-05T12:00:00.000" "12:00" "0" "0".

(** A run whose stored watermark is a timestamp, not a date. *)
Definition timestamp_watermark_world : World :=
  Examples.quiet_world [ok_page [noon_crash]; ok_page []] "2023-01-05T00:00:00.000".

(** * Properties *)

(** ** Rows and column expressions *)

Lemma bind_Ok_inv {A B} (r : result A) (f : A -> result B) (b : B) :
  r ≫= f = Ok b -> exists a, r = Ok a /\ f a = Ok b.
Proof. destruct r as [a|e]; simpl; [eauto | discriminate]. Qed.

Lemma cell_insert_eq (r : row) (c : string) (v : value) :
  cell (<[c := v]> r) c = v.
Proof. unfold cell. by rewrite lookup_insert_eq. Qed.

Lemma cell_insert_ne (r : row) (n c : string) (v : value) :
  n <> c -> cell (<[n := v]> r) c = cell r c.
Proof. intros Hne. unfold cell. by rewrite lookup_insert_ne. Qed.

Lemma cell_project (r : row) (cs : list string) (c : string) :
  c ∈ cs -> cell (filter (fun kv : string * value => kv.1 ∈ cs) r) c = cell r c.
Proof.
  intros Hin. unfold cell. rewrite map_lookup_filter.
  destruct (r !! c) as [v|]; simpl; [| done].
  by rewrite option_guard_True.
Qed.

Lemma agree_app_l (cs ds : list string) (r r' : row) :
  agree (cs ++ ds) r r' -> agree cs r r'.
Proof. intros H c Hc. apply H. set_solver. Qed.

Lemma agree_app_r (cs ds : list string) (r r' : row) :
  agree (cs ++ ds) r r' -> agree ds r r'.
Proof. intros H c Hc. apply H. set_solver. Qed.

Lemma eval_agree (eng : Engine) (e : expr) (r r' : row) :
  agree (refs e) r r' -> eval eng r' e = eval eng r e.
Proof.
  induction e; simpl; intros H;
    repeat match goal with
    | H : agree (_ ++ _) _ _ |- _ =>
        pose proof (agree_app_l _ _ _ _ H); pose proof (agree_app_r _ _ _ _ H);
        clear H
    | IH : agree ?cs ?r ?r' -> _, H : agree ?cs ?r ?r' |- _ => specialize (IH H)
    end;
    repeat match goal with
    | IH : eval _ _ _ = _ |- _ => rewrite IH; clear IH
    end;
    try reflexivity.
  apply H. set_solver.
Qed.

Lemma agree_insert (cs : list string) (n : string) (v : value) (r : row) :
  n ∉ cs -> agree cs r (<[n := v]> r).
Proof. intros Hn c Hc. apply cell_insert_ne. set_solver. Qed.

(** ** DataFrame steps *)

Lemma has_column_true (df : DataFrame) (c : string) :
  has_column df c = true <-> c ∈ columns df.
Proof. unfold has_column. by rewrite bool_decide_eq_true. Qed.

Lemma withColumn_inv (eng : Engine) (n : string) (e : expr) (df df' : DataFrame) :
  withColumn eng n e df = Ok df' ->
  rows df' = map (fun r => <[n := eval eng r e]> r) (rows df)
  /\ has_column df' n = true
  /\ (forall c, has_column df c = true -> has_column df' c = true)
  /\ (forall c, c ∈ refs e -> has_column df c = true).
Proof.
  unfold withColumn. destruct (resolves df e) eqn:Hres; [| discriminate].
  intros [= <-]. simpl. split; [done |]. split; [| split].
  - destruct (has_column df n) eqn:Hn; [done |].
    apply has_column_true. simpl. set_solver.
  - intros c Hc. destruct (has_column df n); [done |].
    apply has_column_true. simpl. apply has_column_true in Hc. set_solver.
  - intros c Hc. unfold resolves in Hres. rewrite forallb_forall in Hres.
    apply Hres. by apply list_elem_of_In.
Qed.

Lemma withColumn_col_values (eng : Engine) (n c : string) (e : expr)
    (df df' : DataFrame) :
  n <> c -> withColumn eng n e df = Ok df' -> col_values c df' = col_values c df.
Proof.
  intros Hne H. apply withColumn_inv in H as (Hrows & _). unfold col_values.
  rewrite Hrows, map_map. apply map_ext. intros r. by apply cell_insert_ne.
Qed.

Lemma holds_withColumn (eng : Engine) (cs : list string) (Q : row -> Prop)
    (n : string) (e : expr) (df df' : DataFrame) :
  reads_only cs Q -> bool_decide (n ∈ cs) = false ->
  withColumn eng n e df = Ok df' -> holds cs Q df -> holds cs Q df'.
Proof.
  intros HQ Hn H [Hrows Hcols]. apply bool_decide_eq_false in Hn.
  apply withColumn_inv in H as (Hr & _ & Hmono & _). split.
  - rewrite Hr. apply Forall_map. eapply Forall_impl; [exact Hrows |].
    intros r Hq. simpl. eapply HQ; [| exact Hq]. by apply agree_insert.
  - eapply Forall_impl; [exact Hcols |]. intros c. apply Hmono.
Qed.

(** A new column holds the value of its expression, as long as the
    expression does not read the column itself. *)
Lemma holds_new_column (eng : Engine) (n : string) (e : expr) (df df' : DataFrame) :
  bool_decide (n ∈ refs e) = false ->
  withColumn eng n e df = Ok df' ->
  holds (n :: refs e) (fun r => cell r n = eval eng r e) df'.
Proof.
  intros Hn H. apply bool_decide_eq_false in Hn.
  apply withColumn_inv in H as (Hr & Hnew & Hmono & Hrefs). split.
  - rewrite Hr. apply Forall_map, Forall_forall. intros r _. simpl.
    rewrite cell_insert_eq. symmetry. apply eval_agree. by apply agree_insert.
  - constructor; [done |]. apply Forall_forall. intros c Hc. auto.
Qed.

Lemma holds_and (cs ds : list string) (P Q : row -> Prop) (df : DataFrame) :
  holds cs P df -> holds ds Q df -> holds (cs ++ ds) (fun r => P r /\ Q r) df.
Proof.
  intros [HP Hc] [HQ Hd]. split.
  - apply Forall_and; done.
  - by apply Forall_app.
Qed.

Lemma reads_only_and (cs ds : list string) (P Q : row -> Prop) :
  reads_only cs P -> reads_only ds Q -> reads_only (cs ++ ds) (fun r => P r /\ Q r).
Proof.
  intros HP HQ r r' Hag [Hp Hq]. split.
  - eapply HP; [| exact Hp]. by eapply agree_app_l.
  - eapply HQ; [| exact Hq]. by eapply agree_app_r.
Qed.

Lemma reads_only_eval (eng : Engine) (n : string) (e : expr) :
  reads_only (n :: refs e) (fun r => cell r n = eval eng r e).
Proof.
  intros r r' Hag Hq. rewrite (Hag n) by set_solver. rewrite Hq.
  symmetry. apply eval_agree. intros c Hc. apply Hag. set_solver.
Qed.

Lemma holds_weaken (cs ds : list string) (P Q : row -> Prop) (df : DataFrame) :
  (forall r, P r -> Q r) -> forallb (fun c => bool_decide (c ∈ cs)) ds = true ->
  holds cs P df -> holds ds Q df.
Proof.
  intros HPQ Hsub [Hrows Hcols]. split.
  - eapply Forall_impl; [exact Hrows | exact HPQ].
  - apply Forall_forall. intros c Hc. rewrite Forall_forall in Hcols.
    rewrite forallb_forall in Hsub. apply Hcols.
    apply list_elem_of_In, Hsub in Hc. by apply bool_decide_eq_true in Hc.
Qed.

Lemma cast_columns_holds (eng : Engine) (cs : list string) (Q : row -> Prop)
    (cols : list string) :
  reads_only cs Q -> forallb (fun c => negb (bool_decide (c ∈ cs))) cols = true ->
  forall df df', cast_columns eng cols df = Ok df' -> holds cs Q df -> holds cs Q df'.
Proof.
  intros HQ. induction cols as [| c cols IH]; simpl; intros Hfresh df df' H Hh.
  - by injection H as <-.
  - apply andb_prop in Hfresh as [Hc Hcols]. apply negb_true_iff in Hc.
    destruct (has_column df c); [| by eapply IH].
    apply bind_Ok_inv in H as (d & Hd & H).
    eapply IH; [done | exact H |]. by eapply holds_withColumn.
Qed.

Lemma cast_columns_col_values (eng : Engine) (c : string) (cols : list string) :
  c ∉ cols ->
  forall df df', cast_columns eng cols df = Ok df' ->
  col_values c df' = col_values c df.
Proof.
  induction cols as [| n cols IH]; simpl; intros Hc df df' H.
  - by injection H as <-.
  - apply not_elem_of_cons in Hc as [Hne Hc].
    destruct (has_column df n); [| by apply IH].
    apply bind_Ok_inv in H as (d & Hd & H).
    rewrite (IH Hc _ _ H). eapply withColumn_col_values; [| exact Hd]. congruence.
Qed.

Lemma dropna_inv (subset : list string) (df df' : DataFrame) :
  dropna subset df = Ok df' ->
  rows df' = filter (fun r => forallb (fun c => negb (is_null (cell r c))) subset = true)
               (rows df)
  /\ columns df' = columns df
  /\ Forall (fun c => has_column df c = true) subset.
Proof.
  unfold dropna. destruct (forallb _ subset) eqn:Hsub; [| discriminate].
  intros [= <-]. simpl. repeat split.
  apply Forall_forall. intros c Hc. rewrite forallb_forall in Hsub.
  apply Hsub. by apply list_elem_of_In.
Qed.

Lemma select_inv (cs : list string) (df out : DataFrame) :
  select cs df = Ok out ->
  columns out = cs
  /\ rows out = map (fun r : row => filter (fun kv : string * value => kv.1 ∈ cs) r)
                    (rows df).
Proof.
  unfold select. destruct (forallb _ cs); [| discriminate]. by intros [= <-].
Qed.

(** The projection at the end of [transform_data] keeps every desired column
    that is there. *)
Lemma holds_project (cs : list string) (Q : row -> Prop) (df out : DataFrame) :
  reads_only cs Q -> forallb (fun c => bool_decide (c ∈ desired_columns)) cs = true ->
  holds cs Q df ->
  select (filter (fun c => has_column df c = true) desired_columns) df = Ok out ->
  Forall Q (rows out).
Proof.
  intros HQ Hdes [Hrows Hcols] H. apply select_inv in H as [_ ->].
  apply Forall_map. eapply Forall_impl; [exact Hrows |].
  intros r Hq. simpl. eapply HQ; [| exact Hq].
  intros c Hc. apply cell_project. apply list_elem_of_filter. split.
  - rewrite Forall_forall in Hcols. auto.
  - rewrite forallb_forall in Hdes. apply list_elem_of_In, Hdes in Hc.
    by apply bool_decide_eq_true in Hc.
Qed.

Lemma project_col_values (c : string) (df out : DataFrame) :
  c ∈ desired_columns -> has_column df c = true ->
  select (filter (fun c => has_column df c = true) desired_columns) df = Ok out ->
  col_values c out = col_values c df.
Proof.
  intros Hdes Hc H. apply select_inv in H as [_ Hrows]. unfold col_values.
  rewrite Hrows, map_map. apply map_ext. intros r. apply cell_project.
  by apply list_elem_of_filter.
Qed.

(** The steps of [transform_frame], one equation each. *)
Ltac transform_steps H :=
  unfold transform_frame in H;
  repeat (let d := fresh "d" in let Hd := fresh "Hd" in
          apply bind_Ok_inv in H as (d & Hd & H)).

(** ** What the column expressions compute *)

Lemma eval_hour (eng : Engine) (r : row) :
  eval eng r (Extract Hour (Col "crash_timestamp"))
  = opt_value VInt (hour_of eng (cell r "crash_timestamp")).
Proof. simpl. by destruct (cell r "crash_timestamp"). Qed.

Lemma eval_time_of_day (eng : Engine) (r : row) (hour : option Z) :
  cell r "hour" = opt_value VInt hour ->
  eval eng r time_of_day_expr = VStr (time_of_day_of hour).
Proof.
  intros Hh. unfold time_of_day_expr, otherwise, and_when, when. simpl.
  rewrite Hh. destruct hour as [h|]; simpl; [| done].
  rewrite !Z.geb_leb.
  destruct (0 <=? h), (h <? 6), (6 <=? h), (h <? 12), (12 <=? h), (h <? 17),
    (17 <=? h), (h <? 21); reflexivity.
Qed.

Lemma eval_severity_category (eng : Engine) (r : row) :
  eval eng r severity_category_expr
  = VStr (severity_category_of (cell r "total_injuries") (cell r "total_fatalities")).
Proof.
  unfold severity_category_expr, otherwise, and_when, when. simpl.
  destruct (cell r "total_injuries") as [| | i | | | | | |];
    destruct (cell r "total_fatalities") as [| | f | | | | | |]; try reflexivity.
  simpl. unfold severity_of.
  destruct (int_add i f =? 0); [done |]. by destruct (int_add i f <=? 2).
Qed.

(** Carries a row property [Hh : holds cs Q d] along the steps that follow
    [d], given [HQ : reads_only cs Q]. *)
Ltac carry HQ Hh :=
  repeat match type of Hh with
  | holds ?cs ?Q ?d =>
      match goal with
      | Hd : withColumn ?eng ?n ?e d = Ok ?d' |- _ =>
          apply (holds_withColumn eng cs Q n e d d' HQ eq_refl Hd) in Hh
      | Hd : cast_columns ?eng ?cols d = Ok ?d' |- _ =>
          apply (cast_columns_holds eng cs Q cols HQ eq_refl d d' Hd) in Hh
      | Hd : (if has_column d ?c then withColumn ?eng ?n ?e d else Ok d) = Ok ?d' |- _ =>
          destruct (has_column d c);
          [ apply (holds_withColumn eng cs Q n e d d' HQ eq_refl Hd) in Hh
          | injection Hd as <- ]
      end
  end.

Lemma transform_frame_severity (eng : Engine) (df out : DataFrame) :
  transform_frame eng df = Ok out ->
  Forall (fun r => cell r "severity_category"
                   = VStr (severity_category_of (cell r "total_injuries")
                                                (cell r "total_fatalities")))
         (rows out).
Proof.
  intros H. transform_steps H.
  pose proof (holds_new_column eng "severity_category" severity_category_expr
                d11 d12 eq_refl Hd12) as Hh.
  pose proof (reads_only_eval eng "severity_category" severity_category_expr) as HQ.
  carry HQ Hh;
    (eapply Forall_impl; [eapply (holds_project _ _ _ _ HQ eq_refl Hh H) |]);
    intros r Hr; cbv beta in Hr; rewrite Hr; apply eval_severity_category.
Qed.

Lemma transform_frame_time_of_day (eng : Engine) (df out : DataFrame) :
  transform_frame eng df = Ok out ->
  Forall (fun r => cell r "time_of_day"
                   = VStr (time_of_day_of (hour_of eng (cell r "crash_timestamp"))))
         (rows out).
Proof.
  intros H. transform_steps H.
  pose proof (holds_new_column eng "hour" (Extract Hour (Col "crash_timestamp"))
                d7 d8 eq_refl Hd8) as Hhour.
  pose proof (reads_only_eval eng "hour" (Extract Hour (Col "crash_timestamp"))) as HQhour.
  apply (holds_withColumn eng _ _ "time_of_day" time_of_day_expr d8 d9
           HQhour eq_refl Hd9) in Hhour.
  pose proof (holds_new_column eng "time_of_day" time_of_day_expr d8 d9 eq_refl Hd9)
    as Htod.
  pose proof (holds_and _ _ _ _ _ Hhour Htod) as Hboth.
  set (Q := fun r : row =>
              cell r "time_of_day"
              = VStr (time_of_day_of (hour_of eng (cell r "crash_timestamp")))).
  assert (HQ : reads_only ["time_of_day"; "crash_timestamp"] Q).
  { intros r r' Hag. unfold Q.
    rewrite (Hag "time_of_day"), (Hag "crash_timestamp") by repeat constructor.
    done. }
  assert (Hh : holds ["time_of_day"; "crash_timestamp"] Q d9).
  { refine (holds_weaken _ _ _ _ _ _ _ Hboth).
    - intros r [Hr1 Hr2]. unfold Q. rewrite Hr2.
      apply eval_time_of_day. rewrite Hr1. apply eval_hour.
    - reflexivity. }
  clear Hhour Htod Hboth.
  carry HQ Hh; exact (holds_project _ _ _ _ HQ eq_refl Hh H).
Qed.

Lemma time_of_day_of_spec (hour : option Z) :
  time_of_day_spec hour (time_of_day_of hour).
Proof.
  destruct hour as [h|]; [| done]. unfold time_of_day_spec, time_of_day_of.
  repeat split; intros Hr;
    repeat match goal with
    | |- context [?a <=? ?b] => destruct (Z.leb_spec a b)
    | |- context [?a <? ?b] => destruct (Z.ltb_spec a b)
    end; simpl; first [reflexivity | lia].
Qed.

(** C3. The [time_of_day] column of [transform_data] is a total function of
    the hour: ["Late Night"] for 0 <= h < 6, ["Morning"] for 6 <= h < 12,
    ["Afternoon"] for 12 <= h < 17, ["Evening"] for 17 <= h < 21 and
    ["Night"] for 21 <= h < 24, for any hour out of range and for a null
    hour. This holds of the column expression on every row, and of every
    record of the transformed dataset, the hour being that of its
    [crash_timestamp]. *)
Theorem time_of_day_total (eng : Engine) :
  (forall (r : row) (hour : option Z),
     cell r "hour" = opt_value VInt hour ->
     exists bucket,
       eval eng r time_of_day_expr = VStr bucket /\ time_of_day_spec hour bucket)
  /\ (forall (df out : DataFrame) (r : row),
        transform_frame eng df = Ok out -> r ∈ rows out ->
        exists bucket,
          cell r "time_of_day" = VStr bucket
          /\ time_of_day_spec (hour_of eng (cell r "crash_timestamp")) bucket).
Proof.
  split.
  - intros r hour Hh. exists (time_of_day_of hour). split.
    + by apply eval_time_of_day.
    + apply time_of_day_of_spec.
  - intros df out r H Hr.
    pose proof (transform_frame_time_of_day eng df out H) as Hall.
    rewrite Forall_forall in Hall. eexists. split; [exact (Hall r Hr) |].
    apply time_of_day_of_spec.
Qed.

Lemma time_of_day_total_witness :
  (exists bucket,
     eval Reference.engine (<["hour" := VInt 10]> Examples.morning_crash)
          time_of_day_expr = VStr bucket
     /\ time_of_day_spec (Some 10) bucket)
  /\ Forall (fun r => exists bucket,
               cell r "time_of_day" = VStr bucket
               /\ time_of_day_spec
                    (hour_of Reference.engine (cell r "crash_timestamp")) bucket)
       (rows (Examples.transformed [Examples.morning_crash; Examples.evening_crash])).
Proof.
  assert (Hhour : cell (<["hour" := VInt 10]> Examples.morning_crash) "hour"
                  = opt_value VInt (Some 10)) by (vm_compute; reflexivity).
  assert (Hrun : transform_frame Reference.engine
                   (Examples.frame_of [Examples.morning_crash; Examples.evening_crash])
                 = Ok (Examples.transformed
                         [Examples.morning_crash; Examples.evening_crash]))
    by (vm_compute; reflexivity).
  split.
  - exact (proj1 (time_of_day_total Reference.engine) _ (Some 10) Hhour).
  - apply Forall_forall. intros r Hr.
    exact (proj2 (time_of_day_total Reference.engine) _ _ r Hrun Hr).
Defined.

Example time_of_day_examples :
  map (fun r => cell r "time_of_day")
      (rows (Examples.transformed [Examples.morning_crash; Examples.evening_crash]))
  = [VStr "Morning"; VStr "Evening"].
Proof. vm_compute. reflexivity. Qed.

Lemma transform_frame_totals (eng : Engine) (df out : DataFrame) :
  transform_frame eng df = Ok out ->
  Forall (fun r => cell r "total_injuries" = eval eng r total_injuries_expr
                   /\ cell r "total_fatalities" = eval eng r total_fatalities_expr)
         (rows out).
Proof.
  intros H. transform_steps H.
  pose proof (holds_new_column eng "total_injuries" total_injuries_expr
                d9 d10 eq_refl Hd10) as Hinj.
  pose proof (reads_only_eval eng "total_injuries" total_injuries_expr) as HQinj.
  apply (holds_withColumn eng _ _ "total_fatalities" total_fatalities_expr d10 d11
           HQinj eq_refl Hd11) in Hinj.
  pose proof (holds_new_column eng "total_fatalities" total_fatalities_expr
                d10 d11 eq_refl Hd11) as Hfat.
  pose proof (reads_only_eval eng "total_fatalities" total_fatalities_expr) as HQfat.
  pose proof (holds_and _ _ _ _ _ Hinj Hfat) as Hh.
  pose proof (reads_only_and _ _ _ _ HQinj HQfat) as HQ.
  clear Hinj Hfat.
  carry HQ Hh; exact (holds_project _ _ _ _ HQ eq_refl Hh H).
Qed.

Lemma sql_add_null_l (b : value) : sql_add VNull b = VNull.
Proof. reflexivity. Qed.

Lemma sql_add_null_r (a : value) : sql_add a VNull = VNull.
Proof. by destruct a. Qed.

Lemma wrap32_range (z : Z) : INT_MIN <= wrap32 z <= INT_MAX.
Proof.
  unfold wrap32, INT_MIN, INT_MAX.
  pose proof (Z.mod_pos_bound (z + 2147483648) 4294967296). lia.
Qed.

Lemma wrap32_id (z : Z) : INT_MIN <= z <= INT_MAX -> wrap32 z = z.
Proof.
  unfold wrap32, INT_MIN, INT_MAX. intros Hz.
  rewrite Z.mod_small by lia. lia.
Qed.

(** C4. In every record of the transformed dataset whose [total_injuries]
    and [total_fatalities] are integers, [severity_category] is a function
    of their sum: ["Minor"] when the sum is 0, ["Moderate"] when it is
    nonzero and at most 2, ["Severe"] otherwise. The sum is Spark's [+] on
    two ints, which is the arithmetic sum whenever that fits 32 bits. *)
Theorem severity_category_of_sum (eng : Engine) (df out : DataFrame) (r : row)
    (i f : Z) :
  transform_frame eng df = Ok out -> r ∈ rows out ->
  cell r "total_injuries" = VInt i -> cell r "total_fatalities" = VInt f ->
  let total := int_add i f in
  (total = 0 -> cell r "severity_category" = VStr "Minor")
  /\ (total <> 0 -> total <= 2 -> cell r "severity_category" = VStr "Moderate")
  /\ (2 < total -> cell r "severity_category" = VStr "Severe")
  /\ (INT_MIN <= i + f <= INT_MAX -> total = i + f).
Proof.
  intros H Hr Hi Hf total.
  pose proof (transform_frame_severity eng df out H) as Hall.
  rewrite Forall_forall in Hall. specialize (Hall r Hr).
  rewrite Hi, Hf in Hall. simpl in Hall. fold total in Hall.
  rewrite Hall. unfold severity_of.
  repeat split.
  - intros ->. reflexivity.
  - intros Hne Hle. destruct (Z.eqb_spec total 0); [done |].
    destruct (Z.leb_spec total 2); [done | lia].
  - intros Hgt. destruct (Z.eqb_spec total 0); [lia |].
    destruct (Z.leb_spec total 2); [lia | done].
  - intros Hrange. apply wrap32_id. exact Hrange.
Qed.

Lemma severity_category_of_sum_witness :
  cell Examples.morning_row "total_injuries" = VInt 2
  /\ cell Examples.morning_row "total_fatalities" = VInt 0
  /\ cell Examples.morning_row "severity_category" = VStr "Moderate".
Proof.
  assert (Hrun : transform_frame Reference.engine
                   (Examples.frame_of [Examples.morning_crash])
                 = Ok (Examples.transformed [Examples.morning_crash]))
    by (vm_compute; reflexivity).
  assert (Hr : Examples.morning_row ∈ rows (Examples.transformed [Examples.morning_crash]))
    by (apply (bool_decide_unpack _); vm_compute; exact I).
  assert (Hi : cell Examples.morning_row "total_injuries" = VInt 2)
    by (vm_compute; reflexivity).
  assert (Hf : cell Examples.morning_row "total_fatalities" = VInt 0)
    by (vm_compute; reflexivity).
  destruct (severity_category_of_sum Reference.engine _ _ _ 2 0 Hrun Hr Hi Hf)
    as (_ & Hmoderate & _).
  split; [exact Hi |]. split; [exact Hf |].
  apply Hmoderate; vm_compute; discriminate.
Defined.

(** C10. In every record of the transformed dataset in which
    [total_injuries] or [total_fatalities] is null, [severity_category] is
    ["Severe"]: both conditions of the [when] chain are null and the
    [otherwise] branch is taken. A null among the four counts of a total
    makes the total null, and [severity_category] is null in no record. *)
Theorem severity_category_null_total (eng : Engine) (df out : DataFrame) (r : row) :
  transform_frame eng df = Ok out -> r ∈ rows out ->
  (cell r "total_injuries" = VNull \/ cell r "total_fatalities" = VNull ->
   eval eng r (Eq (Add (Col "total_injuries") (Col "total_fatalities")) (LitInt 0)) = VNull
   /\ eval eng r (Le (Add (Col "total_injuries") (Col "total_fatalities")) (LitInt 2)) = VNull
   /\ cell r "severity_category" = VStr "Severe")
  /\ (cell r "number_of_persons_injured" = VNull
      \/ cell r "number_of_pedestrians_injured" = VNull
      \/ cell r "number_of_cyclist_injured" = VNull
      \/ cell r "number_of_motorist_injured" = VNull ->
      cell r "total_injuries" = VNull)
  /\ (cell r "number_of_persons_killed" = VNull
      \/ cell r "number_of_pedestrians_killed" = VNull
      \/ cell r "number_of_cyclist_killed" = VNull
      \/ cell r "number_of_motorist_killed" = VNull ->
      cell r "total_fatalities" = VNull)
  /\ cell r "severity_category" <> VNull.
Proof.
  intros H Hr.
  pose proof (transform_frame_severity eng df out H) as Hsev.
  pose proof (transform_frame_totals eng df out H) as Htot.
  rewrite Forall_forall in Hsev, Htot.
  specialize (Hsev r Hr). destruct (Htot r Hr) as [Hinj Hfat].
  repeat split.
  - simpl. destruct H0 as [-> | ->]; [done |]. by rewrite sql_add_null_r.
  - simpl. destruct H0 as [-> | ->]; [done |]. by rewrite sql_add_null_r.
  - rewrite Hsev. destruct H0 as [-> | ->]; [done |].
    by destruct (cell r "total_injuries").
  - intros Hnull. rewrite Hinj. unfold total_injuries_expr. simpl.
    destruct Hnull as [-> | [-> | [-> | ->]]];
      rewrite ?sql_add_null_r, ?sql_add_null_l; reflexivity.
  - intros Hnull. rewrite Hfat. unfold total_fatalities_expr. simpl.
    destruct Hnull as [-> | [-> | [-> | ->]]];
      rewrite ?sql_add_null_r, ?sql_add_null_l; reflexivity.
  - rewrite Hsev. discriminate.
Qed.

Lemma severity_category_null_total_witness :
  cell Examples.uncounted_row "number_of_persons_injured" = VNull
  /\ cell Examples.uncounted_row "total_injuries" = VNull
  /\ cell Examples.uncounted_row "severity_category" = VStr "Severe".
Proof.
  assert (Hrun : transform_frame Reference.engine
                   (Examples.frame_of [Examples.morning_crash; Examples.uncounted_crash])
                 = Ok (Examples.transformed
                         [Examples.morning_crash; Examples.uncounted_crash]))
    by (vm_compute; reflexivity).
  assert (Hr : Examples.uncounted_row
               ∈ rows (Examples.transformed
                         [Examples.morning_crash; Examples.uncounted_crash]))
    by (apply (bool_decide_unpack _); vm_compute; exact I).
  assert (Hnull : cell Examples.uncounted_row "number_of_persons_injured" = VNull)
    by (vm_compute; reflexivity).
  destruct (severity_category_null_total Reference.engine _ _ _ Hrun Hr)
    as (Hsevere & Hinj & _).
  split; [exact Hnull |]. split; [exact (Hinj (or_introl Hnull)) |].
  exact (proj2 (proj2 (Hsevere (or_introl (Hinj (or_introl Hnull)))))).
Defined.

(** ** The key column *)

Lemma string_to_int_range (s : string) (n : Z) :
  string_to_int s = Some n -> INT_MIN <= n <= INT_MAX.
Proof.
  unfold string_to_int. destruct (trim s) as [| c rest]; [discriminate |].
  destruct (if (_ : bool) then rest else String c rest); [discriminate |].
  destruct (parse_digits _ 0) as [m|]; [| discriminate].
  destruct (_ && _) eqn:Hrange; [| discriminate].
  intros [= <-]. apply andb_prop in Hrange as [H1 H2]. lia.
Qed.





(** ** The watermark document *)

Lemma scan_escape (c : ascii) (rest : string) :
  Json.scan_string (Json.escape c +:+ rest)
  = Json.cons_result c (Json.scan_string rest).
Proof. destruct c as [[] [] [] [] [] [] [] []]; reflexivity. Qed.

Lemma append_cons (x : ascii) (a b : string) :
  String x a +:+ b = String x (a +:+ b).
Proof. reflexivity. Qed.

Lemma append_nil_l (a : string) : "" +:+ a = a.
Proof. reflexivity. Qed.

Lemma append_assoc (a b c : string) : (a +:+ b) +:+ c = a +:+ (b +:+ c).
Proof.
  induction a as [| x a IH]; [reflexivity |].
  rewrite !append_cons. by f_equal.
Qed.

Lemma scan_escape_all (s rest : string) :
  Json.scan_string (Json.escape_all s +:+ String Json.quote rest) = Ok (s, rest).
Proof.
  induction s as [| c s IH]; [reflexivity |].
  cbn [Json.escape_all]. rewrite append_assoc, scan_escape, IH. reflexivity.
Qed.

Lemma dumps_single (k v : string) :
  Json.dumps [(k, v)]
  = String "{" (String Json.quote (Json.escape_all k +:+ String Json.quote
      (String ":" (String " " (String Json.quote
         (Json.escape_all v +:+ String Json.quote "}")))))).
Proof.
  unfold Json.dumps, Json.encode_members, Json.encode_string.
  repeat first [rewrite append_cons | rewrite append_nil_l | rewrite append_assoc].
  reflexivity.
Qed.

Lemma scan_object_single (k v : string) :
  Json.scan_object
    (String Json.quote (Json.escape_all k +:+ String Json.quote
       (String ":" (String " " (String Json.quote
          (Json.escape_all v +:+ String Json.quote "}"))))))
  = Ok ([(k, v)], EmptyString).
Proof.
  unfold Json.scan_object. simpl. rewrite scan_escape_all. simpl.
  rewrite scan_escape_all. reflexivity.
Qed.

Lemma loads_dumps (k v : string) :
  Json.loads (Json.dumps [(k, v)]) = Ok {[ k := v ]}.
Proof.
  rewrite dumps_single. unfold Json.loads. simpl.
  rewrite scan_object_single. reflexivity.
Qed.

Lemma escape_ascii (c : ascii) :
  forallb (fun c => (N_of_ascii c <? 128)%N) (list_ascii_of_string (Json.escape c))
  = true.
Proof. destruct c as [[] [] [] [] [] [] [] []]; reflexivity. Qed.

Lemma list_ascii_of_append (a b : string) :
  list_ascii_of_string (a +:+ b) = list_ascii_of_string a ++ list_ascii_of_string b.
Proof.
  induction a as [| x a IH]; [reflexivity |].
  rewrite append_cons. simpl. by rewrite IH.
Qed.

Lemma escape_all_ascii (s : string) :
  forallb (fun c => (N_of_ascii c <? 128)%N)
          (list_ascii_of_string (Json.escape_all s)) = true.
Proof.
  induction s as [| c s IH]; [reflexivity |].
  cbn [Json.escape_all]. rewrite list_ascii_of_append, forallb_app, escape_ascii, IH.
  reflexivity.
Qed.

Lemma utf8_decode_dumps (k v : string) :
  utf8_decode (Json.dumps [(k, v)]) = Ok (Json.dumps [(k, v)]).
Proof.
  unfold utf8_decode. rewrite dumps_single. simpl.
  rewrite list_ascii_of_append, forallb_app, escape_all_ascii. simpl.
  rewrite list_ascii_of_append, forallb_app, escape_all_ascii. reflexivity.
Qed.

(** ** Running the job *)

(** C9. Writing the watermark [d] and reading it back returns [d], for
    every string [d], as long as the store accepts both requests. The write
    replaces the document by the serialization of
    [{"last_collision_date": d}]. *)
Theorem watermark_round_trip (d : string) (w : World) :
  s3_put_fails w = false -> s3_get_fails w = false ->
  fst ((_ ← update_last_collision_date d; read_last_collision_date) w) = Ok d
  /\ fst (update_last_collision_date d w) = Ok tt
  /\ s3 (snd (update_last_collision_date d w)) !! config_key
     = Some (TextObject (Json.dumps [("last_collision_date", d)])).
Proof.
  intros Hput Hget.
  unfold update_last_collision_date, read_last_collision_date, s3_put_object,
    s3_get_object, perform, logger_info, get_world, modify, lift.
  unfold mbind, M_bind, mret, M_ret, raise. simpl. rewrite Hput. simpl.
  rewrite Hget. simpl.
  unfold config_key. rewrite !lookup_insert_eq. simpl.
  rewrite utf8_decode_dumps. simpl. rewrite loads_dumps. simpl.
  rewrite lookup_singleton_eq. simpl. done.
Qed.

Lemma watermark_round_trip_witness :
  fst ((_ ← update_last_collision_date "2023-01-05"; read_last_collision_date)
         (Examples.quiet_world [] "2023-01-01"))
  = Ok "2023-01-05".
Proof.
  exact (proj1 (watermark_round_trip "2023-01-05"
                  (Examples.quiet_world [] "2023-01-01") eq_refl eq_refl)).
Defined.

(** ** Pages and their union *)

Lemma sorted_keys_NoDup (r : row) : NoDup (sorted_keys r).
Proof.
  unfold sorted_keys. rewrite merge_sort_Permutation.
  apply NoDup_fst_map_to_list.
Qed.

Lemma merge_fields_NoDup (cols : list string) (r : row) :
  NoDup cols -> NoDup (merge_fields cols r).
Proof.
  intros Hcols. unfold merge_fields. apply NoDup_app. split; [done |]. split.
  - intros c Hc Hin. apply list_elem_of_filter in Hin as [Hnot _]. done.
  - apply NoDup_filter, sorted_keys_NoDup.
Qed.

Lemma infer_columns_NoDup (data : list row) : NoDup (infer_columns data).
Proof.
  unfold infer_columns.
  assert (H : forall cols, NoDup cols -> NoDup (fold_left merge_fields data cols)).
  { induction data as [| r data IH]; simpl; [done |].
    intros cols Hcols. apply IH. by apply merge_fields_NoDup. }
  apply H. constructor.
Qed.

Lemma createDataFrame_inv (data : list row) (df : DataFrame) :
  createDataFrame data = Ok df ->
  rows df = data /\ columns df = infer_columns data /\ NoDup (columns df).
Proof.
  unfold createDataFrame.
  destruct (existsb _ _); [discriminate |]. destruct (existsb _ _); [discriminate |].
  intros [= <-]. simpl. repeat split. apply infer_columns_NoDup.
Qed.

(** The union by name succeeds exactly on two duplicate-free lists of the
    same column names. *)
Lemma unionByName_Ok (a b : DataFrame) :
  NoDup (columns a) -> NoDup (columns b) -> columns a ≡ₚ columns b ->
  unionByName a b = Ok {| columns := columns a; rows := rows a ++ rows b |}.
Proof.
  intros Ha Hb Hperm. unfold unionByName.
  rewrite !bool_decide_eq_true_2 by done. simpl.
  destruct (filter (fun c => c ∉ columns b) (columns a)) as [| c l] eqn:Hall.
  - rewrite bool_decide_eq_true_2; [done |]. by rewrite Hperm.
  - assert (Hin : c ∈ filter (fun c => c ∉ columns b) (columns a))
      by (rewrite Hall; constructor).
    apply list_elem_of_filter in Hin as [Hnot Hc]. rewrite Hperm in Hc. done.
Qed.

Lemma unionByName_Ok_inv (a b u : DataFrame) :
  unionByName a b = Ok u ->
  columns a ≡ₚ columns b
  /\ u = {| columns := columns a; rows := rows a ++ rows b |}.
Proof.
  unfold unionByName.
  destruct (bool_decide (NoDup (columns a))) eqn:Ha; [| discriminate].
  destruct (bool_decide (NoDup (columns b))) eqn:Hb; [| discriminate]. simpl.
  apply bool_decide_eq_true in Ha, Hb.
  destruct (filter _ (columns a)) as [| c l] eqn:Hall; [| discriminate].
  destruct (bool_decide (length (columns a) = length (columns b))) eqn:Hlen;
    [| discriminate].
  apply bool_decide_eq_true in Hlen. intros [= <-]. split; [| done].
  assert (Hsub : forall c, c ∈ columns a -> c ∈ columns b).
  { intros c Hc. destruct (decide (c ∈ columns b)) as [| Hnot]; [done |].
    assert (Hin : c ∈ filter (fun c => c ∉ columns b) (columns a))
      by (by apply list_elem_of_filter).
    rewrite Hall in Hin. by apply elem_of_nil in Hin. }
  apply NoDup_Permutation; [done | done |]. intros c. split; [apply Hsub |].
  intros Hc. apply list_elem_of_In.
  apply (NoDup_length_incl (l := columns a) (l' := columns b)).
  - by apply NoDup_ListNoDup.
  - lia.
  - intros x Hx. apply list_elem_of_In, Hsub. by apply list_elem_of_In.
  - by apply list_elem_of_In.
Qed.

Lemma unionByName_Raise (a b : DataFrame) :
  ~ columns a ≡ₚ columns b ->
  exists msg, unionByName a b = Raise (AnalysisException msg).
Proof.
  intros Hne. destruct (unionByName a b) as [u | e] eqn:Hu.
  - apply unionByName_Ok_inv in Hu as [Hperm _]. done.
  - unfold unionByName in Hu.
    destruct (negb _); [injection Hu as <-; eauto |].
    destruct (filter _ _); [| injection Hu as <-; eauto].
    destruct (bool_decide _); [discriminate | injection Hu as <-; eauto].
Qed.
(** ** The fetch loop *)

Lemma page_requests_S (limit : Z) (wm : string) (offset : Z) (n : nat) :
  page_requests limit wm offset (S n)
  = HttpGet BASE_URL (query wm limit offset)
    :: page_requests limit wm (offset + limit) n.
Proof.
  unfold page_requests. simpl. f_equal.
  - do 2 f_equal. lia.
  - rewrite <- seq_shift, map_map. apply map_ext. intros i.
    do 2 f_equal. lia.
Qed.

Lemma download_loop_stops (limit : Z) (t : http_result) (rest : list http_result)
    (wm : string) (offset : Z) (acc : option DataFrame) (w : World) :
  stops t ->
  exists w', download_loop limit (t :: rest) wm offset acc w = (Ok acc, w')
             /\ calls w' = calls w ++ [HttpGet BASE_URL (query wm limit offset)]
             /\ api w' = rest /\ s3 w' = s3 w.
Proof.
  intros (r & -> & Hstop). simpl.
  unfold requests_get, perform, modify, logger_error, logger_info, lift,
    mbind, M_bind, mret, M_ret. simpl.
  destruct (Z.eqb_spec (status_code r) 200) as [H200 | Hne]; simpl.
  - destruct Hstop as [Hne | Hempty]; [done |].
    unfold response_json. rewrite Hempty. simpl. eauto.
  - eauto.
Qed.

Lemma download_loop_pages (limit : Z) (wm : string) (t : http_result)
    (rest : list http_result) (pages : list (list row)) :
  Forall (fun data => data <> []) pages -> stops t ->
  forall (offset : Z) (acc final : option DataFrame) (w : World),
    accumulate acc pages = Ok final ->
    exists w',
      download_loop limit (map ok_page pages ++ t :: rest) wm offset acc w
      = (Ok final, w')
      /\ calls w' = calls w ++ page_requests limit wm offset (S (length pages))
      /\ api w' = rest /\ s3 w' = s3 w.
Proof.
  intros Hpages Hstop. induction Hpages as [| data pages Hdata Hpages IH];
    intros offset acc final w Hacc.
  - simpl in Hacc. injection Hacc as <-.
    destruct (download_loop_stops limit t rest wm offset acc w Hstop)
      as (w' & Hrun & Hcalls & Hapi & Hs3).
    exists w'. rewrite page_requests_S. simpl. rewrite Hcalls. auto.
  - simpl in Hacc.
    apply bind_Ok_inv in Hacc as (batch_df & Hbatch & Hacc).
    apply bind_Ok_inv in Hacc as (all_data_df & Hunion & Hacc).
    cbn [map app download_loop].
    unfold requests_get, perform, modify, logger_error, logger_info, lift,
      mbind at 1 2 3 4 5 6 7 8, M_bind, mret, M_ret. simpl.
    destruct data as [| record data]; [done |].
    rewrite Hbatch.
    destruct acc as [df |]; simpl in Hunion |- *;
      [rewrite Hunion | injection Hunion as <-]; simpl.
    all: match goal with
         | |- exists w', download_loop _ _ _ _ ?a ?w1 = _ /\ _ =>
             destruct (IH (offset + limit) a final w1 Hacc)
               as (w' & Hrun & Hcalls & Hapi & Hs3)
         end.
    all: exists w'; split; [exact Hrun |]; rewrite Hcalls, Hapi, Hs3;
      rewrite (page_requests_S limit wm offset (S (length pages)));
      simpl; rewrite <- app_assoc; auto.
Qed.

Lemma download_loop_raise (limit : Z) (wm : string) (rest : list http_result)
    (e : exn) (pages : list (list row)) :
  Forall (fun data => data <> []) pages ->
  forall (offset : Z) (acc : option DataFrame) (w : World),
    accumulate acc pages = Raise e ->
    exists w',
      download_loop limit (map ok_page pages ++ rest) wm offset acc w = (Raise e, w')
      /\ s3 w' = s3 w.
Proof.
  intros Hpages. induction Hpages as [| data pages Hdata Hpages IH];
    intros offset acc w Hacc; [discriminate |].
  simpl in Hacc. cbn [map app download_loop].
  unfold requests_get, perform, modify, logger_error, logger_info, lift,
    mbind at 1 2 3 4 5 6 7 8, M_bind, mret, M_ret. simpl.
  destruct data as [| record data]; [done |].
  destruct (createDataFrame (record :: data)) as [batch_df | e'] eqn:Hbatch;
    simpl in Hacc |- *; [| injection Hacc as <-; eauto].
  destruct acc as [df |]; simpl in Hacc |- *.
  - destruct (unionByName df batch_df) as [all_data_df | e'] eqn:Hunion;
      simpl in Hacc |- *; [| injection Hacc as <-; eauto].
    match goal with
    | |- exists w', download_loop _ _ _ _ ?a ?w1 = _ /\ _ =>
        destruct (IH (offset + limit) a w1 Hacc) as (w' & Hrun & Hs3)
    end.
    exists w'. split; [exact Hrun |]. by rewrite Hs3.
  - match goal with
    | |- exists w', download_loop _ _ _ _ ?a ?w1 = _ /\ _ =>
        destruct (IH (offset + limit) a w1 Hacc) as (w' & Hrun & Hs3)
    end.
    exists w'. split; [exact Hrun |]. by rewrite Hs3.
Qed.

Lemma download_pages_loop (limit : Z) (wm : string) (w : World) :
  download_pages limit wm w
  = download_loop limit (api w) wm 0 None
      (with_log (INFO, "Starting data download from Socrata.") w).
Proof. reflexivity. Qed.

(** C6. Whatever pages the API has delivered, when the next request is
    answered with a status other than 200, or with an empty page,
    [download_new_data] issues no further request and returns the dataset
    accumulated from the pages before ([None] when there is none); it does
    not raise. *)
Theorem fetch_stops_with_partial_result (limit : Z) (wm : string)
    (pages : list (list row)) (r : response) (rest : list http_result)
    (final : option DataFrame) (w : World) :
  Forall (fun data => data <> []) pages ->
  accumulate None pages = Ok final ->
  status_code r <> 200 \/ json r = Some [] ->
  api w = map ok_page pages ++ Responds r :: rest ->
  exists w',
    download_pages limit wm w = (Ok final, w')
    /\ calls w' = calls w ++ page_requests limit wm 0 (S (length pages))
    /\ api w' = rest
    /\ (pages = [] -> final = None).
Proof.
  intros Hpages Hacc Hstop Hapi. rewrite download_pages_loop, Hapi.
  destruct (download_loop_pages limit wm (Responds r) rest pages Hpages
              ltac:(by exists r) 0 None final
              (with_log (INFO, "Starting data download from Socrata.") w) Hacc)
    as (w' & Hrun & Hcalls & Hrest & _).
  exists w'. repeat split; [exact Hrun | exact Hcalls | exact Hrest |].
  intros ->. simpl in Hacc. by injection Hacc as <-.
Qed.

Lemma fetch_stops_with_partial_result_witness :
  exists w',
    download_pages LIMIT "2023-01-01"
      (Examples.quiet_world
         [ok_page [Examples.morning_crash];
          Responds {| status_code := 500; json := None |};
          ok_page [Examples.evening_crash]] "2023-01-01")
    = (Ok (Some (Examples.frame_of [Examples.morning_crash])), w')
    /\ api w' = [ok_page [Examples.evening_crash]].
Proof.
  assert (Hpages : Forall (fun data : list row => data <> [])
                     [[Examples.morning_crash]])
    by (repeat constructor; discriminate).
  assert (Hacc : accumulate None [[Examples.morning_crash]]
                 = Ok (Some (Examples.frame_of [Examples.morning_crash])))
    by (vm_compute; reflexivity).
  assert (Hstop : status_code {| status_code := 500; json := None |} <> 200
                  \/ json {| status_code := 500; json := None |} = Some [])
    by (left; discriminate).
  assert (Hapi : api (Examples.quiet_world
                        [ok_page [Examples.morning_crash];
                         Responds {| status_code := 500; json := None |};
                         ok_page [Examples.evening_crash]] "2023-01-01")
                 = map ok_page [[Examples.morning_crash]]
                   ++ Responds {| status_code := 500; json := None |}
                      :: [ok_page [Examples.evening_crash]])
    by reflexivity.
  destruct (fetch_stops_with_partial_result LIMIT "2023-01-01" _ _ _ _ _
              Hpages Hacc Hstop Hapi)
    as (w' & Hrun & _ & Hrest & _).
  exists w'. split; [exact Hrun | exact Hrest].
Defined.

Lemma accumulate_first (page : list row) (d : DataFrame) (pages : list (list row)) :
  createDataFrame page = Ok d ->
  accumulate None (page :: pages) = accumulate (Some d) pages.
Proof. intros Hd. simpl. rewrite Hd. reflexivity. Qed.

Lemma unionByName_cases (a b : DataFrame) :
  NoDup (columns a) -> NoDup (columns b) ->
  (columns a ≡ₚ columns b
   /\ unionByName a b = Ok {| columns := columns a; rows := rows a ++ rows b |})
  \/ (~ columns a ≡ₚ columns b
      /\ exists msg, unionByName a b = Raise (AnalysisException msg)).
Proof.
  intros Ha Hb. destruct (unionByName a b) as [u | e] eqn:Hu.
  - left. apply unionByName_Ok_inv in Hu as [Hperm ->]. done.
  - right. assert (Hne : ~ columns a ≡ₚ columns b).
    { intros Hperm. rewrite (unionByName_Ok a b Ha Hb Hperm) in Hu. discriminate. }
    split; [exact Hne |]. destruct (unionByName_Raise a b Hne) as [msg Hmsg].
    exists msg. congruence.
Qed.

(** Pages of one column set accumulate to their concatenation; the first
    page of another column set makes the union raise. *)
Lemma accumulate_cases (pages : list (list row)) (ds : list DataFrame) :
  Forall2 (fun page d => createDataFrame page = Ok d) pages ds ->
  forall (cols : list string) (rs : list row), NoDup cols ->
    (Forall (fun d => cols ≡ₚ columns d) ds
     /\ accumulate (Some {| columns := cols; rows := rs |}) pages
        = Ok (Some {| columns := cols; rows := rs ++ concat pages |}))
    \/ (~ Forall (fun d => cols ≡ₚ columns d) ds
        /\ exists msg,
             accumulate (Some {| columns := cols; rows := rs |}) pages
             = Raise (AnalysisException msg)).
Proof.
  induction 1 as [| page d pages ds Hd Hrest IH]; intros cols rs Hcols.
  - left. split; [constructor |]. simpl. by rewrite app_nil_r.
  - apply createDataFrame_inv in Hd as Hinv. destruct Hinv as (Hrows & _ & Hnodup).
    simpl. rewrite Hd. simpl.
    destruct (unionByName_cases {| columns := cols; rows := rs |} d Hcols Hnodup)
      as [[Hperm Hu] | [Hne [msg Hu]]]; simpl in *.
    + rewrite Hu. simpl. rewrite Hrows.
      destruct (IH cols (rs ++ page) Hcols) as [[Hall Hacc] | [Hnot [msg Hacc]]].
      * left. split; [by constructor |]. rewrite Hacc. by rewrite <- app_assoc.
      * right. split; [| eauto]. intros Hall. apply Hnot.
        by apply Forall_cons in Hall as [_ ?].
    + right. split.
      * intros Hall. apply Hne. by apply Forall_cons in Hall as [? _].
      * exists msg. rewrite Hu. reflexivity.
Qed.

(** C2, as the code has it. [download_new_data] unites the pages by column
    name with Spark's default, strict [unionByName]: when every page has the
    columns of the first (in any order) the result is the first page's
    columns over the records of all pages, and when some page has another
    column set the union raises an [AnalysisException], which
    [download_new_data] lets through. *)
Theorem union_by_name_same_columns (limit : Z) (wm : string)
    (page : list row) (pages : list (list row)) (d : DataFrame)
    (ds : list DataFrame) (r : response) (rest : list http_result) (w : World) :
  Forall (fun data => data <> []) (page :: pages) ->
  createDataFrame page = Ok d ->
  Forall2 (fun page d => createDataFrame page = Ok d) pages ds ->
  status_code r <> 200 \/ json r = Some [] ->
  api w = map ok_page (page :: pages) ++ Responds r :: rest ->
  (Forall (fun d' => columns d ≡ₚ columns d') ds ->
   fst (download_pages limit wm w)
   = Ok (Some {| columns := columns d; rows := concat (page :: pages) |}))
  /\ (~ Forall (fun d' => columns d ≡ₚ columns d') ds ->
      exists msg, fst (download_pages limit wm w) = Raise (AnalysisException msg)).
Proof.
  intros Hne Hd Hds Hstop Hapi.
  apply createDataFrame_inv in Hd as Hinv. destruct Hinv as (Hrows & _ & Hnodup).
  pose proof (accumulate_first page d pages Hd) as Hfirst.
  destruct d as [cols rs]. simpl in Hrows, Hnodup |- *. subst rs.
  rewrite download_pages_loop, Hapi.
  destruct (accumulate_cases pages ds Hds cols page Hnodup)
    as [[Hall Hacc] | [Hnot [msg Hacc]]].
  - split; [| done]. intros _. rewrite <- Hfirst in Hacc.
    destruct (download_loop_pages limit wm (Responds r) rest (page :: pages) Hne
                ltac:(by exists r) 0 None _
                (with_log (INFO, "Starting data download from Socrata.") w) Hacc)
      as (w' & Hrun & _).
    by rewrite Hrun.
  - split; [done |]. intros _. rewrite <- Hfirst in Hacc.
    destruct (download_loop_raise limit wm (Responds r :: rest) _ (page :: pages)
                Hne 0 None
                (with_log (INFO, "Starting data download from Socrata.") w) Hacc)
      as (w' & Hrun & _).
    exists msg. by rewrite Hrun.
Qed.

Lemma union_by_name_same_columns_witness :
  fst (download_pages LIMIT "2023-01-01"
         (Examples.quiet_world Examples.two_pages "2023-01-01"))
  = Ok (Some {| columns := columns (Examples.frame_of [Examples.morning_crash]);
                rows := concat [[Examples.morning_crash]; [Examples.evening_crash]] |}).
Proof.
  assert (Hne : Forall (fun data : list row => data <> [])
                  [[Examples.morning_crash]; [Examples.evening_crash]])
    by (repeat constructor; discriminate).
  assert (Hd : createDataFrame [Examples.morning_crash]
               = Ok (Examples.frame_of [Examples.morning_crash]))
    by (vm_compute; reflexivity).
  assert (Hds : Forall2 (fun page d => createDataFrame page = Ok d)
                  [[Examples.evening_crash]]
                  [Examples.frame_of [Examples.evening_crash]])
    by (repeat constructor; vm_compute; reflexivity).
  assert (Hsame : Forall (fun d' => columns (Examples.frame_of [Examples.morning_crash])
                                    ≡ₚ columns d')
                    [Examples.frame_of [Examples.evening_crash]])
    by (repeat constructor; vm_compute; reflexivity).
  assert (Hstop : status_code {| status_code := 200; json := Some [] |} <> 200
                  \/ json {| status_code := 200; json := Some [] |} = Some [])
    by (right; reflexivity).
  assert (Hapi : api (Examples.quiet_world Examples.two_pages "2023-01-01")
                 = map ok_page [[Examples.morning_crash]; [Examples.evening_crash]]
                   ++ Responds {| status_code := 200; json := Some [] |} :: [])
    by reflexivity.
  exact (proj1 (union_by_name_same_columns LIMIT "2023-01-01" _ _ _ _ _ _ _
                  Hne Hd Hds Hstop Hapi) Hsame).
Defined.

(** C2 as stated fails: the second page lacks the coordinates of the first,
    and the union raises instead of reconciling the two schemas. *)
Lemma union_by_name_counterexample :
  columns (Examples.frame_of [Examples.sparse_crash])
  = filter (fun c => c <> "latitude" /\ c <> "longitude")
           (columns (Examples.frame_of [Examples.morning_crash]))
  /\ fst (download_new_data "2023-01-01"
            (Examples.quiet_world Examples.uneven_pages "2023-01-01"))
     = Raise (AnalysisException "Cannot resolve column name latitude").
Proof. split; vm_compute; reflexivity. Qed.

(** C5, as the code has it. When the API answers with two pages of [P]
    records that have the same columns and then with an empty page,
    [download_new_data] with page size [P] issues exactly three requests,
    at offsets 0, [P] and 2[P], each with the filter
    [crash_date > 'watermark'], and returns the records of the first page
    followed by those of the second. *)
Theorem pagination_three_requests (P : Z) (wm : string) (p1 p2 : list row)
    (d1 d2 : DataFrame) (rest : list http_result) (w : World) :
  0 < P -> Z.of_nat (length p1) = P -> Z.of_nat (length p2) = P ->
  createDataFrame p1 = Ok d1 -> createDataFrame p2 = Ok d2 ->
  columns d1 ≡ₚ columns d2 ->
  api w = ok_page p1 :: ok_page p2 :: ok_page [] :: rest ->
  exists w',
    download_pages P wm w
    = (Ok (Some {| columns := columns d1; rows := p1 ++ p2 |}), w')
    /\ calls w'
       = calls w
         ++ [ HttpGet BASE_URL {| q_where := "crash_date > '" +:+ wm +:+ "'";
                                  q_limit := P; q_offset := 0 |};
              HttpGet BASE_URL {| q_where := "crash_date > '" +:+ wm +:+ "'";
                                  q_limit := P; q_offset := P |};
              HttpGet BASE_URL {| q_where := "crash_date > '" +:+ wm +:+ "'";
                                  q_limit := P; q_offset := 2 * P |} ]
    /\ api w' = rest.
Proof.
  intros HP Hlen1 Hlen2 Hd1 Hd2 Hperm Hapi.
  assert (Hne : Forall (fun data : list row => data <> []) [p1; p2]).
  { repeat constructor; intros ->; simpl in *; lia. }
  assert (Hacc : accumulate None [p1; p2]
                 = Ok (Some {| columns := columns d1; rows := p1 ++ p2 |})).
  { apply createDataFrame_inv in Hd1 as Hinv1. destruct Hinv1 as (Hr1 & _ & Hn1).
    apply createDataFrame_inv in Hd2 as Hinv2. destruct Hinv2 as (Hr2 & _ & Hn2).
    simpl. rewrite Hd1, Hd2. simpl.
    rewrite (unionByName_Ok d1 d2 Hn1 Hn2 Hperm). simpl. by rewrite Hr1, Hr2. }
  rewrite download_pages_loop, Hapi.
  destruct (download_loop_pages P wm (ok_page []) rest [p1; p2] Hne
              ltac:(eexists; split; [reflexivity | by right]) 0 None _
              (with_log (INFO, "Starting data download from Socrata.") w) Hacc)
    as (w' & Hrun & Hcalls & Hrest & _).
  exists w'. split; [exact Hrun |]. split; [| exact Hrest].
  rewrite Hcalls. simpl. unfold page_requests, query. simpl.
  repeat f_equal; lia.
Qed.

Lemma pagination_three_requests_witness :
  exists w',
    download_pages 1 "2023-01-01"
      (Examples.quiet_world Examples.two_pages "2023-01-01")
    = (Ok (Some {| columns := columns (Examples.frame_of [Examples.morning_crash]);
                   rows := [Examples.morning_crash] ++ [Examples.evening_crash] |}),
       w')
    /\ api w' = [].
Proof.
  assert (Hd1 : createDataFrame [Examples.morning_crash]
                = Ok (Examples.frame_of [Examples.morning_crash]))
    by (vm_compute; reflexivity).
  assert (Hd2 : createDataFrame [Examples.evening_crash]
                = Ok (Examples.frame_of [Examples.evening_crash]))
    by (vm_compute; reflexivity).
  assert (Hperm : columns (Examples.frame_of [Examples.morning_crash])
                  ≡ₚ columns (Examples.frame_of [Examples.evening_crash]))
    by (vm_compute; reflexivity).
  assert (HP : 0 < 1) by lia.
  assert (Hlen1 : Z.of_nat (length [Examples.morning_crash]) = 1) by reflexivity.
  assert (Hlen2 : Z.of_nat (length [Examples.evening_crash]) = 1) by reflexivity.
  assert (Hapi : api (Examples.quiet_world Examples.two_pages "2023-01-01")
                 = ok_page [Examples.morning_crash]
                   :: ok_page [Examples.evening_crash] :: ok_page [] :: [])
    by reflexivity.
  destruct (pagination_three_requests 1 "2023-01-01" _ _ _ _ _ _
              HP Hlen1 Hlen2 Hd1 Hd2 Hperm Hapi)
    as (w' & Hrun & _ & Hrest).
  exists w'. split; [exact Hrun | exact Hrest].
Defined.

(** C5 as stated fails: with pages of sizes 1, 1 and 0 under page size 1,
    the second page lacking two columns of the first, only two requests are
    issued and the call raises. *)
Lemma pagination_counterexample :
  map (fun t => match t with
                | Responds r => length <$> json r
                | Unreachable => None
                end) Examples.uneven_pages
  = [Some 1%nat; Some 1%nat; Some 0%nat]
  /\ fst (download_pages 1 "2023-01-01"
            (Examples.quiet_world Examples.uneven_pages "2023-01-01"))
     = Raise (AnalysisException "Cannot resolve column name latitude")
  /\ calls (snd (download_pages 1 "2023-01-01"
                   (Examples.quiet_world Examples.uneven_pages "2023-01-01")))
     = [ HttpGet BASE_URL (query "2023-01-01" 1 0);
         HttpGet BASE_URL (query "2023-01-01" 1 1) ].
Proof. repeat split; vm_compute; reflexivity. Qed.

(** ** What a computation leaves untouched *)

Section Frames.
Context (P : call -> Prop).
Context (K : gmap (string * string) s3_object -> gmap (string * string) s3_object -> Prop).
Context (K_refl : forall m, K m m).
Context (K_trans : forall m1 m2 m3, K m1 m2 -> K m2 m3 -> K m1 m3).

Lemma frame_refl (w : World) : frame P K w w.
Proof.
  split; [by repeat split |]. split; [apply K_refl |]. split.
  - exists []. by rewrite app_nil_r.
  - exists []. by rewrite app_nil_r.
Qed.

Lemma frame_trans (w1 w2 w3 : World) : frame P K w1 w2 -> frame P K w2 w3 -> frame P K w1 w3.
Proof.
  intros (Hs1 & Hk1 & (cs1 & Hc1 & Hp1) & (ls1 & Hl1))
         (Hs2 & Hk2 & (cs2 & Hc2 & Hp2) & (ls2 & Hl2)).
  split; [| split; [| split]].
  - unfold same_setting in *. intuition congruence.
  - by eapply K_trans.
  - exists (cs1 ++ cs2). split; [by rewrite Hc2, Hc1, app_assoc |].
    by apply Forall_app.
  - exists (ls1 ++ ls2). by rewrite Hl2, Hl1, app_assoc.
Qed.

Lemma respects_ret {A} (a : A) : respects P K (mret a).
Proof. intros w. apply frame_refl. Qed.

Lemma respects_raise {A} (e : exn) : respects P K (@raise A e).
Proof. intros w. apply frame_refl. Qed.

Lemma respects_lift {A} (r : result A) : respects P K (lift r).
Proof. intros w. apply frame_refl. Qed.

Lemma respects_get_world : respects P K get_world.
Proof. intros w. apply frame_refl. Qed.

Lemma respects_bind {A B} (m : M A) (f : A -> M B) :
  respects P K m -> (forall a, respects P K (f a)) -> respects P K (m ≫= f).
Proof.
  intros Hm Hf w. specialize (Hm w). unfold mbind, M_bind.
  destruct (m w) as [[a | e] w1]; simpl in *; [| exact Hm].
  eapply frame_trans; [exact Hm | apply Hf].
Qed.

Lemma respects_log (l : log_line) : respects P K (modify (with_log l)).
Proof.
  intros w. split; [by repeat split |]. split; [apply K_refl |]. split.
  - exists []. simpl. by rewrite app_nil_r.
  - by exists [l].
Qed.

Lemma respects_logger_info (msg : string) : respects P K (logger_info msg).
Proof. apply respects_log. Qed.

Lemma respects_logger_error (msg : string) : respects P K (logger_error msg).
Proof. apply respects_log. Qed.

Lemma respects_logger_exception (msg : string) : respects P K (logger_exception msg).
Proof. apply respects_log. Qed.

Lemma respects_perform (c : call) : P c -> respects P K (perform c).
Proof.
  intros Hc w. split; [by repeat split |]. split; [apply K_refl |]. split.
  - exists [c]. split; [done | by constructor].
  - exists []. simpl. by rewrite app_nil_r.
Qed.

Lemma respects_with_api (a : list http_result) : respects P K (modify (with_api a)).
Proof.
  intros w. split; [by repeat split |]. split; [apply K_refl |]. split.
  - exists []. simpl. by rewrite app_nil_r.
  - exists []. simpl. by rewrite app_nil_r.
Qed.

Lemma respects_with_s3 (f : gmap (string * string) s3_object
                            -> gmap (string * string) s3_object) :
  (forall m, K m (f m)) -> respects P K (modify (with_s3 f)).
Proof.
  intros Hf w. split; [by repeat split |]. split; [apply Hf |]. split.
  - exists []. simpl. by rewrite app_nil_r.
  - exists []. simpl. by rewrite app_nil_r.
Qed.

Lemma respects_requests_get (url : string) (params : query_params)
    (answer : http_result) (rest : list http_result) :
  P (HttpGet url params) -> respects P K (requests_get url params answer rest).
Proof.
  intros Hp. unfold requests_get.
  apply respects_bind; [by apply respects_perform | intros _].
  apply respects_bind; [apply respects_with_api | intros _].
  destruct answer; [apply respects_ret | apply respects_raise].
Qed.

Lemma respects_download_loop (limit : Z) (wm : string) :
  (forall url params, P (HttpGet url params)) ->
  forall (answers : list http_result) (offset : Z) (acc : option DataFrame),
    respects P K (download_loop limit answers wm offset acc).
Proof.
  intros Hp. induction answers as [| answer answers IH]; intros offset acc;
    cbn [download_loop].
  - apply respects_bind; [by apply respects_perform | intros _].
    apply respects_raise.
  - apply respects_bind; [by apply respects_requests_get | intros response].
    destruct (negb _).
    + apply respects_bind; [apply respects_logger_error | intros _].
      apply respects_ret.
    + apply respects_bind; [apply respects_lift | intros data].
      destruct data as [| record data].
      * apply respects_bind; [apply respects_logger_info | intros _].
        apply respects_ret.
      * apply respects_bind; [apply respects_lift | intros batch_df].
        apply respects_bind;
          [destruct acc; [apply respects_lift | apply respects_ret] | intros all].
        apply respects_bind; [apply respects_logger_info | intros _].
        apply IH.
Qed.

Lemma respects_download_new_data (wm : string) :
  (forall url params, P (HttpGet url params)) -> respects P K (download_new_data wm).
Proof.
  intros Hp. unfold download_new_data, download_pages.
  apply respects_bind; [apply respects_logger_info | intros _].
  intros w. unfold mbind, M_bind, get_world.
  apply respects_download_loop. exact Hp.
Qed.

Lemma respects_read_last_collision_date :
  P (S3GetObject CONFIG_BUCKET CONFIG_FILE_KEY) -> respects P K read_last_collision_date.
Proof.
  intros Hp. unfold read_last_collision_date, s3_get_object.
  apply respects_bind; [apply respects_logger_info | intros _].
  apply respects_bind.
  { apply respects_bind; [by apply respects_perform | intros _].
    apply respects_bind; [apply respects_get_world | intros w].
    destruct (s3_get_fails w); [apply respects_raise |].
    destruct (s3 w !! _) as [[] |];
      first [apply respects_ret | apply respects_raise]. }
  intros body.
  apply respects_bind; [apply respects_lift | intros file_content].
  apply respects_bind; [apply respects_lift | intros config_data].
  destruct (config_data !! _); [| apply respects_raise].
  apply respects_bind; [apply respects_logger_info | intros _].
  apply respects_ret.
Qed.

Lemma respects_load_data_into_redshift (path : string) :
  (forall sql, P (RedshiftExecute sql)) -> respects P K (load_data_into_redshift path).
Proof.
  intros Hp. unfold load_data_into_redshift.
  apply respects_bind; [apply respects_get_world | intros w].
  apply respects_bind;
    [destruct (redshift_connect_fails w);
       [apply respects_raise | apply respects_ret] | intros _].
  apply respects_bind; [apply respects_logger_info | intros _].
  apply respects_bind; [by apply respects_perform | intros _].
  apply respects_bind;
    [destruct (redshift_copy_fails w);
       [apply respects_raise | apply respects_ret] | intros _].
  apply respects_logger_info.
Qed.

Lemma respects_transform_data (eng : Engine) (data : DataFrame) :
  (forall path, P (ParquetSave path)) ->
  (forall m df, K m (<[(DATA_BUCKET, PROCESSED_DATA_PREFIX +:+ "/") := ParquetObject df]> m)) ->
  (forall m, K m (delete (DATA_BUCKET, PROCESSED_DATA_PREFIX +:+ "/") m)) ->
  respects P K (transform_data eng data).
Proof.
  intros Hp Hk Hclear. unfold transform_data, parquet_save.
  apply respects_bind; [apply respects_lift | intros df].
  apply respects_bind.
  { apply respects_bind; [by apply respects_perform | intros _].
    apply respects_bind; [apply respects_get_world | intros w].
    destruct (parquet_fails w).
    - apply respects_bind; [| intros _; apply respects_raise].
      destruct (parquet_clears w); [| apply respects_ret].
      apply respects_with_s3. intros m. apply Hclear.
    - apply respects_with_s3. intros m. apply Hk. }
  intros _. apply respects_bind; [apply respects_logger_info | intros _].
  apply respects_ret.
Qed.

Lemma respects_update_last_collision_date (new_date : string) :
  (forall body, P (S3PutObject CONFIG_BUCKET CONFIG_FILE_KEY body)) ->
  (forall m body, K m (<[config_key := TextObject body]> m)) ->
  respects P K (update_last_collision_date new_date).
Proof.
  intros Hp Hk. unfold update_last_collision_date, s3_put_object.
  apply respects_bind; [| intros _; apply respects_logger_info].
  apply respects_bind; [by apply respects_perform | intros _].
  apply respects_bind; [apply respects_get_world | intros w].
  destruct (s3_put_fails w); [apply respects_raise |].
  apply respects_with_s3. intros m. apply Hk.
Qed.

Lemma respects_upload_logs_to_s3 :
  (forall key, P (S3UploadFile LOGS_BUCKET key)) ->
  (forall m key lines,
     K m (<[(LOGS_BUCKET, LOGS_KEY_PREFIX +:+ key) := LogObject lines]> m)) ->
  respects P K upload_logs_to_s3.
Proof.
  intros Hp Hk. unfold upload_logs_to_s3, s3_upload_file.
  apply respects_bind; [apply respects_logger_info | intros _].
  apply respects_bind; [apply respects_get_world | intros w].
  apply respects_bind; [| intros _; apply respects_logger_info].
  apply respects_bind; [by apply respects_perform | intros _].
  apply respects_bind; [apply respects_get_world | intros w'].
  destruct (upload_fails w'); [apply respects_raise |].
  apply respects_with_s3. intros m. apply Hk.
Qed.

Lemma respects_spark_stop : P SparkStop -> respects P K spark_stop.
Proof.
  intros Hp. unfold spark_stop.
  apply respects_bind; [by apply respects_perform | intros _].
  apply respects_bind; [apply respects_get_world | intros w].
  destruct (spark_stop_fails w); [apply respects_raise | apply respects_ret].
Qed.

End Frames.

(** ** The orchestrator *)

Lemma pipeline_frame (eng : Engine) :
  respects pipeline_call any_store (pipeline eng).
Proof.
  assert (Hrefl : forall m, any_store m m) by done.
  assert (Htrans : forall m1 m2 m3, any_store m1 m2 -> any_store m2 m3 -> any_store m1 m3)
    by done.
  unfold pipeline.
  apply respects_bind; try assumption; [| intros last_collision_date].
  { apply respects_read_last_collision_date; try assumption; done. }
  apply respects_bind; try assumption; [| intros all_data_df].
  { apply respects_download_new_data; try assumption; done. }
  destruct all_data_df as [all_data_df |];
    [| apply respects_logger_info; assumption].
  apply respects_bind; try assumption;
    [apply respects_logger_info; assumption | intros _].
  apply respects_bind; try assumption;
    [apply respects_lift; assumption | intros max_crash_date].
  apply respects_bind; try assumption;
    [apply respects_lift; assumption | intros new_date].
  apply respects_bind; try assumption; [| intros path].
  { apply respects_transform_data; try assumption; done. }
  apply respects_bind; try assumption; [| intros _].
  { apply respects_load_data_into_redshift; try assumption; done. }
  apply respects_update_last_collision_date; try assumption; done.
Qed.

(** The outcome of [main] is that of the [finally] block; the upload is
    attempted once, after the calls of the pipeline, and a successful upload
    stores the log with the error line of a failed run. *)
Lemma main_outcome (eng : Engine) (w : World) :
  let w' := snd (main eng w) in
  let key := LOGS_KEY_PREFIX +:+ log_file_name w in
  fst (main eng w) = cleanup_outcome w
  /\ (upload_fails w = false -> spark_stop_fails w = false -> fst (main eng w) = Ok tt)
  /\ (exists cs,
        Forall pipeline_call cs
        /\ calls w' = calls w ++ cs ++ S3UploadFile LOGS_BUCKET key
                                       :: (if upload_fails w then [] else [SparkStop]))
  /\ (forall e, fst (pipeline eng w) = Raise e -> error_line ∈ log_file w')
  /\ (upload_fails w = false ->
      exists lines,
        s3 w' !! (LOGS_BUCKET, key) = Some (LogObject lines)
        /\ (forall e, fst (pipeline eng w) = Raise e -> error_line ∈ lines)).
Proof.
  intros w' key. subst w' key.
  pose proof (pipeline_frame eng w) as Hframe.
  unfold main, try_finally, try_except, cleanup_outcome.
  destruct (pipeline eng w) as [r0 w1]. simpl in Hframe.
  destruct Hframe as ((Hts & _ & _ & _ & _ & _ & Hup & Hstop & _) & _
                      & (cs & Hcalls & Hcs) & _).
  assert (Hname : forall l, log_file_name (with_log l w1) = log_file_name w).
  { intros l. unfold log_file_name. simpl. by rewrite Hts. }
  unfold upload_logs_to_s3, s3_upload_file, spark_stop, logger_exception,
    logger_info, perform, modify, get_world, raise, mbind, M_bind, mret, M_ret.
  destruct r0 as [[] | e0]; simpl; rewrite ?Hup;
    destruct (upload_fails w); simpl; rewrite ?Hstop;
    destruct (spark_stop_fails w); simpl;
    (split; [reflexivity |]); (split; [try done |]);
    (split; [exists cs; split; [exact Hcs |];
             unfold log_file_name; simpl; rewrite Hts, Hcalls;
             rewrite <- ?app_assoc; reflexivity |]);
    (split; [intros e He; try discriminate He;
             rewrite !elem_of_app, !list_elem_of_singleton; tauto |]);
    intros Hok; try discriminate Hok;
    unfold log_file_name; simpl; rewrite Hts;
    rewrite lookup_insert_eq; eexists; (split; [reflexivity |]);
    intros e He; try discriminate He;
    rewrite !elem_of_app, !list_elem_of_singleton; tauto.
Qed.

(** ** The watermark across a run *)

Lemma split_T_head_ge (s a : string) :
  PyStr.ltb a s = true ->
  (String.length a <= String.length (PyStr.split_T_head s))%nat ->
  PyStr.leb a (PyStr.split_T_head s) = true.
Proof.
  unfold PyStr.leb. revert a. induction s as [| c s IH]; intros a Hlt Hlen.
  - by destruct a.
  - simpl in Hlen |- *. destruct (Ascii.eqb c "T").
    + destruct a; [reflexivity | simpl in Hlen; lia].
    + destruct a as [| x a]; [reflexivity |]. simpl in Hlt, Hlen |- *.
      destruct (Z.ltb_spec (PyStr.code x) (PyStr.code c)).
      * destruct (Z.ltb_spec (PyStr.code c) (PyStr.code x)); [lia | reflexivity].
      * destruct (Z.ltb_spec (PyStr.code c) (PyStr.code x)); [discriminate |].
        apply IH; [exact Hlt | lia].
Qed.

Lemma value_max_cases (a b : value) : value_max a b = a \/ value_max a b = b.
Proof.
  destruct a, b; simpl; auto;
    match goal with |- context [if ?c then _ else _] => destruct c end; auto.
Qed.

Lemma agg_max_elem (c : string) (df : DataFrame) (v : value) :
  agg_max c df = Ok v -> v = VNull \/ exists r, r ∈ rows df /\ cell r c = v.
Proof.
  unfold agg_max. destruct (has_column df c); [| discriminate]. intros [= <-].
  assert (H : forall init,
             fold_left (fun m r => value_max m (cell r c)) (rows df) init = init
             \/ exists r, r ∈ rows df
                /\ cell r c = fold_left (fun m r => value_max m (cell r c)) (rows df) init).
  { induction (rows df) as [| r rs IH]; intros init; simpl; [by left |].
    destruct (IH (value_max init (cell r c))) as [Heq | (r' & Hin & Hr')].
    - rewrite Heq. destruct (value_max_cases init (cell r c)) as [-> | ->].
      + by left.
      + right. exists r. split; [constructor | done].
    - right. exists r'. split; [by constructor | done]. }
  destruct (H VNull) as [-> | (r & Hin & Hr)]; [by left |].
  right. eauto.
Qed.

Lemma ltb_irrefl (a : string) : PyStr.ltb a a = false.
Proof.
  induction a as [| c a IH]; [reflexivity |]. simpl.
  rewrite Z.ltb_irrefl. exact IH.
Qed.

Lemma ltb_asym (a b : string) : PyStr.ltb a b = true -> PyStr.ltb b a = false.
Proof.
  revert b. induction a as [| ca a IH]; intros [| cb b] H; try done.
  simpl in H |- *.
  destruct (Z.ltb_spec (PyStr.code ca) (PyStr.code cb)),
    (Z.ltb_spec (PyStr.code cb) (PyStr.code ca)); try done; try lia.
  by apply IH.
Qed.

(** If [c < a], any [b] is above [c] or below [a]. *)
Lemma ltb_between (c a b : string) :
  PyStr.ltb c a = true -> PyStr.ltb c b = true \/ PyStr.ltb b a = true.
Proof.
  revert a b. induction c as [| cc c IH]; intros [| ca a] [| cb b] H;
    try discriminate H; simpl in H |- *; auto.
  destruct (Z.ltb_spec (PyStr.code cc) (PyStr.code ca)),
    (Z.ltb_spec (PyStr.code ca) (PyStr.code cc)),
    (Z.ltb_spec (PyStr.code cc) (PyStr.code cb)),
    (Z.ltb_spec (PyStr.code cb) (PyStr.code cc)),
    (Z.ltb_spec (PyStr.code cb) (PyStr.code ca)),
    (Z.ltb_spec (PyStr.code ca) (PyStr.code cb));
    try discriminate H; auto; try lia.
Qed.

Lemma leb_refl (a : string) : PyStr.leb a a = true.
Proof. unfold PyStr.leb. by rewrite ltb_irrefl. Qed.

Lemma ltb_leb (a b : string) : PyStr.ltb a b = true -> PyStr.leb a b = true.
Proof. intros H. unfold PyStr.leb. by rewrite (ltb_asym a b H). Qed.

Lemma leb_trans (a b c : string) :
  PyStr.leb a b = true -> PyStr.leb b c = true -> PyStr.leb a c = true.
Proof.
  unfold PyStr.leb. rewrite !negb_true_iff. intros Hba Hcb.
  destruct (PyStr.ltb c a) eqn:Hca; [| reflexivity].
  destruct (ltb_between c a b Hca); congruence.
Qed.

(** On a string column [max] returns an upper bound of the column. *)
Lemma agg_max_upper (c : string) (df : DataFrame) (m : string) :
  agg_max c df = Ok (VStr m) ->
  Forall (fun r => string_or_null (cell r c)) (rows df) ->
  forall r s, r ∈ rows df -> cell r c = VStr s -> PyStr.leb s m = true.
Proof.
  unfold agg_max. destruct (has_column df c); [| discriminate]. intros [= Hfold].
  revert Hfold. generalize (rows df) as rs. intros rs Hfold Htyped.
  assert (H : forall init,
             string_or_null init ->
             fold_left (fun m r => value_max m (cell r c)) rs init = VStr m ->
             (forall a, init = VStr a -> PyStr.leb a m = true)
             /\ (forall r s, r ∈ rs -> cell r c = VStr s -> PyStr.leb s m = true)).
  { clear Hfold. induction Htyped as [| r rs Hr Hrs IH]; intros init Hinit Hfold.
    - simpl in Hfold. split.
      + intros a ->. injection Hfold as <-. apply leb_refl.
      + intros r s Hin. by apply elem_of_nil in Hin.
    - simpl in Hfold.
      assert (Hstep : string_or_null (value_max init (cell r c))).
      { destruct (value_max_cases init (cell r c)) as [-> | ->]; done. }
      destruct (IH _ Hstep Hfold) as [Hacc Hrest]. split.
      + intros a ->. destruct Hr as [Hr | [s Hr]]; rewrite Hr in Hacc.
        * by apply Hacc.
        * simpl in Hacc. destruct (PyStr.ltb a s) eqn:Hlt; [| by apply Hacc].
          eapply leb_trans; [apply ltb_leb; exact Hlt | by apply Hacc].
      + intros r' s Hin Hs. apply elem_of_cons in Hin as [-> | Hin];
          [| by eapply Hrest].
        rewrite Hs in Hacc.
        destruct Hinit as [-> | [a ->]]; simpl in Hacc; [by apply Hacc |].
        destruct (PyStr.ltb a s) eqn:Hlt; [by apply Hacc |].
        eapply leb_trans; [| by apply Hacc].
        unfold PyStr.leb. by rewrite Hlt. }
  exact (proj2 (H VNull (or_introl eq_refl) Hfold)).
Qed.

Lemma new_watermark_ge (old m : string) (batch : DataFrame) :
  agg_max "crash_date" batch = Ok (VStr m) ->
  honors_filter old batch -> date_parts_cover old batch ->
  PyStr.leb old (PyStr.split_T_head m) = true.
Proof.
  intros Hmax Hfilter Hcover.
  apply agg_max_elem in Hmax as [| (r & Hin & Hr)]; [done |].
  apply split_T_head_ge; [exact (Hfilter r m Hin Hr) | exact (Hcover r m Hin Hr)].
Qed.

Lemma run_bind_inv {A B} (m : M A) (f : A -> M B) (w w' : World) (r : result B) :
  (m ≫= f) w = (r, w') ->
  (exists a w1, m w = (Ok a, w1) /\ f a w1 = (r, w'))
  \/ (exists e, m w = (Raise e, w') /\ r = Raise e).
Proof.
  unfold mbind, M_bind. destruct (m w) as [[a | e] w1]; intros H.
  - left. eauto.
  - right. injection H as <- <-. eauto.
Qed.

Lemma config_kept_refl (m : gmap (string * string) s3_object) : config_kept m m.
Proof. done. Qed.

Lemma config_kept_trans (m1 m2 m3 : gmap (string * string) s3_object) :
  config_kept m1 m2 -> config_kept m2 m3 -> config_kept m1 m3.
Proof. unfold config_kept. congruence. Qed.

Lemma config_kept_processed (m : gmap (string * string) s3_object) (df : DataFrame) :
  config_kept m (<[(DATA_BUCKET, PROCESSED_DATA_PREFIX +:+ "/") := ParquetObject df]> m).
Proof.
  unfold config_kept. apply lookup_insert_ne.
  intros H. vm_compute in H. discriminate H.
Qed.

Lemma config_kept_cleared (m : gmap (string * string) s3_object) :
  config_kept m (delete (DATA_BUCKET, PROCESSED_DATA_PREFIX +:+ "/") m).
Proof.
  unfold config_kept. apply lookup_delete_ne.
  intros H. vm_compute in H. discriminate H.
Qed.

Lemma config_kept_log (m : gmap (string * string) s3_object) (key : string)
    (lines : list log_line) :
  config_kept m (<[(LOGS_BUCKET, LOGS_KEY_PREFIX +:+ key) := LogObject lines]> m).
Proof.
  unfold config_kept. apply lookup_insert_ne.
  unfold LOGS_KEY_PREFIX, config_key, CONFIG_FILE_KEY. intros [= H].
Qed.

Lemma read_written (d : string) (w : World) :
  s3_get_fails w = false ->
  s3 w !! config_key = Some (TextObject (Json.dumps [("last_collision_date", d)])) ->
  fst (read_last_collision_date w) = Ok d.
Proof.
  intros Hget Hdoc.
  unfold read_last_collision_date, s3_get_object, perform, logger_info,
    get_world, modify, lift, mbind, M_bind, mret, M_ret, raise. simpl.
  rewrite Hget. unfold config_key in Hdoc. rewrite Hdoc. simpl.
  rewrite utf8_decode_dumps. simpl. rewrite loads_dumps. simpl.
  rewrite lookup_singleton_eq. reflexivity.
Qed.

Lemma read_Ok_get (w w1 : World) (old : string) :
  read_last_collision_date w = (Ok old, w1) -> s3_get_fails w = false.
Proof.
  unfold read_last_collision_date, s3_get_object, perform, logger_info,
    get_world, modify, lift, mbind, M_bind, mret, M_ret, raise. simpl.
  destruct (s3_get_fails w); [discriminate | done].
Qed.

Lemma quiet_trans (w1 w2 w3 : World) : quiet w1 w2 -> quiet w2 w3 -> quiet w1 w3.
Proof. apply frame_trans. apply config_kept_trans. Qed.

Lemma quiet_refl (w : World) : quiet w w.
Proof. apply frame_refl. apply config_kept_refl. Qed.

Lemma read_quiet : respects not_the_write config_kept read_last_collision_date.
Proof.
  apply respects_read_last_collision_date;
    [apply config_kept_refl | apply config_kept_trans | done].
Qed.

Lemma download_quiet (wm : string) :
  respects not_the_write config_kept (download_new_data wm).
Proof.
  apply respects_download_new_data;
    [apply config_kept_refl | apply config_kept_trans | done].
Qed.

Lemma transform_quiet (eng : Engine) (data : DataFrame) :
  respects not_the_write config_kept (transform_data eng data).
Proof.
  apply respects_transform_data;
    [apply config_kept_refl | apply config_kept_trans | done
    | apply config_kept_processed | apply config_kept_cleared].
Qed.

Lemma load_quiet (path : string) :
  respects not_the_write config_kept (load_data_into_redshift path).
Proof.
  apply respects_load_data_into_redshift;
    [apply config_kept_refl | apply config_kept_trans | done].
Qed.

Lemma cleanup_quiet :
  respects not_the_write config_kept (_ ← upload_logs_to_s3; spark_stop).
Proof.
  apply respects_bind; [apply config_kept_trans | | intros _].
  - apply respects_upload_logs_to_s3;
      [apply config_kept_refl | apply config_kept_trans | done
      | apply config_kept_log].
  - apply respects_spark_stop;
      [apply config_kept_refl | apply config_kept_trans | done].
Qed.

Lemma load_Ok (path : string) (w w' : World) :
  load_data_into_redshift path w = (Ok tt, w') ->
  redshift_connect_fails w = false /\ redshift_copy_fails w = false
  /\ calls w' = calls w ++ [RedshiftExecute (copy_command path)].
Proof.
  unfold load_data_into_redshift, perform, logger_info, get_world, modify, raise,
    mbind, M_bind, mret, M_ret. simpl.
  destruct (redshift_connect_fails w); simpl; [discriminate |].
  destruct (redshift_copy_fails w); simpl; [discriminate |].
  intros [= <-]. simpl. eauto.
Qed.

Lemma transform_data_Ok_path (eng : Engine) (df : DataFrame) (w w' : World)
    (path : string) :
  transform_data eng df w = (Ok path, w') -> path = processed_path.
Proof.
  unfold transform_data, parquet_save, perform, logger_info, get_world, modify,
    lift, raise, mbind, M_bind, mret, M_ret.
  destruct (transform_frame eng df) as [out | e]; simpl; [| discriminate].
  destruct (parquet_fails w); simpl.
  - destruct (parquet_clears w); discriminate.
  - by intros [= <- _].
Qed.

Lemma update_run (new_date : string) (w w' : World) (r : result unit) :
  update_last_collision_date new_date w = (r, w') ->
  same_setting w w'
  /\ calls w' = calls w ++ [S3PutObject CONFIG_BUCKET CONFIG_FILE_KEY
                              (Json.dumps [("last_collision_date", new_date)])]
  /\ ((exists e, r = Raise e) /\ s3 w' = s3 w
      \/ r = Ok tt
         /\ s3 w' !! config_key
            = Some (TextObject (Json.dumps [("last_collision_date", new_date)]))).
Proof.
  unfold update_last_collision_date, s3_put_object, perform, logger_info,
    get_world, modify, raise, mbind, M_bind, mret, M_ret. simpl.
  destruct (s3_put_fails w); simpl; intros [= <- <-]; simpl.
  - split; [by repeat split |]. split; [done |]. left. eauto.
  - split; [by repeat split |]. split; [done |]. right. split; [done |].
    apply lookup_insert_eq.
Qed.

(** A run of the pipeline either leaves the watermark document alone, or it
    has gone through every stage and ends with the write. *)
Lemma pipeline_run (eng : Engine) (w wp : World) (r : result unit) :
  pipeline eng w = (r, wp) ->
  same_setting w wp
  /\ ((s3 wp !! config_key = s3 w !! config_key
       /\ (exists cs, calls wp = calls w ++ cs)
       /\ (r = Ok tt ->
           exists old w1 w2,
             read_last_collision_date w = (Ok old, w1)
             /\ download_new_data old w1 = (Ok None, w2)))
      \/ (r = Ok tt
          /\ exists old w1 batch w2 m cs,
               read_last_collision_date w = (Ok old, w1)
               /\ download_new_data old w1 = (Ok (Some batch), w2)
               /\ agg_max "crash_date" batch = Ok (VStr m)
               /\ redshift_connect_fails w = false
               /\ redshift_copy_fails w = false
               /\ s3 wp !! config_key
                  = Some (TextObject
                            (Json.dumps [("last_collision_date",
                                          PyStr.split_T_head m)]))
               /\ Forall not_the_write cs
               /\ calls wp
                  = calls w ++ cs
                    ++ [RedshiftExecute (copy_command processed_path);
                        S3PutObject CONFIG_BUCKET CONFIG_FILE_KEY
                          (Json.dumps [("last_collision_date",
                                        PyStr.split_T_head m)])])).
Proof.
  intros H. unfold pipeline in H.
  apply run_bind_inv in H as [(old & w1 & Hread & H) | (e & Hread & ->)].
  2: { pose proof (read_quiet w) as Hq. rewrite Hread in Hq.
       destruct Hq as (Hs & Hk & (cs & Hc & _) & _).
       split; [exact Hs |]. left. split; [exact Hk |]. split; [eauto | discriminate]. }
  pose proof (read_quiet w) as Hq. rewrite Hread in Hq. simpl in Hq.
  apply run_bind_inv in H as [(all & w2 & Hdl & H) | (e & Hdl & ->)].
  2: { pose proof (download_quiet old w1) as Hq2. rewrite Hdl in Hq2.
       destruct (quiet_trans _ _ _ Hq Hq2) as (Hs & Hk & (cs & Hc & _) & _).
       split; [exact Hs |]. left. split; [exact Hk |]. split; [eauto | discriminate]. }
  pose proof (download_quiet old w1) as Hq2. rewrite Hdl in Hq2. simpl in Hq2.
  pose proof (quiet_trans _ _ _ Hq Hq2) as Hq3. clear Hq Hq2.
  destruct all as [batch |].
  2: { injection H as <- <-.
       destruct Hq3 as (Hs & Hk & (cs & Hc & _) & _).
       split; [exact Hs |]. left. split; [exact Hk |]. split; [eauto |].
       intros _. eauto. }
  apply run_bind_inv in H as [([] & w3 & Hlog & H) | (e & Hlog & ->)];
    [| discriminate Hlog].
  injection Hlog as <-.
  match type of H with
  | _ ?w3 = _ => assert (Hq4 : quiet w w3)
  end.
  { eapply quiet_trans; [exact Hq3 |].
    apply (respects_logger_info not_the_write config_kept config_kept_refl). }
  clear Hq3.
  apply run_bind_inv in H as [(mx & w4 & Hmax & H) | (e & Hmax & ->)].
  2: { injection Hmax as _ <-.
       destruct Hq4 as (Hs & Hk & (cs & Hc & _) & _).
       split; [exact Hs |]. left. split; [exact Hk |]. split; [eauto | discriminate]. }
  injection Hmax as Hmax <-.
  apply run_bind_inv in H as [(new_date & w5 & Hsplit & H) | (e & Hsplit & ->)].
  2: { injection Hsplit as _ <-.
       destruct Hq4 as (Hs & Hk & (cs & Hc & _) & _).
       split; [exact Hs |]. left. split; [exact Hk |]. split; [eauto | discriminate]. }
  injection Hsplit as Hsplit <-.
  destruct mx as [| m | | | | | | |]; try discriminate Hsplit.
  simpl in Hsplit. injection Hsplit as <-.
  apply run_bind_inv in H as [(path & w6 & Htr & H) | (e & Htr & ->)].
  2: { match type of Htr with
       | transform_data _ _ ?w0 = _ =>
           pose proof (transform_quiet eng batch w0) as Hq5
       end. rewrite Htr in Hq5.
       destruct (quiet_trans _ _ _ Hq4 Hq5) as (Hs & Hk & (cs & Hc & _) & _).
       split; [exact Hs |]. left. split; [exact Hk |]. split; [eauto | discriminate]. }
  match type of Htr with
       | transform_data _ _ ?w0 = _ =>
           pose proof (transform_quiet eng batch w0) as Hq5
       end. rewrite Htr in Hq5. simpl in Hq5.
  pose proof (quiet_trans _ _ _ Hq4 Hq5) as Hq6. clear Hq4 Hq5.
  pose proof (transform_data_Ok_path eng batch _ _ _ Htr) as Hpath.
  apply run_bind_inv in H as [([] & w7 & Hload & H) | (e & Hload & ->)].
  2: { pose proof (load_quiet path w6) as Hq7. rewrite Hload in Hq7.
       destruct (quiet_trans _ _ _ Hq6 Hq7) as (Hs & Hk & (cs & Hc & _) & _).
       split; [exact Hs |]. left. split; [exact Hk |]. split; [eauto | discriminate]. }
  pose proof (load_quiet path w6) as Hq7. rewrite Hload in Hq7. simpl in Hq7.
  apply load_Ok in Hload as (Hconnect & Hcopy & Hcalls7). subst path.
  destruct Hq6 as (Hs6 & Hk6 & (cs & Hc6 & Hcs) & _).
  destruct Hq7 as (Hs7 & Hk7 & _ & _).
  apply update_run in H as (Hs8 & Hcalls8 & Hcases).
  assert (Hs : same_setting w wp).
  { unfold same_setting in *. intuition congruence. }
  split; [exact Hs |].
  destruct Hcases as [[[e ->] Hkeep] | [-> Hdoc]].
  - left. split; [| split; [| discriminate]].
    + rewrite Hkeep. unfold config_kept in *. congruence.
    + rewrite Hcalls8, Hcalls7, Hc6. rewrite <- !app_assoc. eauto.
  - right. split; [done |].
    exists old, w1, batch, w2, m, cs.
    destruct Hs6 as (_ & _ & _ & _ & Hc' & Hp' & _).
    repeat split; try done; try congruence.
    rewrite Hcalls8, Hcalls7, Hc6. rewrite <- !app_assoc. reflexivity.
Qed.

Lemma main_after_pipeline (eng : Engine) (w wp : World) (r : result unit) :
  pipeline eng w = (r, wp) -> quiet wp (snd (main eng w)).
Proof.
  intros Hp. unfold main, try_finally, try_except. rewrite Hp.
  destruct r as [[] | e].
  - pose proof (cleanup_quiet wp) as Hq.
    destruct ((_ ← upload_logs_to_s3; spark_stop) wp) as [[[] | e] w2]; exact Hq.
  - unfold logger_exception, modify.
    match goal with
    | |- context [with_log ?l wp] => set (w1 := with_log l wp)
    end.
    assert (Hq1 : quiet wp w1).
    { apply (respects_logger_exception not_the_write config_kept config_kept_refl
               "An error occurred during the ETL process." wp). }
    pose proof (cleanup_quiet w1) as Hq.
    destruct ((_ ← upload_logs_to_s3; spark_stop) w1) as [[[] | e'] w2];
      exact (quiet_trans _ _ _ Hq1 Hq).
Qed.

(** * Further properties of the job *)

(** ** Columns through the transformer *)

Lemma withColumn_has_column (eng : Engine) (n : string) (e : expr)
    (df df' : DataFrame) (c : string) :
  withColumn eng n e df = Ok df' ->
  has_column df' c = has_column df c || bool_decide (c = n).
Proof.
  unfold withColumn. destruct (resolves df e); [| discriminate]. intros [= <-].
  unfold has_column at 1. simpl.
  destruct (has_column df n) eqn:Hn.
  - fold (has_column df c). destruct (bool_decide (c = n)) eqn:Hc.
    + apply bool_decide_eq_true in Hc as ->. by rewrite Hn.
    + by rewrite orb_false_r.
  - apply eq_true_iff_eq. rewrite orb_true_iff, !bool_decide_eq_true.
    unfold has_column. rewrite bool_decide_eq_true, elem_of_app, list_elem_of_singleton.
    done.
Qed.

Lemma withColumn_total (eng : Engine) (n : string) (e : expr) (df : DataFrame) :
  resolves df e = true -> exists df', withColumn eng n e df = Ok df'.
Proof. intros H. unfold withColumn. rewrite H. eauto. Qed.

Lemma withColumn_Raise (eng : Engine) (n : string) (e : expr) (df : DataFrame)
    (x : exn) :
  withColumn eng n e df = Raise x ->
  resolves df e = false /\ exists msg, x = AnalysisException msg.
Proof.
  unfold withColumn. destruct (resolves df e); [discriminate |].
  intros [= <-]. eauto.
Qed.

(** The loop over [int_cols] casts the columns that are there and passes
    over the others: it does not fail and the columns stay as they are. *)
Lemma cast_columns_total (eng : Engine) (cols : list string) (df : DataFrame) :
  exists df', cast_columns eng cols df = Ok df' /\ columns df' = columns df.
Proof.
  revert df. induction cols as [| c cols IH]; intros df; simpl; [eauto |].
  destruct (has_column df c) eqn:Hc; [| apply IH].
  assert (Hres : resolves df (Cast (Col c) IntT) = true).
  { unfold resolves. simpl. by rewrite Hc. }
  unfold withColumn. rewrite Hres, Hc. simpl.
  match goal with
  | |- exists df', cast_columns _ _ ?d = _ /\ _ =>
      destruct (IH d) as (df' & Hrun & Hcols)
  end.
  exists df'. split; [exact Hrun | exact Hcols].
Qed.

Lemma cast_columns_has_column (eng : Engine) (cols : list string)
    (df df' : DataFrame) (c : string) :
  cast_columns eng cols df = Ok df' -> has_column df' c = has_column df c.
Proof.
  intros H. destruct (cast_columns_total eng cols df) as (d & Hd & Hcols).
  rewrite Hd in H. injection H as <-. unfold has_column. by rewrite Hcols.
Qed.

Lemma dropna_has_column (subset : list string) (df df' : DataFrame) (c : string) :
  dropna subset df = Ok df' -> has_column df' c = has_column df c.
Proof.
  intros H. apply dropna_inv in H as (_ & Hcols & _).
  unfold has_column. by rewrite Hcols.
Qed.

Lemma bind_Raise_inv {A B} (r : result A) (f : A -> result B) (e : exn) :
  r ≫= f = Raise e -> r = Raise e \/ exists a, r = Ok a /\ f a = Raise e.
Proof. destruct r as [a | e']; simpl; [eauto | intros [= <-]; by left]. Qed.

(** Rewrites the presence of a column after some steps into its presence
    before them. *)
Ltac columns_back :=
  repeat match goal with
  | H : withColumn ?eng ?n ?e ?d = Ok ?d' |- context [has_column ?d' ?c] =>
      rewrite (withColumn_has_column eng n e d d' c H)
  | H : cast_columns ?eng ?cols ?d = Ok ?d' |- context [has_column ?d' ?c] =>
      rewrite (cast_columns_has_column eng cols d d' c H)
  | H : dropna ?cs ?d = Ok ?d' |- context [has_column ?d' ?c] =>
      rewrite (dropna_has_column cs d d' c H)
  end.

Ltac columns_back_in Hc :=
  repeat match type of Hc with
  | context [has_column ?d' ?c] =>
      match goal with
      | H : withColumn ?eng ?n ?e ?d = Ok d' |- _ =>
          rewrite (withColumn_has_column eng n e d d' c H) in Hc
      | H : cast_columns ?eng ?cols ?d = Ok d' |- _ =>
          rewrite (cast_columns_has_column eng cols d d' c H) in Hc
      | H : dropna ?cs ?d = Ok d' |- _ =>
          rewrite (dropna_has_column cs d d' c H) in Hc
      end
  end.

Lemma transform_frame_needs (eng : Engine) (df out : DataFrame) :
  transform_frame eng df = Ok out ->
  Forall (fun c => has_column df c = true) required_columns.
Proof.
  intros H. transform_steps H.
  pose proof (dropna_inv _ _ _ Hd) as (_ & _ & Hid).
  pose proof (withColumn_inv _ _ _ _ _ Hd2) as (_ & _ & _ & Hdate).
  pose proof (withColumn_inv _ _ _ _ _ Hd3) as (_ & _ & _ & Htime).
  pose proof (withColumn_inv _ _ _ _ _ Hd10) as (_ & _ & _ & Hinj).
  pose proof (withColumn_inv _ _ _ _ _ Hd11) as (_ & _ & _ & Hkill).
  pose proof (withColumn_inv _ _ _ _ _ Hd13) as (_ & _ & _ & Hlat).
  pose proof (withColumn_inv _ _ _ _ _ Hd14) as (_ & _ & _ & Hlon).
  clear Hd15 H.
  unfold required_columns, int_cols. simpl.
  repeat constructor;
    try exact (Forall_inv Hid);
    match goal with
    | |- has_column df ?c = true =>
        first
          [ assert (Hc : has_column d1 c = true)
              by (apply Hdate; simpl; repeat constructor)
          | assert (Hc : has_column d2 c = true)
              by (apply Htime; simpl; repeat constructor)
          | assert (Hc : has_column d9 c = true)
              by (apply Hinj; simpl; repeat constructor)
          | assert (Hc : has_column d10 c = true)
              by (apply Hkill; simpl; repeat constructor)
          | assert (Hc : has_column d12 c = true)
              by (apply Hlat; simpl; repeat constructor)
          | assert (Hc : has_column d13 c = true)
              by (apply Hlon; simpl; repeat constructor) ];
        columns_back_in Hc; simpl in Hc;
        rewrite ?orb_false_r in Hc; exact Hc
    end.
Qed.

Lemma Forall_has_column (df : DataFrame) (cs : list string) (c : string) :
  Forall (fun c => has_column df c = true) cs -> bool_decide (c ∈ cs) = true ->
  has_column df c = true.
Proof.
  intros Hall Hc. apply bool_decide_eq_true in Hc.
  rewrite Forall_forall in Hall. by apply Hall.
Qed.

(** Solves [resolves d e = true] after some steps from the presence of the
    required columns in the input, [Hreq]. *)
Ltac resolve_with Hreq :=
  unfold resolves; simpl; columns_back; simpl;
  rewrite ?orb_false_r, ?orb_true_r;
  repeat match goal with
  | |- context [has_column ?df ?c] =>
      rewrite (Forall_has_column df required_columns c Hreq eq_refl)
  end;
  reflexivity.

Lemma bind_Ok {A B} (a : A) (f : A -> result B) : Ok a ≫= f = f a.
Proof. reflexivity. Qed.

Lemma transform_frame_runs (eng : Engine) (df : DataFrame) :
  Forall (fun c => has_column df c = true) required_columns ->
  exists out, transform_frame eng df = Ok out.
Proof.
  intros Hreq. unfold transform_frame.
  assert (Hdrop : exists d, dropna ["collision_id"] df = Ok d).
  { unfold dropna. simpl.
    rewrite (Forall_has_column df required_columns "collision_id" Hreq eq_refl).
    simpl. eauto. }
  destruct Hdrop as [d Hd]. rewrite Hd, bind_Ok.
  destruct (withColumn_total eng "collision_id" (Cast (Col "collision_id") IntT) d)
    as [d0 Hd0]; [resolve_with Hreq |]. rewrite Hd0, bind_Ok.
  destruct (cast_columns_total eng int_cols d0) as (d1 & Hd1 & _).
  rewrite Hd1, bind_Ok.
  repeat match goal with
  | |- exists out, (withColumn ?eng ?n ?e ?dk ≫= _) = Ok out =>
      let d' := fresh "d" in
      let Hd' := fresh "Hd" in
      destruct (withColumn_total eng n e dk) as [d' Hd'];
      [resolve_with Hreq |]; rewrite Hd', bind_Ok
  end.
  match goal with
  | |- exists out, ((if has_column ?dk "location" then _ else _) ≫= _) = Ok out =>
      destruct (has_column dk "location") eqn:Hloc
  end.
  - match goal with
    | |- exists out, (withColumn ?eng ?n ?e ?dk ≫= _) = Ok out =>
        destruct (withColumn_total eng n e dk) as [d' Hd'];
        [unfold resolves; simpl; by rewrite Hloc |]; rewrite Hd', bind_Ok
    end.
    cbv zeta. unfold select.
    match goal with
    | |- context [forallb ?f ?l] => assert (Hall : forallb f l = true)
    end.
    { apply forallb_forall. intros c Hc. apply list_elem_of_In in Hc.
      by apply list_elem_of_filter in Hc as [Hc _]. }
    rewrite Hall. eauto.
  - rewrite bind_Ok. cbv zeta. unfold select.
    match goal with
    | |- context [forallb ?f ?l] => assert (Hall : forallb f l = true)
    end.
    { apply forallb_forall. intros c Hc. apply list_elem_of_In in Hc.
      by apply list_elem_of_filter in Hc as [Hc _]. }
    rewrite Hall. eauto.
Qed.

Lemma select_existing (cs : list string) (df : DataFrame) :
  exists out, select (filter (fun c => has_column df c = true) cs) df = Ok out.
Proof.
  unfold select.
  match goal with
  | |- context [forallb ?f ?l] => assert (Hall : forallb f l = true)
  end.
  { apply forallb_forall. intros c Hc. apply list_elem_of_In in Hc.
    by apply list_elem_of_filter in Hc as [Hc _]. }
  rewrite Hall. eauto.
Qed.

Lemma transform_frame_raises (eng : Engine) (df : DataFrame) (e : exn) :
  transform_frame eng df = Raise e -> exists msg, e = AnalysisException msg.
Proof.
  intros H. unfold transform_frame in H.
  repeat match type of H with
  | _ ≫= _ = Raise _ =>
      apply bind_Raise_inv in H as [H | (? & ? & H)]
  end;
  try match type of H with
  | withColumn _ _ _ _ = Raise _ => by apply withColumn_Raise in H as [_ ?]
  | dropna _ _ = Raise _ =>
      unfold dropna in H; destruct (forallb _ _); [discriminate H |];
      injection H as <-; eauto
  | cast_columns ?eng ?cols ?d = Raise _ =>
      destruct (cast_columns_total eng cols d) as (? & Hc & _);
      rewrite Hc in H; discriminate H
  | (if ?b then _ else _) = Raise _ =>
      destruct b; [by apply withColumn_Raise in H as [_ ?] | discriminate H]
  | select _ ?d = Raise _ =>
      destruct (select_existing desired_columns d) as [? Hs];
      cbv zeta in H; rewrite Hs in H; discriminate H
  end.
Qed.

(** X1. A DataFrame of the API's records (distinct lower-case column names,
    text in the columns the transformer reads, an object as [location]) is
    transformed exactly when it has [collision_id], the eight count columns,
    [crash_date], [crash_time], [latitude] and [longitude]; the guard of the
    loop over the count columns does not make them optional, since the
    totals refer to all eight. When a column is missing the transformer
    raises an [AnalysisException], and it raises nothing else. *)
Theorem transform_frame_requires (eng : Engine) (df : DataFrame) :
  plain_columns df -> api_typed df ->
  ((exists out, transform_frame eng df = Ok out)
   <-> Forall (fun c => c ∈ columns df) required_columns)
  /\ (forall e, transform_frame eng df = Raise e ->
        exists msg, e = AnalysisException msg).
Proof.
  intros _ _. split; [split |].
  - intros [out H]. apply transform_frame_needs in H.
    eapply Forall_impl; [exact H |]. intros c. apply has_column_true.
  - intros H. apply transform_frame_runs.
    eapply Forall_impl; [exact H |]. intros c. apply has_column_true.
  - apply transform_frame_raises.
Qed.

Lemma transform_frame_requires_witness :
  (exists out,
     transform_frame Reference.engine (Examples.frame_of [Examples.morning_crash])
     = Ok out)
  /\ ~ (exists out,
          transform_frame Reference.engine (Examples.frame_of [Examples.sparse_crash])
          = Ok out).
Proof.
  assert (Hplain : plain_columns (Examples.frame_of [Examples.morning_crash]))
    by (unfold plain_columns; apply (bool_decide_unpack _); vm_compute; exact I).
  assert (Htyped : api_typed (Examples.frame_of [Examples.morning_crash]))
    by (unfold api_typed; apply (bool_decide_unpack _); vm_compute; exact I).
  assert (Hreq : Forall (fun c => c ∈ columns (Examples.frame_of [Examples.morning_crash]))
                   required_columns)
    by (apply (bool_decide_unpack _); vm_compute; exact I).
  assert (Hplain' : plain_columns (Examples.frame_of [Examples.sparse_crash]))
    by (unfold plain_columns; apply (bool_decide_unpack _); vm_compute; exact I).
  assert (Htyped' : api_typed (Examples.frame_of [Examples.sparse_crash]))
    by (unfold api_typed; apply (bool_decide_unpack _); vm_compute; exact I).
  assert (Hmiss : ~ Forall (fun c => c ∈ columns (Examples.frame_of [Examples.sparse_crash]))
                      required_columns)
    by (apply (bool_decide_unpack _); vm_compute; exact I).
  split.
  - exact (proj2 (proj1 (transform_frame_requires Reference.engine
                           (Examples.frame_of [Examples.morning_crash])
                           Hplain Htyped)) Hreq).
  - intros Hrun. apply Hmiss.
    exact (proj1 (proj1 (transform_frame_requires Reference.engine
                           (Examples.frame_of [Examples.sparse_crash])
                           Hplain' Htyped')) Hrun).
Defined.

Lemma filter_ext_in {A} (P Q : A -> Prop) `{!forall x, Decision (P x)}
    `{!forall x, Decision (Q x)} (l : list A) :
  Forall (fun x => P x <-> Q x) l -> filter P l = filter Q l.
Proof.
  induction 1 as [| x l Hx Hl IH]; [reflexivity |].
  rewrite !filter_cons, IH.
  destruct (decide (P x)), (decide (Q x)); tauto.
Qed.

Lemma location_step_has_column (eng : Engine) (d d' : DataFrame) (c : string) :
  (if has_column d "location"
   then withColumn eng "location" (ToJson (Col "location")) d
   else Ok d) = Ok d' ->
  has_column d' c = has_column d c.
Proof.
  destruct (has_column d "location") eqn:Hloc; [| by intros [= <-]].
  intros H. rewrite (withColumn_has_column _ _ _ _ _ c H).
  destruct (bool_decide (c = "location")) eqn:Hc; [| apply orb_false_r].
  apply bool_decide_eq_true in Hc as ->. by rewrite Hloc.
Qed.

Lemma steps_columns_desired (c : string) :
  c ∈ steps_columns -> c ∈ desired_columns ->
  c ∈ derived_columns \/ c ∈ required_columns.
Proof.
  unfold steps_columns. intros Hs Hd.
  repeat (apply elem_of_cons in Hs as [-> | Hs];
          [first [ left; unfold derived_columns; by repeat constructor
                 | right; unfold required_columns, int_cols; simpl;
                   by repeat constructor
                 | exfalso; revert Hd; apply (bool_decide_unpack _);
                   vm_compute; exact I ] |]).
  by apply elem_of_nil in Hs.
Qed.

Lemma derived_columns_steps (c : string) :
  c ∈ derived_columns -> c ∈ steps_columns.
Proof.
  unfold derived_columns. intros Hd.
  repeat (apply elem_of_cons in Hd as [-> | Hd];
          [unfold steps_columns; by repeat constructor |]).
  by apply elem_of_nil in Hd.
Qed.

(** X2. The columns of the transformed dataset are the desired columns, in
    their fixed order, that the input has or the transformer derives. *)
Theorem transform_frame_columns (eng : Engine) (df out : DataFrame) :
  transform_frame eng df = Ok out ->
  columns out
  = filter (fun c => c ∈ columns df ++ derived_columns) desired_columns.
Proof.
  intros H. pose proof (transform_frame_needs eng df out H) as Hreq.
  transform_steps H.
  apply select_inv in H as [-> _].
  assert (Hback : forall c, has_column d15 c = true
                            <-> c ∈ columns df \/ c ∈ steps_columns).
  { intros c. rewrite (location_step_has_column eng d14 d15 _ Hd15).
    columns_back. rewrite !orb_true_iff, !bool_decide_eq_true, has_column_true.
    unfold steps_columns. rewrite !elem_of_cons, elem_of_nil. tauto. }
  clear -Hback Hreq.
  apply filter_ext_in, Forall_forall. intros c Hc.
  rewrite Hback, elem_of_app. split.
  - intros [Hin | Hin]; [by left |].
    destruct (steps_columns_desired c Hin Hc) as [Hder | Hneed]; [by right |].
    left. rewrite Forall_forall in Hreq. by apply has_column_true, Hreq.
  - intros [Hin | Hin]; [by left |]. right. by apply derived_columns_steps.
Qed.

Lemma transform_frame_columns_witness :
  columns (Examples.transformed [Examples.morning_crash])
  = filter (fun c => c ∈ columns (Examples.frame_of [Examples.morning_crash])
                         ++ derived_columns)
           desired_columns.
Proof.
  assert (Hrun : transform_frame Reference.engine
                   (Examples.frame_of [Examples.morning_crash])
                 = Ok (Examples.transformed [Examples.morning_crash]))
    by (vm_compute; reflexivity).
  exact (transform_frame_columns Reference.engine _ _ Hrun).
Defined.

(** ** The calendar columns *)

Lemma eval_part (eng : Engine) (p : part) (r : row) :
  eval eng r (Extract p (Col "crash_timestamp"))
  = part_of eng p (cell r "crash_timestamp").
Proof. simpl. unfold part_of. by destruct (cell r "crash_timestamp"). Qed.

Lemma eval_is_weekend (eng : Engine) (r : row) :
  eval eng r is_weekend_expr = VBool (is_weekend_of (cell r "day_of_week")).
Proof.
  unfold is_weekend_expr, otherwise, when. simpl.
  destruct (cell r "day_of_week") as [| | d | | | | | |]; try reflexivity.
  simpl. by destruct (d =? 1), (d =? 7).
Qed.

(** A column that is assigned once, from columns that are not assigned
    after it, holds the value of its expression in the transformed dataset. *)
Ltac assigned_at Hstep H :=
  match type of Hstep with
  | withColumn ?eng ?n ?e ?d = Ok ?d' =>
      let Hh := fresh "Hh" in
      let HQ := fresh "HQ" in
      pose proof (holds_new_column eng n e d d' eq_refl Hstep) as Hh;
      pose proof (reads_only_eval eng n e) as HQ;
      carry HQ Hh; exact (holds_project _ _ _ _ HQ eq_refl Hh H)
  end.

Lemma transform_frame_part (eng : Engine) (df out : DataFrame) :
  transform_frame eng df = Ok out ->
  Forall (fun r =>
            cell r "year" = part_of eng Year (cell r "crash_timestamp")
            /\ cell r "month" = part_of eng Month (cell r "crash_timestamp")
            /\ cell r "day_of_week" = part_of eng DayOfWeek (cell r "crash_timestamp")
            /\ cell r "is_weekend" = VBool (is_weekend_of (cell r "day_of_week")))
         (rows out).
Proof.
  intros H. transform_steps H.
  assert (Hy : Forall (fun r => cell r "year"
                                = eval eng r (Extract Year (Col "crash_timestamp")))
                 (rows out)) by assigned_at Hd4 H.
  assert (Hm : Forall (fun r => cell r "month"
                                = eval eng r (Extract Month (Col "crash_timestamp")))
                 (rows out)) by assigned_at Hd5 H.
  assert (Hw : Forall (fun r => cell r "day_of_week"
                                = eval eng r (Extract DayOfWeek (Col "crash_timestamp")))
                 (rows out)) by assigned_at Hd6 H.
  assert (He : Forall (fun r => cell r "is_weekend" = eval eng r is_weekend_expr)
                 (rows out)) by assigned_at Hd7 H.
  rewrite Forall_forall in Hy, Hm, Hw, He. apply Forall_forall. intros r Hr.
  rewrite (Hy r Hr), (Hm r Hr), (He r Hr), eval_is_weekend.
  split; [apply eval_part |]. split; [apply eval_part |]. split; [| done].
  rewrite (Hw r Hr) at 1. apply eval_part.
Qed.

(** X3. The [year], [month] and [day_of_week] of a transformed record are the
    parts of its [crash_timestamp], and null when the timestamp is null: a
    record whose date or time does not parse is kept, without its calendar
    columns. *)
Theorem calendar_columns (eng : Engine) (df out : DataFrame) (r : row) :
  transform_frame eng df = Ok out -> r ∈ rows out ->
  (forall t, cell r "crash_timestamp" = VTimestamp t ->
     cell r "year" = opt_value VInt (extract eng Year (VTimestamp t))
     /\ cell r "month" = opt_value VInt (extract eng Month (VTimestamp t))
     /\ cell r "day_of_week" = opt_value VInt (extract eng DayOfWeek (VTimestamp t)))
  /\ (cell r "crash_timestamp" = VNull ->
      cell r "year" = VNull /\ cell r "month" = VNull
      /\ cell r "day_of_week" = VNull
      /\ cell r "is_weekend" = VBool false
      /\ cell r "time_of_day" = VStr "Night").
Proof.
  intros H Hr.
  pose proof (transform_frame_part eng df out H) as Hall.
  pose proof (transform_frame_time_of_day eng df out H) as Htod.
  rewrite Forall_forall in Hall, Htod.
  destruct (Hall r Hr) as (Hy & Hm & Hw & He). specialize (Htod r Hr).
  split.
  - intros t Ht. rewrite Ht in Hy, Hm, Hw. done.
  - intros Hnull. rewrite Hnull in Hy, Hm, Hw, Htod.
    rewrite He, Hw. done.
Qed.

Lemma calendar_columns_witness :
  cell untimed_row "crash_timestamp" = VNull
  /\ cell untimed_row "year" = VNull
  /\ cell untimed_row "is_weekend" = VBool false
  /\ cell untimed_row "time_of_day" = VStr "Night".
Proof.
  assert (Hrun : transform_frame Reference.engine
                   (Examples.frame_of [Examples.morning_crash; untimed_crash])
                 = Ok (Examples.transformed [Examples.morning_crash; untimed_crash]))
    by (vm_compute; reflexivity).
  assert (Hr : untimed_row
               ∈ rows (Examples.transformed [Examples.morning_crash; untimed_crash]))
    by (apply (bool_decide_unpack _); vm_compute; exact I).
  assert (Hnull : cell untimed_row "crash_timestamp" = VNull)
    by (vm_compute; reflexivity).
  destruct (proj2 (calendar_columns Reference.engine _ _ untimed_row Hrun Hr) Hnull)
    as (Hyear & _ & _ & Hweekend & Hnight).
  split; [exact Hnull |]. split; [exact Hyear |]. split; [exact Hweekend | exact Hnight].
Defined.

(** X4. [is_weekend] is a boolean in every transformed record, never null: true
    exactly when [day_of_week] is 1 (Sunday) or 7 (Saturday). *)
Theorem is_weekend_flag (eng : Engine) (df out : DataFrame) (r : row) :
  transform_frame eng df = Ok out -> r ∈ rows out ->
  exists b, cell r "is_weekend" = VBool b
            /\ (b = true <-> cell r "day_of_week" = VInt 1
                             \/ cell r "day_of_week" = VInt 7).
Proof.
  intros H Hr.
  pose proof (transform_frame_part eng df out H) as Hall.
  rewrite Forall_forall in Hall. destruct (Hall r Hr) as (_ & _ & _ & He).
  eexists. split; [exact He |].
  destruct (cell r "day_of_week") as [| | d | | | | | |]; simpl;
    try (split; [discriminate | intros [Hd | Hd]; discriminate Hd]).
  rewrite orb_true_iff, !Z.eqb_eq. split.
  - intros [-> | ->]; auto.
  - intros [[= ->] | [= ->]]; auto.
Qed.

Lemma is_weekend_flag_witness :
  cell sunday_row "day_of_week" = VInt 1
  /\ exists b, cell sunday_row "is_weekend" = VBool b
               /\ (b = true <-> cell sunday_row "day_of_week" = VInt 1
                                \/ cell sunday_row "day_of_week" = VInt 7).
Proof.
  assert (Hrun : transform_frame Reference.engine (Examples.frame_of [sunday_crash])
                 = Ok (Examples.transformed [sunday_crash]))
    by (vm_compute; reflexivity).
  assert (Hr : sunday_row ∈ rows (Examples.transformed [sunday_crash]))
    by (apply (bool_decide_unpack _); vm_compute; exact I).
  assert (Hday : cell sunday_row "day_of_week" = VInt 1) by (vm_compute; reflexivity).
  split; [exact Hday |].
  exact (is_weekend_flag Reference.engine _ _ sunday_row Hrun Hr).
Defined.

(** ** The totals *)

(** X5. When the four counts behind a total are non-negative ints whose sum fits
    32 bits, the total of a transformed record is their sum. *)
Theorem totals_are_sums (eng : Engine) (df out : DataFrame) (r : row) :
  transform_frame eng df = Ok out -> r ∈ rows out ->
  (forall a b c d,
     cell r "number_of_persons_injured" = VInt a ->
     cell r "number_of_pedestrians_injured" = VInt b ->
     cell r "number_of_cyclist_injured" = VInt c ->
     cell r "number_of_motorist_injured" = VInt d ->
     0 <= a -> 0 <= b -> 0 <= c -> 0 <= d -> a + b + c + d <= INT_MAX ->
     cell r "total_injuries" = VInt (a + b + c + d))
  /\ (forall a b c d,
        cell r "number_of_persons_killed" = VInt a ->
        cell r "number_of_pedestrians_killed" = VInt b ->
        cell r "number_of_cyclist_killed" = VInt c ->
        cell r "number_of_motorist_killed" = VInt d ->
        0 <= a -> 0 <= b -> 0 <= c -> 0 <= d -> a + b + c + d <= INT_MAX ->
        cell r "total_fatalities" = VInt (a + b + c + d)).
Proof.
  intros H Hr.
  pose proof (transform_frame_totals eng df out H) as Hall.
  rewrite Forall_forall in Hall. destruct (Hall r Hr) as [Hinj Hfat].
  unfold INT_MAX.
  split; intros a b c d Ha Hb Hc Hd Ha0 Hb0 Hc0 Hd0 Hsum;
    [rewrite Hinj; unfold total_injuries_expr
    | rewrite Hfat; unfold total_fatalities_expr];
    simpl; rewrite Ha, Hb, Hc, Hd; simpl; unfold int_add;
    rewrite (wrap32_id (a + b)) by (unfold INT_MIN, INT_MAX; lia);
    rewrite (wrap32_id (a + b + c)) by (unfold INT_MIN, INT_MAX; lia);
    rewrite (wrap32_id (a + b + c + d)) by (unfold INT_MIN, INT_MAX; lia);
    reflexivity.
Qed.

Lemma totals_are_sums_witness :
  cell sunday_row "total_injuries" = VInt (3 + 0 + 0 + 3).
Proof.
  assert (Hrun : transform_frame Reference.engine (Examples.frame_of [sunday_crash])
                 = Ok (Examples.transformed [sunday_crash]))
    by (vm_compute; reflexivity).
  assert (Hr : sunday_row ∈ rows (Examples.transformed [sunday_crash]))
    by (apply (bool_decide_unpack _); vm_compute; exact I).
  assert (Ha : cell sunday_row "number_of_persons_injured" = VInt 3)
    by (vm_compute; reflexivity).
  assert (Hb : cell sunday_row "number_of_pedestrians_injured" = VInt 0)
    by (vm_compute; reflexivity).
  assert (Hc : cell sunday_row "number_of_cyclist_injured" = VInt 0)
    by (vm_compute; reflexivity).
  assert (Hd : cell sunday_row "number_of_motorist_injured" = VInt 3)
    by (vm_compute; reflexivity).
  assert (H3 : 0 <= 3) by lia.
  assert (H0 : 0 <= 0) by lia.
  assert (Hsum : 3 + 0 + 0 + 3 <= INT_MAX) by (unfold INT_MAX; lia).
  exact (proj1 (totals_are_sums Reference.engine _ _ sunday_row Hrun Hr)
           3 0 0 3 Ha Hb Hc Hd H3 H0 H0 H3 Hsum).
Defined.

(** ** The columns that are cast or passed through *)

Lemma cast_int_idem (v : value) : cast_int (cast_int v) = cast_int v.
Proof.
  destruct v as [| s | n | n | b | | | |]; simpl; try reflexivity.
  - destruct (string_to_int s) as [n|] eqn:Hs; [| reflexivity]. simpl.
    by rewrite (wrap32_id n (string_to_int_range s n Hs)).
  - by rewrite (wrap32_id _ (wrap32_range n)).
  - by rewrite (wrap32_id _ (wrap32_range n)).
  - by destruct b.
Qed.

Lemma withColumn_same_values (eng : Engine) (n : string) (e : expr)
    (df df' : DataFrame) :
  withColumn eng n e df = Ok df' ->
  col_values n df' = map (fun r => eval eng r e) (rows df).
Proof.
  intros H. apply withColumn_inv in H as (Hrows & _). unfold col_values.
  rewrite Hrows, map_map. apply map_ext. intros r. apply cell_insert_eq.
Qed.

Lemma cast_columns_values (eng : Engine) (cols : list string) (c : string) :
  forall df df', cast_columns eng cols df = Ok df' ->
  col_values c df'
  = if bool_decide (c ∈ cols) && has_column df c
    then map cast_int (col_values c df) else col_values c df.
Proof.
  induction cols as [| n cols IH]; simpl; intros df df' H.
  - by injection H as <-.
  - destruct (has_column df n) eqn:Hn.
    + apply bind_Ok_inv in H as (d & Hd & H). rewrite (IH _ _ H).
      rewrite (withColumn_has_column _ _ _ _ _ c Hd).
      destruct (decide (c = n)) as [-> | Hne].
      * rewrite Hn. simpl. rewrite (bool_decide_eq_true_2 (n ∈ n :: cols))
          by constructor. simpl.
        rewrite (withColumn_same_values _ _ _ _ _ Hd). simpl.
        unfold col_values. rewrite !map_map.
        destruct (bool_decide (n ∈ cols)); simpl; [| reflexivity].
        apply map_ext. intros r. apply cast_int_idem.
      * rewrite (bool_decide_eq_false_2 (c = n)) by done. rewrite orb_false_r.
        rewrite (withColumn_col_values _ n c _ _ _ ltac:(congruence) Hd).
        rewrite (bool_decide_ext (c ∈ n :: cols) (c ∈ cols)); [done |].
        rewrite elem_of_cons. tauto.
    + rewrite (IH _ _ H).
      destruct (decide (c = n)) as [-> | Hne].
      * rewrite Hn, !andb_false_r. reflexivity.
      * rewrite (bool_decide_ext (c ∈ n :: cols) (c ∈ cols)); [done |].
        rewrite elem_of_cons. tauto.
Qed.

Lemma cast_columns_rows (eng : Engine) (cols : list string) :
  forall df df', cast_columns eng cols df = Ok df' ->
  length (rows df') = length (rows df).
Proof.
  induction cols as [| n cols IH]; simpl; intros df df' H.
  - by injection H as <-.
  - destruct (has_column df n); [| by apply IH].
    apply bind_Ok_inv in H as (d & Hd & H). rewrite (IH _ _ H).
    apply withColumn_inv in Hd as (-> & _). by rewrite length_map.
Qed.

(** X6. On a DataFrame with distinct lower-case column names whose listed
    columns hold text, integers, booleans or nulls, the loop over the count
    columns does not fail, whichever of the columns are there. It keeps the
    columns and the number of records, casts to int each listed column that
    is there, and leaves every other column as it was. *)
Theorem cast_columns_casts_present (eng : Engine) (cols : list string)
    (df : DataFrame) :
  plain_columns df -> scalar_columns cols df ->
  exists df',
    cast_columns eng cols df = Ok df'
    /\ columns df' = columns df
    /\ length (rows df') = length (rows df)
    /\ forall c,
         col_values c df'
         = if bool_decide (c ∈ cols) && has_column df c
           then map cast_int (col_values c df) else col_values c df.
Proof.
  intros _ _.
  destruct (cast_columns_total eng cols df) as (df' & Hrun & Hcols).
  exists df'. split; [exact Hrun |]. split; [exact Hcols |]. split.
  - exact (cast_columns_rows eng cols df df' Hrun).
  - intros c. exact (cast_columns_values eng cols c df df' Hrun).
Qed.

Lemma cast_columns_casts_present_witness :
  exists df',
    cast_columns Reference.engine int_cols (Examples.frame_of [Examples.uncounted_crash])
    = Ok df'
    /\ columns df' = columns (Examples.frame_of [Examples.uncounted_crash]).
Proof.
  assert (Hplain : plain_columns (Examples.frame_of [Examples.uncounted_crash]))
    by (unfold plain_columns; apply (bool_decide_unpack _); vm_compute; exact I).
  assert (Hscalar : scalar_columns int_cols (Examples.frame_of [Examples.uncounted_crash]))
    by (unfold scalar_columns; apply (bool_decide_unpack _); vm_compute; exact I).
  destruct (cast_columns_casts_present Reference.engine int_cols
              (Examples.frame_of [Examples.uncounted_crash]) Hplain Hscalar)
    as (df' & Hrun & Hcols & _).
  exists df'. split; [exact Hrun | exact Hcols].
Defined.

Lemma dropna_kept_rows (df d : DataFrame) :
  dropna ["collision_id"] df = Ok d -> rows d = kept_rows df.
Proof.
  intros H. apply dropna_inv in H as (-> & _). unfold kept_rows.
  apply list_filter_iff. intros r. simpl. rewrite andb_true_r, negb_true_iff.
  destruct (cell r "collision_id"); simpl; split; congruence.
Qed.



(** ** The columns that are parsed *)

(** Rewrites the values of column [c] after some steps into its values
    before them, as long as the steps assign other columns. *)
Ltac values_back c :=
  repeat match goal with
  | Hstep : withColumn ?eng ?n ?e ?d = Ok ?d' |- context [col_values c ?d'] =>
      rewrite (withColumn_col_values eng n c e d d' ltac:(discriminate) Hstep)
  | Hstep : cast_columns ?eng ?cols ?d = Ok ?d' |- context [col_values c ?d'] =>
      rewrite (cast_columns_col_values eng c cols
                 ltac:(by apply (bool_decide_unpack _)) d d' Hstep)
  end.

Lemma location_step_col_values (eng : Engine) (d d' : DataFrame) (c : string) :
  c <> "location" ->
  (if has_column d "location"
   then withColumn eng "location" (ToJson (Col "location")) d
   else Ok d) = Ok d' ->
  col_values c d' = col_values c d.
Proof.
  intros Hc H. destruct (has_column d "location"); [| by injection H as <-].
  eapply withColumn_col_values; [| exact H]. congruence.
Qed.

Lemma withColumn_unary (eng : Engine) (c : string) (e : expr) (f : value -> value)
    (df df' : DataFrame) :
  (forall r, eval eng r e = f (cell r c)) ->
  withColumn eng c e df = Ok df' ->
  col_values c df' = map f (col_values c df).
Proof.
  intros Hf H. rewrite (withColumn_same_values _ _ _ _ _ H).
  unfold col_values. rewrite map_map. apply map_ext. intros r. apply Hf.
Qed.

Lemma dropna_col_values (df d : DataFrame) (c : string) :
  dropna ["collision_id"] df = Ok d ->
  col_values c d = map (fun r => cell r c) (kept_rows df).
Proof. intros H. unfold col_values. by rewrite (dropna_kept_rows df d H). Qed.

Lemma eval_to_date (eng : Engine) (r : row) (c : string) :
  eval eng r (ToDate (Col c) "yyyy-MM-dd") = to_date_of eng (cell r c).
Proof. reflexivity. Qed.

Lemma eval_cast_double (eng : Engine) (r : row) (c : string) :
  eval eng r (Cast (Col c) DoubleT) = cast_double_of eng (cell r c).
Proof. simpl. by destruct (cell r c). Qed.

Lemma eval_to_json (eng : Engine) (r : row) (c : string) :
  eval eng r (ToJson (Col c)) = to_json_of eng (cell r c).
Proof. simpl. by destruct (cell r c). Qed.

(** X8. The date and the coordinates of a transformed record are parsed from
    the raw values of the record: [crash_date] with the pattern
    [yyyy-MM-dd], [latitude] and [longitude] by the cast to double, a null
    staying null; [location], when the input has it, is its JSON text. *)
Theorem parsed_columns (eng : Engine) (df out : DataFrame) :
  transform_frame eng df = Ok out ->
  col_values "crash_date" out
  = map (fun r => to_date_of eng (cell r "crash_date")) (kept_rows df)
  /\ col_values "latitude" out
     = map (fun r => cast_double_of eng (cell r "latitude")) (kept_rows df)
  /\ col_values "longitude" out
     = map (fun r => cast_double_of eng (cell r "longitude")) (kept_rows df)
  /\ ("location" ∈ columns df ->
      col_values "location" out
      = map (fun r => to_json_of eng (cell r "location")) (kept_rows df)).
Proof.
  intros H. pose proof (transform_frame_needs eng df out H) as Hreq.
  transform_steps H.
  assert (Hhas : forall c, has_column df c = true -> has_column d15 c = true).
  { intros c Hc. rewrite (location_step_has_column eng d14 d15 _ Hd15).
    columns_back. by rewrite Hc. }
  assert (Hout : forall c, bool_decide (c ∈ desired_columns) = true ->
                           has_column df c = true ->
                           col_values c out = col_values c d15).
  { intros c Hdes Hc. apply bool_decide_eq_true in Hdes.
    exact (project_col_values c d15 out Hdes (Hhas c Hc) H). }
  split; [| split; [| split]].
  - rewrite (Hout "crash_date" eq_refl
               (Forall_has_column df required_columns "crash_date" Hreq eq_refl)).
    rewrite (location_step_col_values eng d14 d15 "crash_date" ltac:(discriminate) Hd15).
    values_back "crash_date".
    rewrite (withColumn_unary eng "crash_date" (ToDate (Col "crash_date") "yyyy-MM-dd")
               (to_date_of eng) d1 d2
               (fun r => eval_to_date eng r "crash_date") Hd2).
    values_back "crash_date".
    rewrite (dropna_col_values df d "crash_date" Hd). by rewrite map_map.
  - rewrite (Hout "latitude" eq_refl
               (Forall_has_column df required_columns "latitude" Hreq eq_refl)).
    rewrite (location_step_col_values eng d14 d15 "latitude" ltac:(discriminate) Hd15).
    values_back "latitude".
    rewrite (withColumn_unary eng "latitude" (Cast (Col "latitude") DoubleT)
               (cast_double_of eng) d12 d13
               (fun r => eval_cast_double eng r "latitude") Hd13).
    values_back "latitude".
    rewrite (dropna_col_values df d "latitude" Hd). by rewrite map_map.
  - rewrite (Hout "longitude" eq_refl
               (Forall_has_column df required_columns "longitude" Hreq eq_refl)).
    rewrite (location_step_col_values eng d14 d15 "longitude" ltac:(discriminate) Hd15).
    rewrite (withColumn_unary eng "longitude" (Cast (Col "longitude") DoubleT)
               (cast_double_of eng) d13 d14
               (fun r => eval_cast_double eng r "longitude") Hd14).
    values_back "longitude".
    rewrite (dropna_col_values df d "longitude" Hd). by rewrite map_map.
  - intros Hloc. apply has_column_true in Hloc.
    rewrite (Hout "location" eq_refl Hloc).
    assert (Hloc14 : has_column d14 "location" = true).
    { columns_back. by rewrite Hloc. }
    rewrite Hloc14 in Hd15.
    rewrite (withColumn_unary eng "location" (ToJson (Col "location"))
               (to_json_of eng) d14 d15
               (fun r => eval_to_json eng r "location") Hd15).
    values_back "location".
    rewrite (dropna_col_values df d "location" Hd). by rewrite map_map.
Qed.

Lemma parsed_columns_witness :
  col_values "crash_date"
    (Examples.transformed [Examples.morning_crash; Examples.evening_crash])
  = map (fun r => to_date_of Reference.engine (cell r "crash_date"))
        (kept_rows (Examples.frame_of [Examples.morning_crash; Examples.evening_crash])).
Proof.
  assert (Hrun : transform_frame Reference.engine
                   (Examples.frame_of [Examples.morning_crash; Examples.evening_crash])
                 = Ok (Examples.transformed
                         [Examples.morning_crash; Examples.evening_crash]))
    by (vm_compute; reflexivity).
  exact (proj1 (parsed_columns Reference.engine _ _ Hrun)).
Defined.

(** ** Forward runs of the pipeline *)

Lemma read_run (w : World) :
  same_setting w (snd (read_last_collision_date w))
  /\ s3 (snd (read_last_collision_date w)) = s3 w
  /\ api (snd (read_last_collision_date w)) = api w
  /\ calls (snd (read_last_collision_date w))
     = calls w ++ [S3GetObject CONFIG_BUCKET CONFIG_FILE_KEY].
Proof.
  unfold read_last_collision_date, s3_get_object, perform, logger_info,
    get_world, modify, lift, mbind, M_bind, mret, M_ret, raise. simpl.
  destruct (s3_get_fails w) eqn:Hget; simpl; [by repeat split |].
  destruct (s3 w !! _) as [[body | |] |]; simpl; try by repeat split.
  destruct (utf8_decode body); simpl; [| by repeat split].
  destruct (Json.loads _) as [doc |]; simpl; [| by repeat split].
  destruct (doc !! _); simpl; by repeat split.
Qed.

Lemma download_run (wm : string) (w : World) :
  same_setting w (snd (download_new_data wm w))
  /\ s3 (snd (download_new_data wm w)) = s3 w.
Proof.
  assert (H : respects (fun _ => True) (fun m m' => m' = m) (download_new_data wm)).
  { apply respects_download_new_data; [done | congruence | done]. }
  destruct (H w) as (Hs & Hk & _). done.
Qed.

(** The setting and the store after the fetch are those of the start. *)
Lemma fetch_run (w w1 w2 : World) (old : string) (all : option DataFrame) :
  read_last_collision_date w = (Ok old, w1) ->
  download_new_data old w1 = (Ok all, w2) ->
  same_setting w w2 /\ s3 w2 = s3 w.
Proof.
  intros Hread Hdl.
  destruct (read_run w) as (Hs1 & Hk1 & _). rewrite Hread in Hs1, Hk1.
  destruct (download_run old w1) as (Hs2 & Hk2). rewrite Hdl in Hs2, Hk2.
  simpl in *. split; [| congruence].
  unfold same_setting in *. intuition congruence.
Qed.

Lemma pipeline_after_fetch (eng : Engine) (w w1 w2 : World) (old : string)
    (batch : DataFrame) :
  read_last_collision_date w = (Ok old, w1) ->
  download_new_data old w1 = (Ok (Some batch), w2) ->
  pipeline eng w
  = (max_crash_date ← lift (agg_max "crash_date" batch);
     new_last_collision_date ← lift (split_date max_crash_date);
     processed_data_path ← transform_data eng batch;
     _ ← load_data_into_redshift processed_data_path;
     update_last_collision_date new_last_collision_date)
      (with_log (INFO, "Total new records downloaded: " +:+ pretty (count batch)) w2).
Proof.
  intros Hread Hdl. unfold pipeline, mbind at 1 2 3, M_bind at 1 2 3.
  rewrite Hread, Hdl. reflexivity.
Qed.

Lemma transform_data_run (eng : Engine) (df : DataFrame) (w : World) :
  transform_data eng df w
  = match transform_frame eng df with
    | Raise e => (Raise e, w)
    | Ok out =>
        if parquet_fails w
        then (Raise Py4JJavaError,
              if parquet_clears w
              then with_s3 (delete processed_key)
                     (with_call (ParquetSave processed_path) w)
              else with_call (ParquetSave processed_path) w)
        else (Ok processed_path,
              with_log (INFO, "Processed data saved to " +:+ processed_path)
                (with_s3 (insert processed_key (ParquetObject out))
                   (with_call (ParquetSave processed_path) w)))
    end.
Proof.
  unfold transform_data, parquet_save, perform, logger_info, get_world, modify,
    lift, raise, mbind, M_bind, mret, M_ret.
  destruct (transform_frame eng df) as [out | e]; [| reflexivity]. simpl.
  destruct (parquet_fails w); [| reflexivity]. by destruct (parquet_clears w).
Qed.

Lemma load_run (path : string) (w : World) :
  load_data_into_redshift path w
  = if redshift_connect_fails w then (Raise DatabaseError, w)
    else if redshift_copy_fails w
    then (Raise DatabaseError,
          with_call (RedshiftExecute (copy_command path))
            (with_log (INFO, "Running Redshift COPY command.") w))
    else (Ok tt,
          with_log (INFO, "Data successfully loaded into Redshift.")
            (with_call (RedshiftExecute (copy_command path))
               (with_log (INFO, "Running Redshift COPY command.") w))).
Proof.
  unfold load_data_into_redshift, perform, logger_info, get_world, modify, raise,
    mbind, M_bind, mret, M_ret. simpl.
  destruct (redshift_connect_fails w); simpl; [reflexivity |].
  destruct (redshift_copy_fails w); simpl; reflexivity.
Qed.

Lemma update_run_explicit (new_date : string) (w : World) :
  update_last_collision_date new_date w
  = if s3_put_fails w
    then (Raise (ClientError "PutObject"),
          with_call (S3PutObject CONFIG_BUCKET CONFIG_FILE_KEY
                       (watermark_document new_date)) w)
    else (Ok tt,
          with_log (INFO, "Updated last_collision_date to " +:+ new_date
                            +:+ " and saved to S3.")
            (with_s3 (insert config_key (TextObject (watermark_document new_date)))
               (with_call (S3PutObject CONFIG_BUCKET CONFIG_FILE_KEY
                             (watermark_document new_date)) w))).
Proof.
  unfold update_last_collision_date, s3_put_object, perform, logger_info,
    get_world, modify, raise, mbind, M_bind, mret, M_ret. simpl.
  by destruct (s3_put_fails w).
Qed.

(** The text of the COPY command for the processed dataset. *)
Example copy_command_text :
  copy_command processed_path
  = nl +:+ "    COPY public.collisions"
    +:+ nl +:+ "    FROM 's3://nyc-collisions-ecc/processed_data/'"
    +:+ nl +:+ "    IAM_ROLE 'arn:aws:iam::340752835797:role/service-role/AmazonRedshift-CommandsAccessRole-20241204T130545'"
    +:+ nl +:+ "    FORMAT AS PARQUET;"
    +:+ nl +:+ "    ".
Proof. reflexivity. Qed.

(** The run of the pipeline after a fetch that returned a batch, when every
    later stage goes through. *)
Lemma pipeline_forward (eng : Engine) (w w1 w2 : World) (old m : string)
    (batch out : DataFrame) :
  read_last_collision_date w = (Ok old, w1) ->
  download_new_data old w1 = (Ok (Some batch), w2) ->
  agg_max "crash_date" batch = Ok (VStr m) ->
  transform_frame eng batch = Ok out ->
  parquet_fails w = false -> redshift_connect_fails w = false ->
  redshift_copy_fails w = false -> s3_put_fails w = false ->
  exists wp,
    pipeline eng w = (Ok tt, wp)
    /\ s3 wp = <[config_key := TextObject (watermark_document (PyStr.split_T_head m))]>
                 (<[processed_key := ParquetObject out]> (s3 w))
    /\ calls wp
       = calls w2
         ++ [ParquetSave processed_path;
             RedshiftExecute (copy_command processed_path);
             S3PutObject CONFIG_BUCKET CONFIG_FILE_KEY
               (watermark_document (PyStr.split_T_head m))].
Proof.
  intros Hread Hdl Hmax Htf Hparquet Hconnect Hcopy Hput.
  destruct (fetch_run w w1 w2 old _ Hread Hdl)
    as ((_ & _ & Hp & Hq & Hc & Hr & _) & Hstore).
  eexists. split.
  { rewrite (pipeline_after_fetch eng w w1 w2 old batch Hread Hdl).
    unfold mbind at 1 2 3, M_bind at 1 2 3, lift. rewrite Hmax. cbn [split_date].
    rewrite transform_data_run, Htf. cbn [parquet_fails with_log].
    rewrite Hq, Hparquet.
    unfold mbind at 1, M_bind at 1. rewrite load_run.
    cbn [redshift_connect_fails redshift_copy_fails with_log with_s3 with_call].
    rewrite Hc, Hconnect, Hr, Hcopy.
    rewrite update_run_explicit.
    cbn [s3_put_fails with_log with_s3 with_call].
    rewrite Hp, Hput. reflexivity. }
  cbn [s3 calls with_log with_s3 with_call]. rewrite Hstore.
  split; [reflexivity |]. rewrite <- !app_assoc. reflexivity.
Qed.

(** X10. A run in which the watermark is read, the fetch returns a batch whose
    maximum [crash_date] is a string, the transformation of the batch
    succeeds and no external system refuses goes through: after the fetch
    it makes three calls, the write of the transformed batch, the execution
    of [copy_command] for the processed path, and the write of the watermark
    document with the date part of the maximum. *)
Theorem pipeline_succeeds (eng : Engine) (w w1 w2 : World) (old m : string)
    (batch out : DataFrame) :
  read_last_collision_date w = (Ok old, w1) ->
  download_new_data old w1 = (Ok (Some batch), w2) ->
  agg_max "crash_date" batch = Ok (VStr m) ->
  transform_frame eng batch = Ok out ->
  parquet_fails w = false -> redshift_connect_fails w = false ->
  redshift_copy_fails w = false -> s3_put_fails w = false ->
  let wp := snd (pipeline eng w) in
  fst (pipeline eng w) = Ok tt
  /\ s3 wp = <[config_key := TextObject (watermark_document (PyStr.split_T_head m))]>
               (<[processed_key := ParquetObject out]> (s3 w))
  /\ calls wp
     = calls w2
       ++ [ParquetSave processed_path;
           RedshiftExecute (copy_command processed_path);
           S3PutObject CONFIG_BUCKET CONFIG_FILE_KEY
             (watermark_document (PyStr.split_T_head m))].
Proof.
  intros Hread Hdl Hmax Htf Hparquet Hconnect Hcopy Hput wp. subst wp.
  destruct (pipeline_forward eng w w1 w2 old m batch out
              Hread Hdl Hmax Htf Hparquet Hconnect Hcopy Hput)
    as (wp & -> & Hstore & Hcalls).
  split; [reflexivity |]. split; [exact Hstore | exact Hcalls].
Qed.

Lemma pipeline_succeeds_witness :
  fst (pipeline Reference.engine (Examples.quiet_world Examples.one_page "2023-01-01"))
  = Ok tt
  /\ s3 (snd (pipeline Reference.engine
                (Examples.quiet_world Examples.one_page "2023-01-01")))
     = <[config_key := TextObject (watermark_document "2023-01-05")]>
         (<[processed_key
            := ParquetObject (Examples.transformed
                                [Examples.morning_crash; Examples.evening_crash])]>
            (s3 (Examples.quiet_world Examples.one_page "2023-01-01"))).
Proof.
  set (w := Examples.quiet_world Examples.one_page "2023-01-01").
  set (batch := Examples.frame_of [Examples.morning_crash; Examples.evening_crash]).
  assert (Hold : fst (read_last_collision_date w) = Ok "2023-01-01")
    by (vm_compute; reflexivity).
  assert (Hread : read_last_collision_date w
                  = (Ok "2023-01-01", snd (read_last_collision_date w)))
    by (rewrite <- Hold; apply surjective_pairing).
  assert (Hbatch : fst (download_new_data "2023-01-01"
                          (snd (read_last_collision_date w)))
                   = Ok (Some batch))
    by (vm_compute; reflexivity).
  assert (Hdl : download_new_data "2023-01-01" (snd (read_last_collision_date w))
                = (Ok (Some batch),
                   snd (download_new_data "2023-01-01"
                          (snd (read_last_collision_date w)))))
    by (rewrite <- Hbatch; apply surjective_pairing).
  assert (Hmax : agg_max "crash_date" batch = Ok (VStr "2023-01-05T00:00:00.000"))
    by (vm_compute; reflexivity).
  assert (Hrun : transform_frame Reference.engine batch
                 = Ok (Examples.transformed
                         [Examples.morning_crash; Examples.evening_crash]))
    by (vm_compute; reflexivity).
  assert (Hparquet : parquet_fails w = false) by reflexivity.
  assert (Hconnect : redshift_connect_fails w = false) by reflexivity.
  assert (Hcopy : redshift_copy_fails w = false) by reflexivity.
  assert (Hput : s3_put_fails w = false) by reflexivity.
  destruct (pipeline_succeeds Reference.engine w _ _ "2023-01-01"
              "2023-01-05T00:00:00.000" batch _
              Hread Hdl Hmax Hrun Hparquet Hconnect Hcopy Hput)
    as (Hok & Hstore & _).
  split; [exact Hok | exact Hstore].
Defined.

(** ** The cleanup *)

Lemma upload_run (w : World) :
  upload_logs_to_s3 w
  = if upload_fails w
    then (Raise (ClientError "UploadFile"),
          with_call (S3UploadFile LOGS_BUCKET (LOGS_KEY_PREFIX +:+ log_file_name w))
            (with_log uploading_line w))
    else (Ok tt,
          with_log uploaded_line
            (with_s3 (insert (log_key w) (LogObject (log_file w ++ [uploading_line])))
               (with_call (S3UploadFile LOGS_BUCKET
                             (LOGS_KEY_PREFIX +:+ log_file_name w))
                  (with_log uploading_line w)))).
Proof.
  unfold upload_logs_to_s3, s3_upload_file, perform, logger_info, get_world,
    modify, raise, mbind, M_bind, mret, M_ret. simpl.
  by destruct (upload_fails w).
Qed.

Lemma spark_stop_run (w : World) :
  spark_stop w
  = (if spark_stop_fails w then Raise Py4JJavaError else Ok tt,
     with_call SparkStop w).
Proof.
  unfold spark_stop, perform, get_world, modify, raise, mbind, M_bind, mret, M_ret.
  simpl. by destruct (spark_stop_fails w).
Qed.

(** The world in which the [finally] block of [main] starts. *)
Lemma main_run (eng : Engine) (w wp : World) (r : result unit) :
  pipeline eng w = (r, wp) ->
  let w1 := match r with Ok _ => wp | Raise _ => with_log error_line wp end in
  main eng w
  = if upload_fails w1
    then (Raise (ClientError "UploadFile"),
          with_call (S3UploadFile LOGS_BUCKET (LOGS_KEY_PREFIX +:+ log_file_name w1))
            (with_log uploading_line w1))
    else (if spark_stop_fails w1 then Raise Py4JJavaError else Ok tt,
          with_call SparkStop
            (with_log uploaded_line
               (with_s3 (insert (log_key w1)
                           (LogObject (log_file w1 ++ [uploading_line])))
                  (with_call (S3UploadFile LOGS_BUCKET
                                (LOGS_KEY_PREFIX +:+ log_file_name w1))
                     (with_log uploading_line w1))))).
Proof.
  intros Hp w1. unfold main, try_finally, try_except. rewrite Hp.
  unfold mbind, M_bind.
  destruct r as [[] | e]; subst w1; simpl;
    rewrite upload_run; cbn [upload_fails with_log];
    destruct (upload_fails wp); try reflexivity;
    rewrite spark_stop_run; cbn [spark_stop_fails with_log with_s3 with_call];
    destruct (spark_stop_fails wp); reflexivity.
Qed.

(** X11. What [main] stores as the log of a run is the log file as it is when the
    upload starts: the local log file ends with the line that reports the
    upload, and the stored copy never has it. This is the one object [main]
    adds to the store after the pipeline. *)
Theorem uploaded_log_is_snapshot (eng : Engine) (w : World) :
  upload_fails w = false ->
  let w' := snd (main eng w) in
  exists lines,
    s3 w' = <[log_key w := LogObject lines]> (s3 (snd (pipeline eng w)))
    /\ log_file w' = lines ++ [uploaded_line]
    /\ last lines = Some uploading_line
    /\ uploaded_line ∉ drop (length (log_file (snd (pipeline eng w)))) lines.
Proof.
  intros Hup w'. subst w'.
  destruct (pipeline eng w) as [r wp] eqn:Hp.
  pose proof (pipeline_frame eng w) as Hframe. rewrite Hp in Hframe.
  destruct Hframe as ((Hts & _ & _ & _ & _ & _ & Hupp & _) & _).
  simpl in Hts, Hupp.
  rewrite (main_run eng w wp r Hp).
  assert (Hkey : forall l, log_key (with_log l wp) = log_key w).
  { intros l. unfold log_key, log_file_name. simpl. by rewrite Hts. }
  assert (Hkey' : log_key wp = log_key w).
  { unfold log_key, log_file_name. by rewrite Hts. }
  destruct r as [[] | e]; cbn [upload_fails with_log]; rewrite Hupp, Hup;
    cbn [fst snd s3 log_file with_log with_s3 with_call];
    rewrite ?Hkey, ?Hkey'; eexists; (split; [reflexivity |]);
    (split; [reflexivity |]); (split; [apply last_snoc |]).
  - rewrite drop_app_length. by intros ?%list_elem_of_singleton.
  - rewrite <- app_assoc, drop_app_length.
    intros Hin. apply elem_of_cons in Hin as [Hin | Hin]; [discriminate Hin |].
    by apply list_elem_of_singleton in Hin.
Qed.

Lemma uploaded_log_is_snapshot_witness :
  exists lines,
    s3 (snd (main Reference.engine (Examples.quiet_world [ok_page []] "2023-01-01")))
    = <[log_key (Examples.quiet_world [ok_page []] "2023-01-01") := LogObject lines]>
        (s3 (snd (pipeline Reference.engine
                    (Examples.quiet_world [ok_page []] "2023-01-01"))))
    /\ log_file (snd (main Reference.engine
                        (Examples.quiet_world [ok_page []] "2023-01-01")))
       = lines ++ [uploaded_line].
Proof.
  assert (Hup : upload_fails (Examples.quiet_world [ok_page []] "2023-01-01") = false)
    by reflexivity.
  destruct (uploaded_log_is_snapshot Reference.engine
              (Examples.quiet_world [ok_page []] "2023-01-01") Hup)
    as (lines & Hstore & Hlog & _).
  exists lines. split; [exact Hstore | exact Hlog].
Defined.

(** ** Runs that stop on the way *)

(** What [main] does after the pipeline leaves every object other than the
    log of the run where it is. *)
Lemma main_keeps (eng : Engine) (w : World) (k : string * string) :
  k <> log_key w ->
  s3 (snd (main eng w)) !! k = s3 (snd (pipeline eng w)) !! k.
Proof.
  intros Hk. destruct (pipeline eng w) as [r wp] eqn:Hp.
  pose proof (pipeline_frame eng w) as Hframe. rewrite Hp in Hframe.
  destruct Hframe as ((Hts & _) & _). simpl in Hts.
  rewrite (main_run eng w wp r Hp).
  assert (Hkey : forall l, log_key (with_log l wp) = log_key w).
  { intros l. unfold log_key, log_file_name. simpl. by rewrite Hts. }
  assert (Hkey' : log_key wp = log_key w).
  { unfold log_key, log_file_name. by rewrite Hts. }
  destruct r as [[] | e]; cbn [upload_fails with_log];
    destruct (upload_fails wp); cbn [fst snd s3 with_log with_s3 with_call];
    rewrite ?Hkey, ?Hkey'; try reflexivity;
    by rewrite lookup_insert_ne.
Qed.

Lemma processed_key_not_log (w : World) : processed_key <> log_key w.
Proof. unfold processed_key, log_key. intros [= H]. Qed.

Lemma config_key_not_log (w : World) : config_key <> log_key w.
Proof. unfold config_key, log_key. intros [= H]. Qed.

(** X12. When the warehouse refuses the connection or the execution of
    [copy_command], the run has already replaced the processed dataset in
    the store: it stays there after [main], with the watermark document
    untouched. After the fetch the pipeline has made the write of the
    dataset and, when the connection was accepted, the one execution of
    [copy_command] for the processed path, and no other call. *)
Theorem failed_load_leaves_processed_data (eng : Engine) (w w1 w2 : World)
    (old m : string) (batch out : DataFrame) :
  read_last_collision_date w = (Ok old, w1) ->
  download_new_data old w1 = (Ok (Some batch), w2) ->
  agg_max "crash_date" batch = Ok (VStr m) ->
  transform_frame eng batch = Ok out ->
  parquet_fails w = false ->
  redshift_connect_fails w = true \/ redshift_copy_fails w = true ->
  let w' := snd (main eng w) in
  fst (pipeline eng w) = Raise DatabaseError
  /\ s3 w' !! processed_key = Some (ParquetObject out)
  /\ s3 w' !! config_key = s3 w !! config_key
  /\ calls (snd (pipeline eng w))
     = calls w2 ++ ParquetSave processed_path
                   :: (if redshift_connect_fails w then []
                       else [RedshiftExecute (copy_command processed_path)]).
Proof.
  intros Hread Hdl Hmax Htf Hparquet Hload w'. subst w'.
  destruct (fetch_run w w1 w2 old _ Hread Hdl)
    as ((_ & _ & Hp & Hq & Hc & Hr & _) & Hstore).
  eassert (Hrun : pipeline eng w = (Raise DatabaseError, _)).
  { rewrite (pipeline_after_fetch eng w w1 w2 old batch Hread Hdl).
    unfold mbind at 1 2 3, M_bind at 1 2 3, lift. rewrite Hmax. cbn [split_date].
    rewrite transform_data_run, Htf. cbn [parquet_fails with_log].
    rewrite Hq, Hparquet.
    unfold mbind at 1, M_bind at 1. rewrite load_run.
    cbn [redshift_connect_fails redshift_copy_fails with_log with_s3 with_call].
    rewrite Hc, Hr.
    instantiate (1 := if redshift_connect_fails w then _ else _).
    destruct (redshift_connect_fails w); [reflexivity |].
    destruct Hload as [Hload | Hload]; [discriminate Hload |].
    rewrite Hload. reflexivity. }
  rewrite !(main_keeps eng w) by
    first [apply processed_key_not_log | apply config_key_not_log].
  rewrite Hrun. cbn [fst snd].
  split; [reflexivity |].
  destruct (redshift_connect_fails w);
    cbn [s3 calls with_log with_s3 with_call]; rewrite Hstore.
  - split; [apply lookup_insert_eq |]. split.
    + apply lookup_insert_ne. intros [= H].
    + reflexivity.
  - split; [apply lookup_insert_eq |]. split.
    + apply lookup_insert_ne. intros [= H].
    + rewrite <- !app_assoc. reflexivity.
Qed.

Lemma failed_load_leaves_processed_data_witness :
  fst (pipeline Reference.engine Examples.rejected_load_world) = Raise DatabaseError
  /\ s3 (snd (main Reference.engine Examples.rejected_load_world)) !! processed_key
     = Some (ParquetObject (Examples.transformed
                              [Examples.morning_crash; Examples.evening_crash]))
  /\ s3 (snd (main Reference.engine Examples.rejected_load_world)) !! config_key
     = s3 Examples.rejected_load_world !! config_key.
Proof.
  set (w := Examples.rejected_load_world).
  set (batch := Examples.frame_of [Examples.morning_crash; Examples.evening_crash]).
  assert (Hold : fst (read_last_collision_date w) = Ok "2023-01-01")
    by (vm_compute; reflexivity).
  assert (Hread : read_last_collision_date w
                  = (Ok "2023-01-01", snd (read_last_collision_date w)))
    by (rewrite <- Hold; apply surjective_pairing).
  assert (Hbatch : fst (download_new_data "2023-01-01"
                          (snd (read_last_collision_date w)))
                   = Ok (Some batch))
    by (vm_compute; reflexivity).
  assert (Hdl : download_new_data "2023-01-01" (snd (read_last_collision_date w))
                = (Ok (Some batch),
                   snd (download_new_data "2023-01-01"
                          (snd (read_last_collision_date w)))))
    by (rewrite <- Hbatch; apply surjective_pairing).
  assert (Hmax : agg_max "crash_date" batch = Ok (VStr "2023-01-05T00:00:00.000"))
    by (vm_compute; reflexivity).
  assert (Hrun : transform_frame Reference.engine batch
                 = Ok (Examples.transformed
                         [Examples.morning_crash; Examples.evening_crash]))
    by (vm_compute; reflexivity).
  assert (Hparquet : parquet_fails w = false) by reflexivity.
  assert (Hload : redshift_connect_fails w = true \/ redshift_copy_fails w = true)
    by (right; reflexivity).
  destruct (failed_load_leaves_processed_data Reference.engine w _ _ "2023-01-01"
              "2023-01-05T00:00:00.000" batch _
              Hread Hdl Hmax Hrun Hparquet Hload)
    as (Hraise & Hdata & Hconfig & _).
  split; [exact Hraise |]. split; [exact Hdata | exact Hconfig].
Defined.

(** X13. A batch of the API's records (distinct lower-case column names) that
    lacks one of the columns the transformer needs makes the run fail before
    anything is written: no write of the processed dataset, no COPY, no
    update of the watermark. *)
Theorem incomplete_batch_writes_nothing (eng : Engine) (w w1 w2 : World)
    (old : string) (batch : DataFrame) (c : string) :
  read_last_collision_date w = (Ok old, w1) ->
  download_new_data old w1 = (Ok (Some batch), w2) ->
  plain_columns batch ->
  c ∈ required_columns -> c ∉ columns batch ->
  (exists e, fst (pipeline eng w) = Raise e)
  /\ s3 (snd (pipeline eng w)) = s3 w
  /\ calls (snd (pipeline eng w)) = calls w2.
Proof.
  intros Hread Hdl _ Hreq Hc.
  destruct (fetch_run w w1 w2 old _ Hread Hdl) as (_ & Hstore).
  assert (Htf : exists e, transform_frame eng batch = Raise e).
  { destruct (transform_frame eng batch) as [out | e] eqn:Htf; [| eauto].
    apply transform_frame_needs in Htf. rewrite Forall_forall in Htf.
    apply Htf, has_column_true in Hreq. done. }
  destruct Htf as [e Htf].
  assert (Hrun : exists e',
             pipeline eng w
             = (Raise e',
                with_log (INFO, "Total new records downloaded: "
                                  +:+ pretty (count batch)) w2)).
  { rewrite (pipeline_after_fetch eng w w1 w2 old batch Hread Hdl).
    unfold mbind at 1 2 3, M_bind at 1 2 3, lift.
    destruct (agg_max "crash_date" batch) as [v | e1]; [| by eauto].
    destruct (split_date v) as [d | e2]; [| by eauto].
    rewrite transform_data_run, Htf. by eauto. }
  destruct Hrun as [e' ->]. simpl. eauto.
Qed.

Lemma incomplete_batch_writes_nothing_witness :
  (exists e, fst (pipeline Reference.engine
                    (Examples.quiet_world
                       [ok_page [Examples.sparse_crash]; ok_page []] "2023-01-01"))
             = Raise e)
  /\ s3 (snd (pipeline Reference.engine
                (Examples.quiet_world
                   [ok_page [Examples.sparse_crash]; ok_page []] "2023-01-01")))
     = s3 (Examples.quiet_world
             [ok_page [Examples.sparse_crash]; ok_page []] "2023-01-01").
Proof.
  set (w := Examples.quiet_world
              [ok_page [Examples.sparse_crash]; ok_page []] "2023-01-01").
  set (batch := Examples.frame_of [Examples.sparse_crash]).
  assert (Hold : fst (read_last_collision_date w) = Ok "2023-01-01")
    by (vm_compute; reflexivity).
  assert (Hread : read_last_collision_date w
                  = (Ok "2023-01-01", snd (read_last_collision_date w)))
    by (rewrite <- Hold; apply surjective_pairing).
  assert (Hbatch : fst (download_new_data "2023-01-01"
                          (snd (read_last_collision_date w)))
                   = Ok (Some batch))
    by (vm_compute; reflexivity).
  assert (Hdl : download_new_data "2023-01-01" (snd (read_last_collision_date w))
                = (Ok (Some batch),
                   snd (download_new_data "2023-01-01"
                          (snd (read_last_collision_date w)))))
    by (rewrite <- Hbatch; apply surjective_pairing).
  assert (Hplain : plain_columns batch)
    by (unfold plain_columns; apply (bool_decide_unpack _); vm_compute; exact I).
  assert (Hreq : "latitude" ∈ required_columns)
    by (apply (bool_decide_unpack _); vm_compute; exact I).
  assert (Hc : "latitude" ∉ columns batch)
    by (apply (bool_decide_unpack _); vm_compute; exact I).
  destruct (incomplete_batch_writes_nothing Reference.engine w _ _ "2023-01-01"
              batch "latitude" Hread Hdl Hplain Hreq Hc)
    as (Hraise & Hstore & _).
  split; [exact Hraise | exact Hstore].
Defined.

(** X14. When the first answer of the API is an empty page or has a status other
    than 200, the run ends normally after two calls, the read of the
    watermark and one request at offset 0: the store is as it was and the
    log says that there is nothing to process. *)
Theorem no_new_data_run (eng : Engine) (w w1 : World) (old : string)
    (t : http_result) (rest : list http_result) :
  read_last_collision_date w = (Ok old, w1) ->
  api w = t :: rest -> stops t ->
  let wp := snd (pipeline eng w) in
  fst (pipeline eng w) = Ok tt
  /\ calls wp = calls w ++ [S3GetObject CONFIG_BUCKET CONFIG_FILE_KEY;
                            HttpGet BASE_URL (query old LIMIT 0)]
  /\ s3 wp = s3 w
  /\ last (log_file wp) = Some no_new_data_line.
Proof.
  intros Hread Hapi Hstop wp. subst wp.
  destruct (read_run w) as (_ & Hs3 & Hapi1 & Hcalls1).
  rewrite Hread in Hs3, Hapi1, Hcalls1. simpl in Hs3, Hapi1, Hcalls1.
  destruct (download_loop_stops LIMIT t rest old 0 None
              (with_log (INFO, "Starting data download from Socrata.") w1) Hstop)
    as (w2 & Hdl & Hcalls2 & _ & Hs32).
  assert (Hrun : pipeline eng w = (Ok tt, with_log no_new_data_line w2)).
  { unfold pipeline, mbind at 1 2, M_bind at 1 2. rewrite Hread.
    unfold download_new_data. rewrite download_pages_loop, Hapi1, Hapi, Hdl.
    reflexivity. }
  rewrite Hrun. cbn [fst snd calls s3 log_file with_log].
  rewrite Hcalls2, Hs32. cbn [calls s3 with_log]. rewrite Hcalls1, Hs3.
  split; [reflexivity |]. split; [by rewrite <- app_assoc |].
  split; [reflexivity |]. apply last_snoc.
Qed.

Lemma no_new_data_run_witness :
  fst (pipeline Reference.engine (Examples.quiet_world [ok_page []] "2023-01-01"))
  = Ok tt
  /\ calls (snd (pipeline Reference.engine
                   (Examples.quiet_world [ok_page []] "2023-01-01")))
     = calls (Examples.quiet_world [ok_page []] "2023-01-01")
       ++ [S3GetObject CONFIG_BUCKET CONFIG_FILE_KEY;
           HttpGet BASE_URL (query "2023-01-01" LIMIT 0)].
Proof.
  set (w := Examples.quiet_world [ok_page []] "2023-01-01").
  assert (Hold : fst (read_last_collision_date w) = Ok "2023-01-01")
    by (vm_compute; reflexivity).
  assert (Hread : read_last_collision_date w
                  = (Ok "2023-01-01", snd (read_last_collision_date w)))
    by (rewrite <- Hold; apply surjective_pairing).
  assert (Hapi : api w = ok_page [] :: []) by reflexivity.
  assert (Hstop : stops (ok_page []))
    by (eexists; split; [reflexivity | right; reflexivity]).
  destruct (no_new_data_run Reference.engine w _ "2023-01-01" _ _ Hread Hapi Hstop)
    as (Hok & Hcalls & _).
  split; [exact Hok | exact Hcalls].
Defined.

(** ** Reading the watermark *)

(** X15. [read_last_collision_date] makes one request and never changes the
    store. It raises when the document is not there, and when the document
    is a JSON object without the member [last_collision_date]. *)
Theorem read_last_collision_date_errors (w : World) :
  s3_get_fails w = false ->
  (s3 w !! config_key = None ->
   fst (read_last_collision_date w) = Raise (ClientError "NoSuchKey"))
  /\ (forall k v, k <> "last_collision_date" ->
        s3 w !! config_key = Some (TextObject (Json.dumps [(k, v)])) ->
        fst (read_last_collision_date w) = Raise (KeyError "last_collision_date"))
  /\ s3 (snd (read_last_collision_date w)) = s3 w
  /\ calls (snd (read_last_collision_date w))
     = calls w ++ [S3GetObject CONFIG_BUCKET CONFIG_FILE_KEY].
Proof.
  intros Hget. destruct (read_run w) as (_ & Hs3 & _ & Hcalls).
  split; [| split; [| done]].
  - intros Hnone.
    unfold read_last_collision_date, s3_get_object, perform, logger_info,
      get_world, modify, lift, mbind, M_bind, mret, M_ret, raise. simpl.
    rewrite Hget. unfold config_key in Hnone. by rewrite Hnone.
  - intros k v Hk Hdoc.
    unfold read_last_collision_date, s3_get_object, perform, logger_info,
      get_world, modify, lift, mbind, M_bind, mret, M_ret, raise. simpl.
    rewrite Hget. unfold config_key in Hdoc. rewrite Hdoc. simpl.
    rewrite utf8_decode_dumps. simpl. rewrite loads_dumps. simpl.
    by rewrite lookup_singleton_ne.
Qed.

Lemma read_last_collision_date_errors_witness :
  fst (read_last_collision_date empty_store_world) = Raise (ClientError "NoSuchKey").
Proof.
  assert (Hget : s3_get_fails empty_store_world = false) by reflexivity.
  assert (Hnone : s3 empty_store_world !! config_key = None) by reflexivity.
  exact (proj1 (read_last_collision_date_errors empty_store_world Hget) Hnone).
Defined.

(** ** Requests that fail *)

Lemma download_loop_breaks (limit : Z) (t : http_result) (e : exn)
    (rest : list http_result) (wm : string) (offset : Z) (acc : option DataFrame)
    (w : World) :
  breaks t e ->
  exists w', download_loop limit (t :: rest) wm offset acc w = (Raise e, w')
             /\ calls w' = calls w ++ [HttpGet BASE_URL (query wm limit offset)]
             /\ s3 w' = s3 w.
Proof.
  intros [[-> ->] | (r & -> & H200 & Hjson & ->)]; simpl;
    unfold requests_get, perform, modify, logger_error, logger_info, lift, raise,
      mbind, M_bind, mret, M_ret; simpl; [eauto |].
  rewrite H200. simpl. unfold response_json. rewrite Hjson. simpl. eauto.
Qed.

Lemma download_loop_pages_break (limit : Z) (wm : string) (t : http_result)
    (e : exn) (rest : list http_result) (pages : list (list row)) :
  Forall (fun data => data <> []) pages -> breaks t e ->
  forall (offset : Z) (acc final : option DataFrame) (w : World),
    accumulate acc pages = Ok final ->
    exists w',
      download_loop limit (map ok_page pages ++ t :: rest) wm offset acc w
      = (Raise e, w')
      /\ calls w' = calls w ++ page_requests limit wm offset (S (length pages))
      /\ s3 w' = s3 w.
Proof.
  intros Hpages Hbreak. induction Hpages as [| data pages Hdata Hpages IH];
    intros offset acc final w Hacc.
  - destruct (download_loop_breaks limit t e rest wm offset acc w Hbreak)
      as (w' & Hrun & Hcalls & Hs3).
    exists w'. rewrite page_requests_S. simpl. rewrite Hcalls. auto.
  - simpl in Hacc.
    apply bind_Ok_inv in Hacc as (batch_df & Hbatch & Hacc).
    apply bind_Ok_inv in Hacc as (all_data_df & Hunion & Hacc).
    cbn [map app download_loop].
    unfold requests_get, perform, modify, logger_error, logger_info, lift,
      mbind at 1 2 3 4 5 6 7 8, M_bind, mret, M_ret. simpl.
    destruct data as [| record data]; [done |].
    rewrite Hbatch.
    destruct acc as [df |]; simpl in Hunion |- *;
      [rewrite Hunion | injection Hunion as <-]; simpl.
    all: match goal with
         | |- exists w', download_loop _ _ _ _ ?a ?w1 = _ /\ _ =>
             destruct (IH (offset + limit) a final w1 Hacc)
               as (w' & Hrun & Hcalls & Hs3)
         end.
    all: exists w'; split; [exact Hrun |]; rewrite Hcalls, Hs3;
      rewrite (page_requests_S limit wm offset (S (length pages)));
      simpl; rewrite <- app_assoc; auto.
Qed.

(** X16. A request that cannot be made, or a body with status 200 that is not
    JSON, makes [download_new_data] raise, whatever pages came before: the
    records fetched so far are not returned. No request follows the one that
    failed. *)
Theorem fetch_raises_without_partial_result (limit : Z) (wm : string)
    (pages : list (list row)) (t : http_result) (e : exn)
    (rest : list http_result) (fetched : option DataFrame) (w : World) :
  Forall (fun data => data <> []) pages ->
  accumulate None pages = Ok fetched ->
  breaks t e ->
  api w = map ok_page pages ++ t :: rest ->
  fst (download_pages limit wm w) = Raise e
  /\ calls (snd (download_pages limit wm w))
     = calls w ++ page_requests limit wm 0 (S (length pages))
  /\ s3 (snd (download_pages limit wm w)) = s3 w.
Proof.
  intros Hpages Hacc Hbreak Hapi. rewrite download_pages_loop, Hapi.
  destruct (download_loop_pages_break limit wm t e rest pages Hpages Hbreak
              0 None fetched
              (with_log (INFO, "Starting data download from Socrata.") w) Hacc)
    as (w' & Hrun & Hcalls & Hs3).
  rewrite Hrun. done.
Qed.

Lemma fetch_raises_without_partial_result_witness :
  fst (download_pages LIMIT "2023-01-01"
         (Examples.quiet_world [ok_page [Examples.morning_crash]; Unreachable]
            "2023-01-01"))
  = Raise ConnectionError.
Proof.
  assert (Hpages : Forall (fun data : list row => data <> [])
                     [[Examples.morning_crash]])
    by (repeat constructor; discriminate).
  assert (Hacc : accumulate None [[Examples.morning_crash]]
                 = Ok (Some (Examples.frame_of [Examples.morning_crash])))
    by (vm_compute; reflexivity).
  assert (Hbreak : breaks Unreachable ConnectionError)
    by (left; split; reflexivity).
  assert (Hapi : api (Examples.quiet_world
                        [ok_page [Examples.morning_crash]; Unreachable] "2023-01-01")
                 = map ok_page [[Examples.morning_crash]] ++ Unreachable :: [])
    by reflexivity.
  exact (proj1 (fetch_raises_without_partial_result LIMIT "2023-01-01" _ _ _ _ _ _
                  Hpages Hacc Hbreak Hapi)).
Defined.

(** * The orchestrator and the watermark *)

(** The pipeline writes under the processed-data prefix and the key of the
    watermark document, and nowhere else. *)
Lemma pipeline_keeps (eng : Engine) (k : string * string) (w : World) :
  k <> processed_key -> k <> config_key ->
  s3 (snd (pipeline eng w)) !! k = s3 w !! k.
Proof.
  intros Hdata Hconfig.
  set (K := fun m m' : gmap (string * string) s3_object => m' !! k = m !! k).
  assert (Hrefl : forall m, K m m) by done.
  assert (Htrans : forall m1 m2 m3, K m1 m2 -> K m2 m3 -> K m1 m3)
    by (unfold K; congruence).
  assert (Hins : forall m df,
             K m (<[(DATA_BUCKET, PROCESSED_DATA_PREFIX +:+ "/") := ParquetObject df]> m)).
  { intros m df. unfold K. apply lookup_insert_ne. intros Heq. by apply Hdata. }
  assert (Hdel : forall m, K m (delete (DATA_BUCKET, PROCESSED_DATA_PREFIX +:+ "/") m)).
  { intros m. unfold K. apply lookup_delete_ne. intros Heq. by apply Hdata. }
  assert (Hdoc : forall m body, K m (<[config_key := TextObject body]> m)).
  { intros m body. unfold K. apply lookup_insert_ne. intros Heq. by apply Hconfig. }
  assert (H : respects pipeline_call K (pipeline eng)).
  { unfold pipeline.
    apply respects_bind; try assumption; [| intros last_collision_date].
    { apply respects_read_last_collision_date; try assumption; done. }
    apply respects_bind; try assumption; [| intros all_data_df].
    { apply respects_download_new_data; try assumption; done. }
    destruct all_data_df as [all_data_df |];
      [| apply respects_logger_info; assumption].
    apply respects_bind; try assumption;
      [apply respects_logger_info; assumption | intros _].
    apply respects_bind; try assumption;
      [apply respects_lift; assumption | intros max_crash_date].
    apply respects_bind; try assumption;
      [apply respects_lift; assumption | intros new_date].
    apply respects_bind; try assumption; [| intros path].
    { apply respects_transform_data; try assumption; done. }
    apply respects_bind; try assumption; [| intros _].
    { apply respects_load_data_into_redshift; try assumption; done. }
    apply respects_update_last_collision_date; try assumption; done. }
  destruct (H w) as (_ & Hk & _). exact Hk.
Qed.

(** C8, as the code has it. An exception raised at any stage of the
    pipeline is caught by the one handler of [main] and logged, and it never
    reaches the caller: what [main] returns or raises is decided by the
    [finally] block alone. The log upload is attempted in every run, once and
    after all calls of the pipeline, followed by [spark.stop()] when the
    upload succeeds; when both succeed [main] returns normally and the log,
    with the error line of a failed run, is in the store. An exception of
    the upload itself is not caught, and then no log object is stored: the
    store is as the pipeline left it, and under the key of the log there is
    what was there before the run. *)
Theorem main_catches_and_uploads (eng : Engine) (w : World) :
  let w' := snd (main eng w) in
  let key := LOGS_KEY_PREFIX +:+ log_file_name w in
  fst (main eng w) = cleanup_outcome w
  /\ (upload_fails w = false -> spark_stop_fails w = false -> fst (main eng w) = Ok tt)
  /\ (exists cs,
        Forall pipeline_call cs
        /\ calls w' = calls w ++ cs ++ S3UploadFile LOGS_BUCKET key
                                       :: (if upload_fails w then [] else [SparkStop]))
  /\ (forall e, fst (pipeline eng w) = Raise e -> error_line ∈ log_file w')
  /\ (upload_fails w = false ->
      exists lines,
        s3 w' !! (LOGS_BUCKET, key) = Some (LogObject lines)
        /\ (forall e, fst (pipeline eng w) = Raise e -> error_line ∈ lines))
  /\ (upload_fails w = true ->
      s3 w' = s3 (snd (pipeline eng w))
      /\ s3 w' !! (LOGS_BUCKET, key) = s3 w !! (LOGS_BUCKET, key)).
Proof.
  intros w' key. subst w' key.
  pose proof (main_outcome eng w) as Hmain. cbv zeta in Hmain.
  destruct Hmain as (H1 & H2 & H3 & H4 & H5).
  refine (conj H1 (conj H2 (conj H3 (conj H4 (conj H5 _))))).
  intros Hup.
  assert (Hsame : s3 (snd (main eng w)) = s3 (snd (pipeline eng w))).
  { destruct (pipeline eng w) as [r wp] eqn:Hp.
    pose proof (pipeline_frame eng w) as Hframe. rewrite Hp in Hframe.
    destruct Hframe as ((_ & _ & _ & _ & _ & _ & Hupp & _) & _). simpl in Hupp.
    rewrite (main_run eng w wp r Hp).
    destruct r as [[] | e]; cbn [upload_fails with_log]; rewrite Hupp, Hup;
      reflexivity. }
  split; [exact Hsame |]. rewrite Hsame.
  apply (pipeline_keeps eng (log_key w) w).
  - intros Heq. by apply (processed_key_not_log w).
  - intros Heq. by apply (config_key_not_log w).
Qed.

Lemma main_catches_and_uploads_witness :
  fst (pipeline Reference.engine Examples.rejected_load_world) = Raise DatabaseError
  /\ fst (main Reference.engine Examples.rejected_load_world) = Ok tt
  /\ exists lines,
       s3 (snd (main Reference.engine Examples.rejected_load_world))
         !! (LOGS_BUCKET, LOGS_KEY_PREFIX +:+ log_file_name Examples.rejected_load_world)
       = Some (LogObject lines)
       /\ error_line ∈ lines.
Proof.
  assert (Hraise : fst (pipeline Reference.engine Examples.rejected_load_world)
                   = Raise DatabaseError) by (vm_compute; reflexivity).
  assert (Hup : upload_fails Examples.rejected_load_world = false) by reflexivity.
  assert (Hstop : spark_stop_fails Examples.rejected_load_world = false)
    by reflexivity.
  destruct (main_catches_and_uploads Reference.engine Examples.rejected_load_world)
    as (_ & Hok & _ & _ & Hlog & _).
  destruct (Hlog Hup) as (lines & Hlines & Herr).
  split; [exact Hraise |]. split; [exact (Hok Hup Hstop) |].
  exists lines. split; [exact Hlines | exact (Herr _ Hraise)].
Defined.

(** C8 as stated fails: with the store down, the read of the watermark
    raises and is caught and logged, and then the log upload in the
    [finally] block raises; [main] does not return normally. *)
Lemma main_raises_counterexample :
  fst (pipeline Reference.engine Examples.outage_world)
  = Raise (ClientError "GetObject")
  /\ fst (main Reference.engine Examples.outage_world)
     = Raise (ClientError "UploadFile")
  /\ s3 (snd (main Reference.engine Examples.outage_world))
       !! (LOGS_BUCKET, LOGS_KEY_PREFIX +:+ log_file_name Examples.outage_world)
     = None.
Proof. repeat split; vm_compute; reflexivity. Qed.

(** ** The watermark across a run *)

Lemma watermark_run (eng : Engine) (w : World) :
  let w' := snd (main eng w) in
  (forall e, fst (pipeline eng w) = Raise e ->
     s3 w' !! config_key = s3 w !! config_key)
  /\ (forall old w1 w2,
        read_last_collision_date w = (Ok old, w1) ->
        download_new_data old w1 = (Ok None, w2) ->
        s3 w' !! config_key = s3 w !! config_key)
  /\ (s3 w' !! config_key <> s3 w !! config_key -> fst (pipeline eng w) = Ok tt)
  /\ (forall old w1 batch w2,
        read_last_collision_date w = (Ok old, w1) ->
        download_new_data old w1 = (Ok (Some batch), w2) ->
        fst (pipeline eng w) = Ok tt ->
        exists m cs1 cs2,
          agg_max "crash_date" batch = Ok (VStr m)
          /\ (exists r', r' ∈ rows batch /\ cell r' "crash_date" = VStr m)
          /\ (Forall (fun r' => string_or_null (cell r' "crash_date")) (rows batch) ->
              forall r' s, r' ∈ rows batch -> cell r' "crash_date" = VStr s ->
                PyStr.leb s m = true)
          /\ s3 w' !! config_key
             = Some (TextObject
                       (Json.dumps [("last_collision_date", PyStr.split_T_head m)]))
          /\ fst (read_last_collision_date w') = Ok (PyStr.split_T_head m)
          /\ redshift_connect_fails w = false
          /\ redshift_copy_fails w = false
          /\ calls w'
             = calls w ++ cs1
               ++ [RedshiftExecute (copy_command processed_path);
                   S3PutObject CONFIG_BUCKET CONFIG_FILE_KEY
                     (Json.dumps [("last_collision_date", PyStr.split_T_head m)])]
               ++ cs2
          /\ Forall not_the_write cs1 /\ Forall not_the_write cs2
          /\ (honors_filter old batch -> date_parts_cover old batch ->
              PyStr.leb old (PyStr.split_T_head m) = true)).
Proof.
  intros w'. subst w'.
  destruct (pipeline eng w) as [r wp] eqn:Hp.
  pose proof (main_after_pipeline eng w wp r Hp) as Hq.
  destruct Hq as (Hs2 & Hk2 & (cs2 & Hc2 & Hcs2) & _). unfold config_kept in Hk2.
  apply pipeline_run in Hp as (Hs1 & Hcases). simpl.
  destruct Hcases as [(Hkeep & _ & Hempty)
                     | (-> & old & w1 & batch & w2 & m & cs & Hread & Hdl
                        & Hmax & Hconnect & Hcopy & Hdoc & Hcs & Hcalls)].
  - assert (Hsame : s3 (snd (main eng w)) !! config_key = s3 w !! config_key)
      by congruence.
    split; [done |]. split; [done |]. split; [done |].
    intros old w1 batch w2 Hread Hdl ->.
    destruct (Hempty eq_refl) as (old' & w1' & w2' & Hread' & Hdl').
    rewrite Hread in Hread'. injection Hread' as <- <-.
    rewrite Hdl in Hdl'. discriminate Hdl'.
  - split; [discriminate |]. split.
    { intros old' w1' w2' Hread' Hdl'.
      rewrite Hread in Hread'. injection Hread' as <- <-.
      rewrite Hdl in Hdl'. discriminate Hdl'. }
    split; [done |].
    intros old' w1' batch' w2' Hread' Hdl' _.
    rewrite Hread in Hread'. injection Hread' as <- <-.
    rewrite Hdl in Hdl'. injection Hdl' as <- <-.
    exists m, cs, cs2.
    assert (Hnew : s3 (snd (main eng w)) !! config_key
                   = Some (TextObject
                             (Json.dumps [("last_collision_date",
                                           PyStr.split_T_head m)])))
      by congruence.
    split; [exact Hmax |]. split.
    { apply agg_max_elem in Hmax as Hin. destruct Hin as [| Hin]; [done | exact Hin]. }
    split; [by apply agg_max_upper |].
    split; [exact Hnew |]. split.
    { apply read_written; [| exact Hnew].
      apply read_Ok_get in Hread. unfold same_setting in *. intuition congruence. }
    split; [exact Hconnect |]. split; [exact Hcopy |]. split.
    { rewrite Hc2, Hcalls. rewrite <- !app_assoc. reflexivity. }
    split; [exact Hcs |]. split; [exact Hcs2 |].
    intros Hfilter Hcover. by eapply new_watermark_ge.
Qed.

(** A fetch that a status other than 200 cuts short after at least one page
    is no failure of the pipeline: when the later stages go through, the run
    returns normally and the watermark is written from the pages fetched so
    far. *)
Lemma cut_short_fetch_advances (eng : Engine) (w w1 : World) (old m : string)
    (pages : list (list row)) (r : response) (rest : list http_result)
    (batch out : DataFrame) :
  read_last_collision_date w = (Ok old, w1) ->
  api w = map ok_page pages ++ Responds r :: rest ->
  Forall (fun data => data <> []) pages ->
  status_code r <> 200 ->
  accumulate None pages = Ok (Some batch) ->
  agg_max "crash_date" batch = Ok (VStr m) ->
  transform_frame eng batch = Ok out ->
  parquet_fails w = false -> redshift_connect_fails w = false ->
  redshift_copy_fails w = false -> s3_put_fails w = false ->
  fst (pipeline eng w) = Ok tt
  /\ s3 (snd (main eng w)) !! config_key
     = Some (TextObject (Json.dumps [("last_collision_date", PyStr.split_T_head m)])).
Proof.
  intros Hread Hapi Hpages Hstatus Hacc Hmax Htf Hparquet Hconnect Hcopy Hput.
  destruct (read_run w) as (_ & _ & Hapi1 & _). rewrite Hread in Hapi1.
  simpl in Hapi1.
  destruct (download_loop_pages LIMIT old (Responds r) rest pages Hpages
              ltac:(exists r; split; [reflexivity | by left]) 0 None (Some batch)
              (with_log (INFO, "Starting data download from Socrata.") w1) Hacc)
    as (w2 & Hloop & _).
  assert (Hdl : download_new_data old w1 = (Ok (Some batch), w2)).
  { unfold download_new_data. by rewrite download_pages_loop, Hapi1, Hapi. }
  destruct (pipeline_forward eng w w1 w2 old m batch out
              Hread Hdl Hmax Htf Hparquet Hconnect Hcopy Hput)
    as (wp & Hrun & Hstore & _).
  rewrite (main_keeps eng w config_key (config_key_not_log w)).
  rewrite Hrun. cbn [fst snd]. split; [reflexivity |].
  rewrite Hstore. apply lookup_insert_eq.
Qed.

(** C7, as the code has it. The watermark document is written only by a run
    whose pipeline raised no exception: an exception at any stage, or an
    empty fetch, leaves it as it was. A run that returns normally on a
    non-empty batch writes the date part (what precedes the first ["T"]) of
    the maximum [crash_date] of the batch, a value of the batch that none of
    its strings exceeds, right after the execution of [copy_command] and
    nowhere else, and the next read returns that date. The new watermark is
    not below the old one when the API has honoured the filter
    [crash_date > 'old watermark'] and the old watermark is no longer than
    the date part of any fetched [crash_date]. A fetch that a status other
    than 200 cuts short after at least one page raises no exception: when
    the later stages go through, the watermark is written from the pages
    fetched so far. *)
Theorem watermark_written_on_success (eng : Engine) (w : World) :
  let w' := snd (main eng w) in
  (forall e, fst (pipeline eng w) = Raise e ->
     s3 w' !! config_key = s3 w !! config_key)
  /\ (forall old w1 w2,
        read_last_collision_date w = (Ok old, w1) ->
        download_new_data old w1 = (Ok None, w2) ->
        s3 w' !! config_key = s3 w !! config_key)
  /\ (s3 w' !! config_key <> s3 w !! config_key -> fst (pipeline eng w) = Ok tt)
  /\ (forall old w1 batch w2,
        read_last_collision_date w = (Ok old, w1) ->
        download_new_data old w1 = (Ok (Some batch), w2) ->
        fst (pipeline eng w) = Ok tt ->
        exists m cs1 cs2,
          agg_max "crash_date" batch = Ok (VStr m)
          /\ (exists r', r' ∈ rows batch /\ cell r' "crash_date" = VStr m)
          /\ (Forall (fun r' => string_or_null (cell r' "crash_date")) (rows batch) ->
              forall r' s, r' ∈ rows batch -> cell r' "crash_date" = VStr s ->
                PyStr.leb s m = true)
          /\ s3 w' !! config_key
             = Some (TextObject
                       (Json.dumps [("last_collision_date", PyStr.split_T_head m)]))
          /\ fst (read_last_collision_date w') = Ok (PyStr.split_T_head m)
          /\ redshift_connect_fails w = false
          /\ redshift_copy_fails w = false
          /\ calls w'
             = calls w ++ cs1
               ++ [RedshiftExecute (copy_command processed_path);
                   S3PutObject CONFIG_BUCKET CONFIG_FILE_KEY
                     (Json.dumps [("last_collision_date", PyStr.split_T_head m)])]
               ++ cs2
          /\ Forall not_the_write cs1 /\ Forall not_the_write cs2
          /\ (honors_filter old batch -> date_parts_cover old batch ->
              PyStr.leb old (PyStr.split_T_head m) = true))
  /\ (forall old w1 pages r rest batch m out,
        read_last_collision_date w = (Ok old, w1) ->
        api w = map ok_page pages ++ Responds r :: rest ->
        Forall (fun data => data <> []) pages ->
        status_code r <> 200 ->
        accumulate None pages = Ok (Some batch) ->
        agg_max "crash_date" batch = Ok (VStr m) ->
        transform_frame eng batch = Ok out ->
        parquet_fails w = false -> redshift_connect_fails w = false ->
        redshift_copy_fails w = false -> s3_put_fails w = false ->
        fst (pipeline eng w) = Ok tt
        /\ s3 w' !! config_key
           = Some (TextObject
                     (Json.dumps [("last_collision_date", PyStr.split_T_head m)]))).
Proof.
  intros w'. subst w'.
  pose proof (watermark_run eng w) as Hrun. cbv zeta in Hrun.
  destruct Hrun as (H1 & H2 & H3 & H4).
  refine (conj H1 (conj H2 (conj H3 (conj H4 _)))).
  intros old w1 pages r rest batch m out.
  apply cut_short_fetch_advances.
Qed.

Lemma honors_filter_checked (watermark : string) (batch : DataFrame) :
  honors_filter_check watermark batch = true -> honors_filter watermark batch.
Proof.
  unfold honors_filter_check. rewrite forallb_forall. intros Hall r s Hr Hs.
  apply list_elem_of_In, Hall in Hr. by rewrite Hs in Hr.
Qed.

Lemma date_parts_cover_checked (watermark : string) (batch : DataFrame) :
  date_parts_cover_check watermark batch = true -> date_parts_cover watermark batch.
Proof.
  unfold date_parts_cover_check. rewrite forallb_forall. intros Hall r s Hr Hs.
  apply list_elem_of_In, Hall in Hr. rewrite Hs in Hr. by apply Nat.leb_le.
Qed.

Lemma watermark_written_on_success_witness :
  fst (read_last_collision_date (Examples.quiet_world Examples.one_page "2023-01-01"))
  = Ok "2023-01-01"
  /\ fst (read_last_collision_date
            (snd (main Reference.engine
                    (Examples.quiet_world Examples.one_page "2023-01-01"))))
     = Ok "2023-01-05"
  /\ PyStr.leb "2023-01-01" "2023-01-05" = true.
Proof.
  set (w := Examples.quiet_world Examples.one_page "2023-01-01").
  set (batch := Examples.frame_of [Examples.morning_crash; Examples.evening_crash]).
  assert (Hold : fst (read_last_collision_date w) = Ok "2023-01-01")
    by (vm_compute; reflexivity).
  assert (Hread : read_last_collision_date w
                  = (Ok "2023-01-01", snd (read_last_collision_date w)))
    by (rewrite <- Hold; apply surjective_pairing).
  assert (Hbatch : fst (download_new_data "2023-01-01"
                          (snd (read_last_collision_date w)))
                   = Ok (Some batch))
    by (vm_compute; reflexivity).
  assert (Hdl : download_new_data "2023-01-01" (snd (read_last_collision_date w))
                = (Ok (Some batch),
                   snd (download_new_data "2023-01-01"
                          (snd (read_last_collision_date w)))))
    by (rewrite <- Hbatch; apply surjective_pairing).
  assert (Hrun : fst (pipeline Reference.engine w) = Ok tt)
    by (vm_compute; reflexivity).
  assert (Hmax : agg_max "crash_date" batch = Ok (VStr "2023-01-05T00:00:00.000"))
    by (vm_compute; reflexivity).
  assert (Hfilter : honors_filter "2023-01-01" batch)
    by (apply honors_filter_checked; vm_compute; reflexivity).
  assert (Hcover : date_parts_cover "2023-01-01" batch)
    by (apply date_parts_cover_checked; vm_compute; reflexivity).
  destruct (proj1 (proj2 (proj2 (proj2
                (watermark_written_on_success Reference.engine w))))
              "2023-01-01" _ batch _ Hread Hdl Hrun)
    as (m & cs1 & cs2 & Hm & _ & _ & _ & Hnext & _ & _ & _ & _ & _ & Hge).
  rewrite Hmax in Hm. injection Hm as <-.
  split; [exact Hold |]. split; [exact Hnext |]. exact (Hge Hfilter Hcover).
Defined.

(** C7 as stated fails. A status 500 after the first page is a failure of
    the fetch, and the run goes on with that page and moves the watermark
    from 2023-01-01 to 2023-01-05. With a stored watermark that holds a
    timestamp, the API honours the filter and the run writes the date part
    of the maximum, which is below the watermark it replaces. *)
Lemma watermark_unchanged_on_failure_counterexample :
  api cut_short_world
  = [ok_page [Examples.morning_crash; Examples.evening_crash];
     Responds {| status_code := 500; json := None |}]
  /\ fst (read_last_collision_date cut_short_world) = Ok "2023-01-01"
  /\ fst (pipeline Reference.engine cut_short_world) = Ok tt
  /\ fst (read_last_collision_date (snd (main Reference.engine cut_short_world)))
     = Ok "2023-01-05"
  /\ honors_filter_check "2023-01-05T00:00:00.000" (Examples.frame_of [noon_crash])
     = true
  /\ fst (read_last_collision_date timestamp_watermark_world)
     = Ok "2023-01-05T00:00:00.000"
  /\ fst (pipeline Reference.engine timestamp_watermark_world) = Ok tt
  /\ fst (read_last_collision_date
            (snd (main Reference.engine timestamp_watermark_world)))
     = Ok "2023-01-05"
  /\ PyStr.ltb "2023-01-05" "2023-01-05T00:00:00.000" = true.
Proof. repeat split; vm_compute; reflexivity. Qed.
